(** * OmsAgentForLinux extension handler (OmsAgent/Fairfax/omsagent_ff.py)

    A shallow embedding of the retryable command engine and of the
    connection-conflict detector of the handler, with the properties of
    the specification stated over it.

    The handler is Python 2 code.  Byte strings ([str]) are [string],
    integers are [Z], and the comparisons [x is 0], [x is 1], ... on exit
    codes are equality on [Z] (CPython shares the small integers).
    Everything the handler asks of the machine (running a command, testing
    a path, reading a file, walking a directory) is answered by a [host],
    as a function of the history of events so far; the handler itself is
    written in a state-and-exception monad over that history. *)

From Stdlib Require Import ZArith List String Ascii Bool Lia DecimalString Permutation.
Import ListNotations.

Local Open Scope string_scope.
Local Open Scope Z_scope.

(* ------------------------------------------------------------------ *)
(** ** Python byte-string operations used by the handler *)

Module PyStr.

(** [str.isspace] on one byte: space, \t, \n, \v, \f, \r. *)
Definition is_space (c : ascii) : bool :=
  let n := nat_of_ascii c in
  (n =? 32)%nat || ((9 <=? n)%nat && (n <=? 13)%nat).

Definition lower_char (c : ascii) : ascii :=
  let n := nat_of_ascii c in
  if ((65 <=? n)%nat && (n <=? 90)%nat)%bool then ascii_of_nat (n + 32) else c.

(** [s.lower()] *)
Fixpoint lower (s : string) : string :=
  match s with
  | EmptyString => EmptyString
  | String c r => String (lower_char c) (lower r)
  end.

Fixpoint lstrip (s : string) : string :=
  match s with
  | EmptyString => EmptyString
  | String c r => if is_space c then lstrip r else s
  end.

Fixpoint rstrip (s : string) : string :=
  match s with
  | EmptyString => EmptyString
  | String c r =>
      match rstrip r with
      | EmptyString => if is_space c then EmptyString else String c EmptyString
      | r' => String c r'
      end
  end.

(** [s.strip()] *)
Definition strip (s : string) : string := rstrip (lstrip s).

(** [s.startswith(p)] *)
Fixpoint startswith (p s : string) : bool :=
  match p, s with
  | EmptyString, _ => true
  | String a p', String b s' => Ascii.eqb a b && startswith p' s'
  | String _ _, EmptyString => false
  end.

(** [sub in s] *)
Fixpoint contains (sub s : string) : bool :=
  startswith sub s ||
  match s with
  | EmptyString => false
  | String _ r => contains sub r
  end.

(** [s.split(sep)] for a separator of one character: every occurrence
    cuts, empty fields are kept, and the empty string gives [['']]. *)
Fixpoint split_on (sep : ascii) (s : string) : list string :=
  match s with
  | EmptyString => [EmptyString]
  | String c r =>
      if Ascii.eqb c sep then EmptyString :: split_on sep r
      else match split_on sep r with
           | f :: fs => String c f :: fs
           | [] => [String c EmptyString]
           end
  end.

(** [s.replace(a, b)] for single characters. *)
Fixpoint replace_char (a b : ascii) (s : string) : string :=
  match s with
  | EmptyString => EmptyString
  | String c r => String (if Ascii.eqb c a then b else c) (replace_char a b r)
  end.

(** [x in l] for a list of strings. *)
Definition mem (x : string) (l : list string) : bool :=
  existsb (String.eqb x) l.

(** [str(n)] for an integer. *)
Definition str_of_Z (n : Z) : string := NilZero.string_of_int (Z.to_int n).

(** [os.path.basename]: what follows the last slash. *)
Fixpoint basename (p : string) : string :=
  match p with
  | EmptyString => EmptyString
  | String c r => if contains "/" r then basename r
                  else if Ascii.eqb c "/" then r else p
  end.

(** The character [c] occurs in [s]. *)
Definition occurs (c : ascii) (s : string) : Prop :=
  In c (list_ascii_of_string s).

Definition newline : ascii := ascii_of_nat 10.

(** The double-quote character, as a string. *)
Definition dquote : string := String (ascii_of_nat 34) EmptyString.

End PyStr.
Import PyStr.

(* ------------------------------------------------------------------ *)
(** ** The regular expressions of the handler

    All of them are compiled with [re.M]: [^] matches at the start of the
    text and after every newline, [$] at the end of the text and before
    every newline, [.] matches anything but a newline, and [\s] is
    [is_space]. *)

Module Regex.

Definition is_digit (c : ascii) : bool :=
  let n := nat_of_ascii c in ((48 <=? n) && (n <=? 57))%nat.

Definition is_hex (c : ascii) : bool :=
  let n := nat_of_ascii c in
  (((48 <=? n) && (n <=? 57)) || ((97 <=? n) && (n <=? 102))
   || ((65 <=? n) && (n <=? 70)))%nat.

Definition is_char (a : ascii) (c : ascii) : bool := Ascii.eqb a c.

(** One character class per position: returns what is left of the text. *)
Fixpoint match_classes (cls : list (ascii -> bool)) (s : string) : option string :=
  match cls with
  | [] => Some s
  | p :: ps =>
      match s with
      | String c r => if p c then match_classes ps r else None
      | EmptyString => None
      end
  end.

(** A literal: returns what is left of the text. *)
Fixpoint match_literal (lit s : string) : option string :=
  match lit with
  | EmptyString => Some s
  | String a lit' =>
      match s with
      | String c r => if Ascii.eqb a c then match_literal lit' r else None
      | EmptyString => None
      end
  end.

(** [[\s]*], greedy. *)
Definition skip_spaces (s : string) : string := lstrip s.

(** [$] under [re.M]. *)
Definition at_eol (s : string) : bool :=
  match s with
  | EmptyString => true
  | String c _ => Ascii.eqb c newline
  end.

(** A group [( .* )] closed by [$] under [re.M]: the rest of the line. *)
Fixpoint rest_of_line (s : string) : string :=
  match s with
  | EmptyString => EmptyString
  | String c r => if Ascii.eqb c newline then EmptyString else String c (rest_of_line r)
  end.

(** [search] for a pattern that starts with [^]: the pattern is tried at
    the start of the text and after every newline, leftmost first. *)
Fixpoint search_from {A} (m : string -> option A) (at_bol : bool) (s : string) : option A :=
  match (if at_bol then m s else None) with
  | Some a => Some a
  | None =>
      match s with
      | EmptyString => None
      | String c r => search_from m (Ascii.eqb c newline) r
      end
  end.

Definition search_bol {A} (m : string -> option A) (s : string) : option A :=
  search_from m true s.

(** GUIDRegex = r'[0-9a-fA-F]{8}-[0-9a-fA-F]{4}-[0-9a-fA-F]{4}-[0-9a-fA-F]{4}-[0-9a-fA-F]{12}' *)
Definition GUIDRegex : list (ascii -> bool) :=
  repeat is_hex 8 ++ [is_char "-"] ++ repeat is_hex 4 ++ [is_char "-"] ++
  repeat is_hex 4 ++ [is_char "-"] ++ repeat is_hex 4 ++ [is_char "-"] ++
  repeat is_hex 12.

(** [re.compile(GUIDOnlyRegex, re.M).match(s)], GUIDOnlyRegex = '^' + GUIDRegex + '$' *)
Definition GUIDOnly_match (s : string) : bool :=
  match match_classes GUIDRegex s with
  | Some rest => at_eol rest
  | None => false
  end.

(** SCOMCertIssuerRegex =
    r'^[\s]*Issuer:[\s]*CN=SCX-Certificate/title=SCX' + GUIDRegex + ', DC=.*$'
    tried at one line start; the trailing [.*$] always succeeds. *)
Definition SCOMCertIssuer_at (s : string) : option unit :=
  match match_literal "Issuer:" (skip_spaces s) with
  | None => None
  | Some s1 =>
      match match_literal "CN=SCX-Certificate/title=SCX" (skip_spaces s1) with
      | None => None
      | Some s2 =>
          match match_classes GUIDRegex s2 with
          | None => None
          | Some s3 =>
              match match_literal ", DC=" s3 with
              | None => None
              | Some _ => Some tt
              end
          end
      end
  end.

(** [re.compile(SCOMCertIssuerRegex, re.M).search(text)] is not None *)
Definition SCOMCertIssuer_search (text : string) : bool :=
  match search_bol SCOMCertIssuer_at text with Some _ => true | None => false end.

(** httpsport_search = r'^[\s]*httpsport[\s]*=( .* )$' (written here
    with blanks inside the group) tried at one line start: group 1. *)
Definition httpsport_at (s : string) : option string :=
  match match_literal "httpsport" (skip_spaces s) with
  | None => None
  | Some s1 =>
      match match_literal "=" (skip_spaces s1) with
      | None => None
      | Some s2 => Some (rest_of_line s2)
      end
  end.

(** [re.compile(httpsport_search, re.M).search(text)]: group 1 of the
    leftmost match. *)
Definition httpsport_search (text : string) : option string :=
  search_bol httpsport_at text.

(** dpkg_locked_search = r'^.*dpkg.+lock.*$' on one line: "dpkg", at
    least one character, then "lock". *)
Fixpoint dpkg_lock_in_line (line : string) : bool :=
  (startswith "dpkg" line &&
   match line with
   | String _ (String _ (String _ (String _ (String _ r)))) => contains "lock" r
   | _ => false
   end) ||
  match line with
  | EmptyString => false
  | String _ r => dpkg_lock_in_line r
  end.

(** [re.compile(dpkg_locked_search, re.M).search(output)] is not None *)
Definition dpkg_locked_search (output : string) : bool :=
  existsb dpkg_lock_in_line (split_on newline output).

End Regex.
Import Regex.

(* ------------------------------------------------------------------ *)
(** ** Events, outcomes and the handler monad *)

Inductive logger := Hutil | Waagent.
Inductive level := Info | Error.

(** What the handler does to the outside world, in order. *)
Inductive event :=
| EvExec (cmd : string)                       (* a command is handed to the execution facility *)
| EvSleep (seconds : Z)                       (* time.sleep *)
| EvLog (who : logger) (lvl : level) (msg : string).

Definition history := list event.

(** The exceptions the handler raises or lets through. *)
Inductive exn :=
| OMSAgentParameterMissingError (message : string)
| OMSAgentInvalidParameterError (message : string)
| OMSAgentUnwantedMultipleConnectionsException (message : string)
| OMSAgentCannotConnectToOMSException
| UnicodeDecodeError
| UnicodeEncodeError
| UnboundLocalError
| OSError
| IOError.

(** How a call ends: it returns, it raises, or the process exits
    ([sys.exit], which [except Exception] does not catch). *)
Inductive outcome (A : Type) :=
| Ok (a : A)
| Raise (e : exn)
| Exit (code : Z).
Arguments Ok {A} a.
Arguments Raise {A} e.
Arguments Exit {A} code.

Definition M (A : Type) : Type := history -> outcome A * history.

Definition ret {A} (a : A) : M A := fun tr => (Ok a, tr).
Definition raise {A} (e : exn) : M A := fun tr => (Raise e, tr).
Definition sys_exit {A} (code : Z) : M A := fun tr => (Exit code, tr).
Definition emit (e : event) : M unit := fun tr => (Ok tt, (tr ++ [e])%list).
Definition ask {A} (q : history -> A) : M A := fun tr => (Ok (q tr), tr).

Definition bind {A B} (m : M A) (k : A -> M B) : M B :=
  fun tr =>
    match m tr with
    | (Ok a, tr') => k a tr'
    | (Raise e, tr') => (Raise e, tr')
    | (Exit c, tr') => (Exit c, tr')
    end.

Declare Scope py_scope.
Delimit Scope py_scope with py.
Notation "x <- c1 ;; c2" := (bind c1 (fun x => c2))
  (at level 61, c1 at next level, right associativity) : py_scope.
Notation "' pat <- c1 ;; c2" := (bind c1 (fun x => match x with pat => c2 end))
  (at level 61, pat pattern, c1 at next level, right associativity) : py_scope.
Notation "c1 ;; c2" := (bind c1 (fun _ => c2))
  (at level 61, right associativity) : py_scope.
Local Open Scope py_scope.

(** A Python 2 text object: a byte string or a unicode string (a list of
    code points). *)
Inductive pytext :=
| PyStr (bytes : string)
| PyUnicode (code_points : list N).

(** What [subprocess.check_output(cmd, stderr = STDOUT, shell = True)] does. *)
Inductive check_output_result :=
| Output (output : string)                              (* exit status 0 *)
| CalledProcessError (returncode : Z) (output : string) (* exit status not 0 *)
| SpawnFailed.                                          (* OSError: the shell could not be started *)

(** What the report of the status can raise: what [open], [write],
    [os.rename], [os.getcwd] and [json.dumps] raise. *)
Inductive report_error :=
| StatusIOError
| StatusOSError
| StatusUnicodeDecodeError.

Definition raised_by_report (e : report_error) : exn :=
  match e with
  | StatusIOError => IOError
  | StatusOSError => OSError
  | StatusUnicodeDecodeError => UnicodeDecodeError
  end.

(** What [base64.b64decode(s)] does. *)
Inductive b64decode_result :=
| Decoded (bytes : string)
| DecodeTypeError           (* malformed input: the TypeError base64 raises *)
| DecodeUnicodeEncodeError. (* a unicode string with a character above 127:
                               binascii takes it through the ASCII codec *)

(** The extension settings as [get_settings] hands them over.  Their
    strings come from JSON and are unicode objects; a string is held
    here by its UTF-8 bytes, so it is ASCII exactly when no byte is
    above 127. *)
Record public_settings_t := {
  pub_workspaceId : option string;
  pub_stopOnMultipleConnections : option bool
}.
Record protected_settings_t := {
  prot_workspaceKey : option string;
  prot_proxy : option string;
  prot_vmResourceId : option string
}.

(** The machine and the Python runtime around the handler.  Every answer
    may depend on what has happened so far.  The last two fields stand
    for the two functions of the handler that only read the platform and
    the settings files, [is_vm_supported_for_extension] and
    [get_settings]: the host gives what they return. *)
Record host := {
  (* 'Utils.WAAgentUtil' in sys.modules *)
  waagent_loaded : bool;
  (* number of parameters of waagent.RunGetOutput as [inspect] reports it
     (2 when both inspections fail) *)
  waagent_params : nat;
  (* waagent.RunGetOutput(cmd, chk_err[, log_cmd]) *)
  waagent_RunGetOutput : history -> string -> bool -> option bool -> Z * pytext;
  check_output : history -> string -> check_output_result;
  (* os.path.exists *)
  path_exists : history -> string -> bool;
  (* open(path, 'r').read(); None is an IOError *)
  read_file : history -> string -> option string;
  (* list(os.walk(top)): (dir_name, sub_dirs, files) per directory, top down *)
  os_walk : history -> string -> list (string * list string * list string);
  (* base64.b64decode *)
  b64decode : string -> b64decode_result;
  (* base64.b64encode *)
  b64encode : string -> string;
  (* is_vm_supported_for_extension(): (vm_supported, vm_dist, vm_ver) *)
  vm_support : bool * string * string;
  (* get_settings(): (public_settings, protected_settings) *)
  settings : option public_settings_t * option protected_settings_t;
  (* os.chmod(path, mode): false is the OSError it raises *)
  os_chmod : history -> string -> Z -> bool;
  (* HUtilObject is not None, as parse_context left it *)
  hutil_object : bool;
  (* HUtilObject.do_exit(exit_code, operation, exit_status, str(exit_code),
     message), which reports the status and calls sys.exit(exit_code);
     it does not return.  None: the process exits with exit_code;
     Some e: e is raised instead *)
  hutil_do_exit : history -> Z -> string -> string -> string -> option report_error;
  (* update_status_file(operation, str(exit_code), exit_status, message),
     which writes the status file; None: it returns; Some e: e is raised
     (the file cannot be opened, written or renamed) *)
  update_status_file : history -> string -> Z -> string -> string -> option report_error
}.

(* ------------------------------------------------------------------ *)
(** ** Text encoding *)

Definition byte_of_N (n : N) : ascii := ascii_of_N (n mod 256).

(** UTF-8 encoding of one code point. *)
Definition utf8_encode_cp (cp : N) : string :=
  (if cp <? 128 then String (byte_of_N cp) EmptyString
   else if cp <? 2048 then
     String (byte_of_N (192 + cp / 64)) (String (byte_of_N (128 + cp mod 64)) EmptyString)
   else if cp <? 65536 then
     String (byte_of_N (224 + cp / 4096))
       (String (byte_of_N (128 + (cp / 64) mod 64))
          (String (byte_of_N (128 + cp mod 64)) EmptyString))
   else
     String (byte_of_N (240 + cp / 262144))
       (String (byte_of_N (128 + (cp / 4096) mod 64))
          (String (byte_of_N (128 + (cp / 64) mod 64))
             (String (byte_of_N (128 + cp mod 64)) EmptyString))))%N.

Definition is_ascii7 (c : ascii) : bool := (nat_of_ascii c <? 128)%nat.

Fixpoint all_chars (p : ascii -> bool) (s : string) : bool :=
  match s with
  | EmptyString => true
  | String c r => p c && all_chars p r
  end.

(** [output.encode('utf-8')].  On a byte string Python 2 first decodes
    the bytes as ASCII, which raises UnicodeDecodeError on any byte above
    127; on a unicode string it encodes the code points. *)
Definition encode_utf8 (t : pytext) : M string :=
  match t with
  | PyStr b => if all_chars is_ascii7 b then ret b else raise UnicodeDecodeError
  | PyUnicode cps => ret (String.concat EmptyString (map utf8_encode_cp cps))
  end.

(* ------------------------------------------------------------------ *)
(** ** Logging and process exit *)

Definition waagent_log_info (message : string) : M unit := emit (EvLog Waagent Info message).
Definition waagent_log_error (message : string) : M unit := emit (EvLog Waagent Error message).
Definition hutil_log_info (message : string) : M unit := emit (EvLog Hutil Info message).
Definition hutil_log_error (message : string) : M unit := emit (EvLog Hutil Error message).
Definition sleep (seconds : Z) : M unit := emit (EvSleep seconds).

(* ------------------------------------------------------------------ *)
(** ** Global variables of the handler *)

Definition PackagesDirectory := "packages".
Definition BundleFileName := "omsagent-1.4.1-45.universal.x64.sh".
Definition SCOMPort : Z := 1270.

Definition OMSAdminPath := "/opt/microsoft/omsagent/bin/omsadmin.sh".
Definition OMSAgentServiceScript := "/opt/microsoft/omsagent/bin/service_control".
Definition OMIConfigEditorPath := "/opt/omi/bin/omiconfigeditor".
Definition OMIServerConfPath := "/etc/opt/omi/conf/omiserver.conf".
Definition EtcOMSAgentPath := "/etc/opt/microsoft/omsagent/".
Definition SCOMCertPath := "/etc/opt/microsoft/scx/ssl/scx.pem".

Definition InstallCommandTemplate (a0 : string) := a0 ++ " --upgrade".
Definition UninstallCommandTemplate (a0 : string) := a0 ++ " --remove".
Definition WorkspaceCheckCommand := OMSAdminPath ++ " -l".
Definition OnboardCommandWithOptionalParamsTemplate (a0 a1 a2 a3 : string) :=
  a0 ++ " -d opinsights.azure.us -w " ++ a1 ++ " -s " ++ a2 ++ " " ++ a3.
Definition RestartOMSAgentServiceCommand := OMSAgentServiceScript ++ " restart".

Definition DPKGLockedErrorCode : Z := 12.
Definition InstallErrorCurlNotInstalled : Z := 64.
Definition EnableCalledBeforeSuccessfulInstall : Z := 20.
Definition EnableErrorOMSReturned403 : Z := 5.
Definition EnableErrorOMSReturnedNon200 : Z := 6.
Definition EnableErrorResolvingHost : Z := 7.
Definition UnsupportedOpenSSL : Z := 60.

(** A retry policy and a final policy, as [run_command_with_retries]
    receives them: functions of the exit code and the output that may act
    on the machine themselves. *)
Definition retry_policy := Z -> string -> M (bool * string).
Definition final_policy := Z -> string -> M Z.

(** A policy without side effects, as a policy. *)
Definition pure_policy {A} (f : Z -> string -> A) : Z -> string -> M A :=
  fun exit_code output => ret (f exit_code output).

(** [os.path.join(a, b)] *)
Definition path_join (a b : string) : string :=
  if startswith "/" b then b
  else match a with
       | EmptyString => b
       | _ => if String.eqb (substring (String.length a - 1) 1 a) "/"
              then a ++ b else a ++ "/" ++ b
       end.

(* ------------------------------------------------------------------ *)
(** ** Running commands *)

Section Handler.

Variable h : host.

(** The execution facility behind [run_get_output]: waagent.RunGetOutput
    when the waagent module is loaded (with two or three arguments,
    depending on its signature), subprocess.check_output otherwise.  It
    gives the exit code and the output as it comes. *)
Definition execution_facility (cmd : string) (chk_err log_cmd : bool) : M (Z * pytext) :=
  fun tr =>
    if waagent_loaded h then
      if (3 <=? waagent_params h)%nat
      then (Ok (waagent_RunGetOutput h tr cmd chk_err (Some log_cmd)), (tr ++ [EvExec cmd])%list)
      else (Ok (waagent_RunGetOutput h tr cmd chk_err None), (tr ++ [EvExec cmd])%list)
    else
      match check_output h tr cmd with
      | Output output => (Ok (0, PyStr output), (tr ++ [EvExec cmd])%list)
      | CalledProcessError returncode output =>
          (Ok (returncode, PyStr output), (tr ++ [EvExec cmd])%list)
      | SpawnFailed => (Raise OSError, (tr ++ [EvExec cmd])%list)
      end.

(** [run_get_output(cmd, chk_err, log_cmd)]: the result of the facility,
    with the output passed through [.encode('utf-8').strip()]. *)
Definition run_get_output (cmd : string) (chk_err log_cmd : bool) : M (Z * string) :=
  ' (exit_code, output) <- execution_facility cmd chk_err log_cmd ;;
  encoded <- encode_utf8 output ;;
  ret (exit_code, strip encoded).

(** [run_command_and_log(cmd, check_error, log_cmd)] *)
Definition run_command_and_log (cmd : string) (check_error log_cmd : bool) : M (Z * string) :=
  ' (exit_code, output) <- run_get_output cmd check_error log_cmd ;;
  (if log_cmd
   then hutil_log_info ("Output of command " ++ dquote ++ cmd ++ dquote ++ ": " ++ String newline output)
   else hutil_log_info ("Output: " ++ String newline output)) ;;
  ret (exit_code, output).

(** [run_command_with_retries], the loop.  [remaining] is the number of
    iterations the test [try_count <= retries] still allows, that is
    [retries + 1 - try_count]; [last] holds [exit_code] and [output] as
    the previous iteration left them (nothing before the first one).
    The loop ends with the values of the last attempt. *)
Fixpoint retry_loop (cmd : string) (retry_check : retry_policy)
         (check_error log_cmd : bool) (sleep_increase_factor : Z)
         (remaining : nat) (sleep_time : Z) (last : option (Z * string))
  : M (option (Z * string)) :=
  match remaining with
  | O => ret last
  | S remaining' =>
      ' (exit_code, output) <- run_command_and_log cmd check_error log_cmd ;;
      ' (should_retry, retry_message) <- retry_check exit_code output ;;
      if negb should_retry then ret (Some (exit_code, output))
      else
        hutil_log_info retry_message ;;
        sleep sleep_time ;;
        retry_loop cmd retry_check check_error log_cmd sleep_increase_factor
                   remaining' (sleep_time * sleep_increase_factor)
                   (Some (exit_code, output))
  end.

(** [run_command_with_retries(cmd, retries, retry_check, final_check,
    check_error, log_cmd, initial_sleep_time, sleep_increase_factor)].
    When the loop body never ran, [exit_code] is unbound where it is
    read. *)
Definition run_command_with_retries (cmd : string) (retries : Z)
           (retry_check : retry_policy) (final_check : option final_policy)
           (check_error log_cmd : bool)
           (initial_sleep_time sleep_increase_factor : Z) : M Z :=
  r <- retry_loop cmd retry_check check_error log_cmd sleep_increase_factor
                  (Z.to_nat (retries + 1)) initial_sleep_time None ;;
  match r with
  | None => raise UnboundLocalError
  | Some (exit_code, output) =>
      match final_check with
      | Some final_check => final_check exit_code output
      | None => ret exit_code
      end
  end.

(* ---------------------------------------------------------------- *)
(** *** Ending the process *)

(** The last step of [log_and_exit]: HUtilObject.do_exit when the
    HandlerUtil object is there, update_status_file otherwise.  None:
    the status is reported and the process is about to exit; Some e:
    the report raised e. *)
Definition report_status (operation : string) (exit_code : Z) (message : string)
           (tr : history) : option report_error :=
  let exit_status := if exit_code =? 0 then "success" else "failed" in
  if hutil_object h
  then hutil_do_exit h tr exit_code operation exit_status message
  else update_status_file h tr operation exit_code exit_status message.

(** [log_and_exit(operation, exit_code, message)]: both loggers, then
    the status report, then the process exits with [exit_code]; an
    exception of the status report leaves the function instead. *)
Definition log_and_exit {A} (operation : string) (exit_code : Z) (message : string) : M A :=
  (if exit_code =? 0
   then waagent_log_info message ;; hutil_log_info message
   else waagent_log_error message ;; hutil_log_error message) ;;
  failure <- ask (report_status operation exit_code message) ;;
  match failure with
  | Some e => raise (raised_by_report e)
  | None => sys_exit exit_code
  end.

(* ---------------------------------------------------------------- *)
(** *** Policies *)

Definition is_dpkg_locked (exit_code : Z) (output : string) : bool :=
  if negb (exit_code =? 0)
  then (if dpkg_locked_search output then true else false)
  else false.

Definition is_curl_found (exit_code : Z) (output : string) : bool :=
  if exit_code =? InstallErrorCurlNotInstalled then false else true.

Definition retry_if_dpkg_locked_or_curl_is_not_found : retry_policy :=
  fun exit_code output =>
    let dpkg_locked := is_dpkg_locked exit_code output in
    let curl_found := is_curl_found exit_code output in
    ' (apt_get_exit_code, apt_get_output) <- run_get_output "which apt-get" false false ;;
    if dpkg_locked then
      ret (true, "Retrying command because package manager is locked.")
    else if negb curl_found && (apt_get_exit_code =? 0) then
      hutil_log_info "Updating package lists to make curl available" ;;
      run_command_and_log "apt-get update" true true ;;
      ret (true, "Retrying command because package lists needed to be updated")
    else ret (false, EmptyString).

Definition final_check_if_dpkg_locked (exit_code : Z) (output : string) : Z :=
  let dpkg_locked := is_dpkg_locked exit_code output in
  if dpkg_locked then DPKGLockedErrorCode else exit_code.

Definition retry_onboarding (exit_code : Z) (output : string) : bool * string :=
  if exit_code =? EnableErrorOMSReturned403 then
    (true, "Retrying the onboarding command to attempt generating a new agent ID and certificate.")
  else if exit_code =? EnableErrorOMSReturnedNon200 then
    (true, "Retrying; the OMS service may be temporarily unavailable.")
  else (false, EmptyString).

Definition raise_if_no_internet : final_policy :=
  fun exit_code output =>
    if exit_code =? EnableErrorResolvingHost
    then raise OMSAgentCannotConnectToOMSException
    else ret exit_code.

(* ---------------------------------------------------------------- *)
(** *** Parameter validation *)

Definition exit_if_vm_not_supported (operation : string) : M Z :=
  let '(vm_supported, vm_dist, vm_ver) := vm_support h in
  if negb vm_supported then
    log_and_exit operation 51 ("Unsupported operation system: " ++ vm_dist ++ " " ++ vm_ver)
  else ret 0.

Definition exit_if_openssl_unavailable (operation : string) : M Z :=
  ' (exit_code, output) <- run_get_output "which openssl" true false ;;
  if negb (exit_code =? 0) then
    log_and_exit operation UnsupportedOpenSSL "OpenSSL is not available"
  else ret 0.

Definition check_workspace_id (workspace_id : string) : M unit :=
  if negb (GUIDOnly_match workspace_id)
  then raise (OMSAgentInvalidParameterError "Workspace ID is invalid")
  else ret tt.

Definition check_workspace_id_and_key (workspace_id workspace_key : string) : M unit :=
  check_workspace_id workspace_id ;;
  match b64decode h workspace_key with
  | Decoded decoded =>
      let encoded_key := b64encode h decoded in
      if negb (String.eqb encoded_key workspace_key)
      then raise (OMSAgentInvalidParameterError "Workspace key is invalid")
      else ret tt
  | DecodeTypeError => (* except TypeError *)
      raise (OMSAgentInvalidParameterError "Workspace key is invalid")
  | DecodeUnicodeEncodeError => (* no handler for it *)
      raise UnicodeEncodeError
  end.

(* ---------------------------------------------------------------- *)
(** *** SCOM detection *)

Definition detect_scom_using_omsadmin : M bool :=
  let omsadmin_cmd := OMSAdminPath ++ " -o" in
  ' (exit_code, output) <- run_get_output omsadmin_cmd false false ;;
  if negb (contains "illegal option" (lower output))
     && negb (contains "unknown option" (lower output)) then
    if exit_code =? 0 then
      hutil_log_info ("According to " ++ omsadmin_cmd ++ ", SCOM port is open") ;;
      ret true
    else if exit_code =? 1 then
      hutil_log_info ("According to " ++ omsadmin_cmd ++ ", SCOM port is not open") ;;
      ret false
    else ret false
  else ret false.

Definition detect_scom_using_omiconfigeditor : M bool :=
  let omi_cmd := OMIConfigEditorPath ++ " httpsport -q " ++ str_of_Z SCOMPort
                 ++ " < " ++ OMIServerConfPath in
  ' (exit_code, output) <- run_get_output omi_cmd false false ;;
  if negb (contains "illegal option" (lower output))
     && negb (contains "unknown option" (lower output)) then
    if exit_code =? 0 then
      hutil_log_info ("According to " ++ omi_cmd ++ ", SCOM port is open") ;;
      ret true
    else if exit_code =? 1 then
      hutil_log_info ("According to " ++ omi_cmd ++ ", SCOM port is not open") ;;
      ret false
    else ret false
  else ret false.

Definition detect_scom_using_omiserver_conf : M bool :=
  omiserver_txt <-
    (fun tr => match read_file h tr OMIServerConfPath with
               | Some txt => (Ok txt, tr)
               | None => (Raise IOError, tr)
               end) ;;
  match httpsport_search omiserver_txt with
  | Some ports =>
      let ports := replace_char "," " " ports in
      let ports_list := split_on " " ports in
      if mem (str_of_Z SCOMPort) ports_list then
        hutil_log_info ("SCOM port is listed in " ++ OMIServerConfPath) ;;
        ret true
      else
        hutil_log_info ("SCOM port is not listed in " ++ OMIServerConfPath) ;;
        ret false
  | None =>
      hutil_log_info ("SCOM port is not listed in " ++ OMIServerConfPath) ;;
      ret false
  end.

Definition is_None {A} (o : option A) : bool :=
  match o with None => true | Some _ => false end.

(** [detect_scom_connection] up to the test [scom_port_open is None]:
    the value of [scom_port_open].  [Some false] stands for the three
    places where the function returns because a probe said False. *)
Definition scom_port_open_probe : M (option bool) :=
  omsadmin_exists <- ask (fun tr => path_exists h tr OMSAdminPath) ;;
  scom_port_open <-
    (if omsadmin_exists
     then b <- detect_scom_using_omsadmin ;; ret (Some b)
     else ret None) ;;
  match scom_port_open with
  | Some false => ret (Some false)
  | _ =>
      use_editor <- ask (fun tr => is_None scom_port_open
                                   && path_exists h tr OMIConfigEditorPath
                                   && path_exists h tr OMIServerConfPath) ;;
      scom_port_open <-
        (if use_editor
         then b <- detect_scom_using_omiconfigeditor ;; ret (Some b)
         else ret scom_port_open) ;;
      match scom_port_open with
      | Some false => ret (Some false)
      | _ =>
          use_conf <- ask (fun tr => is_None scom_port_open
                                     && path_exists h tr OMIServerConfPath) ;;
          if use_conf
          then b <- detect_scom_using_omiserver_conf ;; ret (Some b)
          else ret scom_port_open
      end
  end.

(** [detect_scom_connection], the certificate part: the value of
    [cert_signed_by_scom]. *)
Definition scom_cert_signed : M bool :=
  cert_exists <- ask (fun tr => path_exists h tr SCOMCertPath) ;;
  if cert_exists then
    exit_if_openssl_unavailable "Install" ;;
    let cert_cmd := "openssl x509 -in " ++ SCOMCertPath ++ " -noout -text" in
    ' (cert_exit_code, cert_output) <- run_get_output cert_cmd false false ;;
    if cert_exit_code =? 0 then
      if SCOMCertIssuer_search cert_output then
        hutil_log_info "SCOM cert exists and is signed by SCOM server" ;;
        ret true
      else
        hutil_log_info "SCOM cert exists but is not signed by SCOM server" ;;
        ret false
    else
      hutil_log_error "Error reading SCOM cert; cert could not be determined to be signed by SCOM server" ;;
      ret false
  else
    hutil_log_info "SCOM cert does not exist" ;;
    ret false.

Definition scom_err_msg : string :=
  "This machine may already be connected to a System Center Operations Manager server. Please set stopOnMultipleConnections to false in public settings or remove this property to allow connection to the Log Analytics workspace. (LINUXOMSAGENTEXTENSION_ERROR_MULTIPLECONNECTIONS)".

Definition detect_scom_connection : M unit :=
  scom_port_open <- scom_port_open_probe ;;
  match scom_port_open with
  | Some false => ret tt
  | None =>
      hutil_log_info "SCOM port could not be determined to be open" ;;
      ret tt
  | Some true =>
      cert_signed_by_scom <- scom_cert_signed ;;
      if cert_signed_by_scom
      then raise (OMSAgentUnwantedMultipleConnectionsException scom_err_msg)
      else ret tt
  end.

(* ---------------------------------------------------------------- *)
(** *** Multiple connections *)

(** How the enumeration of configured workspaces ends: with the
    [return] taken when the target workspace shows up, or with the
    final value of [other_connection_exists]. *)
Inductive scan_result :=
| AlreadyConfigured
| Scanned (other_connection_exists : bool).

(** [for line in output.split('\n')].  In [workspace_id in line] the id
    is a unicode object and the line a byte string: Python 2 decodes the
    line as ASCII before it looks for the id, and a byte above 127 in
    the line raises UnicodeDecodeError.  On a line that decodes, the id
    is in the line exactly when its bytes are. *)
Fixpoint scan_lines (workspace_id : string) (lines : list string)
         (other_connection_exists : bool) : M scan_result :=
  match lines with
  | [] => ret (Scanned other_connection_exists)
  | line :: rest =>
      if negb (all_chars is_ascii7 line) then raise UnicodeDecodeError
      else if contains workspace_id line then ret AlreadyConfigured
      else scan_lines workspace_id rest true
  end.

(** [for sub_dir in sub_dirs].  In [sub_dir_name == workspace_id] a byte
    string is compared with a unicode object: a name with a byte above
    127 does not decode and is unequal to every id. *)
Fixpoint scan_sub_dirs (workspace_id : string) (sub_dirs : list string)
         (other_connection_exists : bool) : scan_result :=
  match sub_dirs with
  | [] => Scanned other_connection_exists
  | sub_dir :: rest =>
      let sub_dir_name := basename sub_dir in
      if all_chars is_ascii7 sub_dir_name && String.eqb sub_dir_name workspace_id
      then AlreadyConfigured
      else if GUIDOnly_match sub_dir_name || String.eqb sub_dir_name "scom"
           then scan_sub_dirs workspace_id rest true
           else scan_sub_dirs workspace_id rest other_connection_exists
  end.

(** [for dir_name, sub_dirs, files in os.walk(EtcOMSAgentPath)] *)
Fixpoint scan_walk (workspace_id : string)
         (entries : list (string * list string * list string))
         (other_connection_exists : bool) : scan_result :=
  match entries with
  | [] => Scanned other_connection_exists
  | (_, sub_dirs, _) :: rest =>
      match scan_sub_dirs workspace_id sub_dirs other_connection_exists with
      | AlreadyConfigured => AlreadyConfigured
      | Scanned other => scan_walk workspace_id rest other
      end
  end.

Definition already_configured_msg : string :=
  "The workspace to be enabled has already been configured on the VM before; continuing despite stopOnMultipleConnections flag".

Definition other_workspace_err_msg : string :=
  "This machine is already connected to some other Log Analytics workspace, please set stopOnMultipleConnections to false in public settings or remove this property, so this machine can connect to new workspaces, also it means this machine will get billed multiple times for each workspace it report to. (LINUXOMSAGENTEXTENSION_ERROR_MULTIPLECONNECTIONS)".

Definition detect_multiple_connections (workspace_id : string) : M unit :=
  omsadmin_exists <- ask (fun tr => path_exists h tr OMSAdminPath) ;;
  scan <-
    (if omsadmin_exists then
       ' (exit_code, output) <- run_get_output WorkspaceCheckCommand false true ;;
       if negb (String.eqb (lower (strip output)) "no workspace")
       then scan_lines workspace_id (split_on newline output) false
       else ret (Scanned false)
     else
       entries <- ask (fun tr => os_walk h tr EtcOMSAgentPath) ;;
       ret (scan_walk workspace_id entries false)) ;;
  match scan with
  | AlreadyConfigured => hutil_log_info already_configured_msg ;; ret tt
  | Scanned true =>
      raise (OMSAgentUnwantedMultipleConnectionsException other_workspace_err_msg)
  | Scanned false => detect_scom_connection
  end.

(* ---------------------------------------------------------------- *)
(** *** Operations *)

(** [os.getcwd()] is the working directory given here. *)
Definition bundle_path (cwd : string) : string :=
  path_join (path_join cwd PackagesDirectory) BundleFileName.

(** [os.chmod(path, mode)] *)
Definition chmod (path : string) (mode : Z) : M unit :=
  fun tr => if os_chmod h tr path mode then (Ok tt, tr) else (Raise OSError, tr).

Definition install (cwd : string) : M Z :=
  exit_if_vm_not_supported "Install" ;;
  let '(public_settings, protected_settings) := settings h in
  match public_settings with
  | None => raise (OMSAgentParameterMissingError "Public configuration must be provided")
  | Some public_settings =>
      match pub_workspaceId public_settings with
      | None => raise (OMSAgentParameterMissingError "Workspace ID must be provided")
      | Some workspaceId =>
          check_workspace_id workspaceId ;;
          (match pub_stopOnMultipleConnections public_settings with
           | Some true => detect_multiple_connections workspaceId
           | _ => ret tt
           end) ;;
          chmod (bundle_path cwd) 100 ;;
          let cmd := InstallCommandTemplate (bundle_path cwd) in
          hutil_log_info ("Running command " ++ dquote ++ cmd ++ dquote) ;;
          run_command_with_retries cmd 15 retry_if_dpkg_locked_or_curl_is_not_found
                                   (Some (pure_policy final_check_if_dpkg_locked))
                                   true true 30 1
      end
  end.

Definition uninstall (cwd : string) : M Z :=
  chmod (bundle_path cwd) 100 ;;
  let cmd := UninstallCommandTemplate (bundle_path cwd) in
  hutil_log_info ("Running command " ++ dquote ++ cmd ++ dquote) ;;
  run_command_with_retries cmd 5 retry_if_dpkg_locked_or_curl_is_not_found
                           (Some (pure_policy final_check_if_dpkg_locked))
                           true true 30 1.

Definition onboard_cmd (workspaceId workspaceKey : string)
           (proxy vmResourceId : option string) : string :=
  let proxyParam := match proxy with Some proxy => "-p " ++ proxy | None => EmptyString end in
  let vmResourceIdParam :=
    match vmResourceId with Some v => "-a " ++ v | None => EmptyString end in
  let optionalParams := proxyParam ++ " " ++ vmResourceIdParam in
  OnboardCommandWithOptionalParamsTemplate OMSAdminPath workspaceId workspaceKey optionalParams.

Definition enable : M Z :=
  exit_if_vm_not_supported "Enable" ;;
  let '(public_settings, protected_settings) := settings h in
  match public_settings with
  | None => raise (OMSAgentParameterMissingError "Public configuration must be provided")
  | Some public_settings =>
  match protected_settings with
  | None => raise (OMSAgentParameterMissingError "Private configuration must be provided")
  | Some protected_settings =>
  let proxy := prot_proxy protected_settings in
  let vmResourceId := prot_vmResourceId protected_settings in
  match pub_workspaceId public_settings with
  | None => raise (OMSAgentParameterMissingError "Workspace ID must be provided")
  | Some workspaceId =>
  match prot_workspaceKey protected_settings with
  | None => raise (OMSAgentParameterMissingError "Workspace key must be provided")
  | Some workspaceKey =>
      check_workspace_id_and_key workspaceId workspaceKey ;;
      omsadmin_exists <- ask (fun tr => path_exists h tr OMSAdminPath) ;;
      (if negb omsadmin_exists then
         log_and_exit "Enable" EnableCalledBeforeSuccessfulInstall
           ("OMSAgent onboarding script " ++ OMSAdminPath
            ++ " not exist. Enable cannot be called before install.")
       else ret tt) ;;
      hutil_log_info "Handler initiating onboarding." ;;
      exit_code <- run_command_with_retries
                     (onboard_cmd workspaceId workspaceKey proxy vmResourceId) 5
                     (pure_policy retry_onboarding) (Some raise_if_no_internet)
                     true false 30 1 ;;
      (if exit_code =? 0 then
         sleep 5 ;;
         run_command_and_log RestartOMSAgentServiceCommand true true ;;
         ret tt
       else ret tt) ;;
      ret exit_code
  end end end end.

End Handler.

(* ------------------------------------------------------------------ *)
(** ** The top level *)

(** The [try] ... [except] of [main] around the operation, applied to the
    way the operation ended: the exit code and the message handed to
    [log_and_exit].  A process exit inside the operation is not caught.
    [error_text] and [stacktrace] stand for [str(e)] and
    [traceback.format_exc()] in the last handler. *)
Definition main_handler (operation : string) (error_text stacktrace : string)
           (r : outcome Z) : outcome (Z * string) :=
  match r with
  | Ok exit_code =>
      if (exit_code =? 1) && String.eqb operation "Install" then
        Ok (exit_code,
            "Install failed with exit code 1. Please check that dependencies are installed. For details, check logs in /var/log/azure/Microsoft.EnterpriseCloud.Monitoring.OmsAgentForLinux")
      else if (exit_code =? DPKGLockedErrorCode) && String.eqb operation "Install" then
        Ok (exit_code,
            "Install failed with exit code " ++ str_of_Z DPKGLockedErrorCode
            ++ " because the package manager on the VM is currently locked: please wait and try again")
      else if negb (exit_code =? 0) then
        Ok (exit_code, operation ++ " failed with exit code " ++ str_of_Z exit_code)
      else Ok (0, operation ++ " succeeded")
  | Raise (OMSAgentParameterMissingError message) =>
      Ok (11, operation ++ " failed due to a missing parameter: " ++ message)
  | Raise (OMSAgentInvalidParameterError message) =>
      Ok (11, operation ++ " failed due to an invalid parameter: " ++ message)
  | Raise (OMSAgentUnwantedMultipleConnectionsException message) =>
      Ok (10, operation ++ " failed due to multiple connections: " ++ message)
  | Raise OMSAgentCannotConnectToOMSException =>
      Ok (55,
          "The agent could not connect to the Microsoft Operations Management Suite service. Please check that the system either has Internet access, or that a valid HTTP proxy has been configured for the agent. Please also check the correctness of the workspace ID.")
  | Raise _ =>
      Ok (1, operation ++ " failed with error: " ++ error_text
             ++ String newline ("Stacktrace: " ++ stacktrace))
  | Exit code => Exit code
  end.

(** [main] from the invocation of the operation on: the operation runs,
    its end is handled, and [log_and_exit] ends the process, unless its
    status report raises. *)
Definition main_invoke (h : host) (operation : string) (error_text stacktrace : string)
           (op : M Z) : M unit :=
  fun tr =>
    let '(r, tr') := op tr in
    match main_handler operation error_text stacktrace r with
    | Ok (exit_code, message) => log_and_exit h operation exit_code message tr'
    | Raise e => (Raise e, tr')
    | Exit code => (Exit code, tr')
    end.

(** What [log_and_exit] logs before the status report. *)
Definition exit_logs (exit_code : Z) (message : string) : list event :=
  if exit_code =? 0
  then [EvLog Waagent Info message; EvLog Hutil Info message]
  else [EvLog Waagent Error message; EvLog Hutil Error message].

(** On this machine the report of the status never fails. *)
Definition status_reported (h : host) : Prop :=
  forall operation exit_code message tr, report_status h operation exit_code message tr = None.

(* ------------------------------------------------------------------ *)
(** ** Observations on histories *)

Definition is_exec_of (cmd : string) (e : event) : bool :=
  match e with
  | EvExec c => String.eqb c cmd
  | _ => false
  end.

(** How many times [cmd] was handed to the execution facility. *)
Definition executions (cmd : string) (tr : history) : nat :=
  List.length (filter (is_exec_of cmd) tr).

Definition is_sleep (e : event) : bool :=
  match e with EvSleep _ => true | _ => false end.

(** How many times the handler slept. *)
Definition sleeps (tr : history) : nat := List.length (filter is_sleep tr).

(** The computation [m] never hands [cmd] to the execution facility. *)
Definition does_not_run {A} (cmd : string) (m : M A) : Prop :=
  forall tr, executions cmd (snd (m tr)) = executions cmd tr.

(** The policy signals a retry whatever it is given. *)
Definition always_retries (p : retry_policy) : Prop :=
  forall exit_code output tr, exists msg tr', p exit_code output tr = (Ok (true, msg), tr').


(** [.encode('utf-8')] accepts the text. *)
Definition encodable (t : pytext) : bool :=
  match t with
  | PyStr b => all_chars is_ascii7 b
  | PyUnicode _ => true
  end.

(** The facility answers [cmd] with an exit code and a text that can be
    encoded, whatever happened before. *)
Definition facility_answers (h : host) (cmd : string) (chk_err log_cmd : bool) : Prop :=
  forall tr, exists exit_code raw,
    fst (execution_facility h cmd chk_err log_cmd tr) = Ok (exit_code, raw)
    /\ encodable raw = true.

(** The key is its own base64 form: b64encode(b64decode(key)) == key. *)
Definition key_roundtrips (h : host) (workspace_key : string) : bool :=
  match b64decode h workspace_key with
  | Decoded decoded => String.eqb (b64encode h decoded) workspace_key
  | _ => false
  end.

(* ------------------------------------------------------------------ *)
(** ** A base64 codec (RFC 4648, strict decoding) for concrete hosts *)

Module Base64.

Definition alphabet : string :=
  "ABCDEFGHIJKLMNOPQRSTUVWXYZabcdefghijklmnopqrstuvwxyz0123456789+/".

Definition digit (n : N) : ascii :=
  match String.get (N.to_nat n) alphabet with
  | Some c => c
  | None => "="%char
  end.

Fixpoint index_in (c : ascii) (s : string) (i : N) : option N :=
  match s with
  | EmptyString => None
  | String a r => if Ascii.eqb a c then Some i else index_in c r (i + 1)%N
  end.

Definition value (c : ascii) : option N := index_in c alphabet 0%N.

Fixpoint encode (s : string) : string :=
  match s with
  | EmptyString => EmptyString
  | String a EmptyString =>
      let x := N_of_ascii a in
      String (digit (x / 4)) (String (digit ((x mod 4) * 16)) (String "=" (String "=" EmptyString)))
  | String a (String b EmptyString) =>
      let x := N_of_ascii a in
      let y := N_of_ascii b in
      String (digit (x / 4))
        (String (digit ((x mod 4) * 16 + y / 16))
           (String (digit ((y mod 16) * 4)) "="))
  | String a (String b (String c r)) =>
      let x := N_of_ascii a in
      let y := N_of_ascii b in
      let z := N_of_ascii c in
      String (digit (x / 4))
        (String (digit ((x mod 4) * 16 + y / 16))
           (String (digit ((y mod 16) * 4 + z / 64))
              (String (digit (z mod 64)) (encode r))))
  end%N.

Fixpoint decode (s : string) : option string :=
  match s with
  | EmptyString => Some EmptyString
  | String a (String b (String c (String d r))) =>
      match value a, value b with
      | Some x, Some y =>
          let b1 := ascii_of_N ((x * 4 + y / 16) mod 256) in
          match value c, value d, r with
          | Some z, Some w, _ =>
              match decode r with
              | Some t =>
                  Some (String b1
                          (String (ascii_of_N (((y mod 16) * 16 + z / 4) mod 256))
                             (String (ascii_of_N (((z mod 4) * 64 + w) mod 256)) t)))
              | None => None
              end
          | Some z, None, EmptyString =>
              if Ascii.eqb d "=" then
                Some (String b1
                        (String (ascii_of_N (((y mod 16) * 16 + z / 4) mod 256)) EmptyString))
              else None
          | None, None, EmptyString =>
              if Ascii.eqb c "=" && Ascii.eqb d "=" then Some (String b1 EmptyString)
              else None
          | _, _, _ => None
          end
      | _, _ => None
      end
  | _ => None
  end%N.

End Base64.

(* ------------------------------------------------------------------ *)
(** ** Concrete hosts *)

Fixpoint lookup {A} (k : string) (l : list (string * A)) : option A :=
  match l with
  | [] => None
  | (k', a) :: r => if String.eqb k k' then Some a else lookup k r
  end.

(** A machine that does not change: the paths in [paths] exist, [files]
    gives the text of the files that can be read, [walk] is the tree under
    the agent configuration root, and [answers] says how each command
    ends (a command that is not listed is not found by the shell).  The
    waagent module is not loaded, there is no HandlerUtil object, and
    the bundle can be made executable and the status file written. *)
Definition static_host (paths : list string) (files : list (string * string))
           (walk : list (string * list string * list string))
           (answers : list (string * check_output_result))
           (st : option public_settings_t * option protected_settings_t) : host :=
  {| waagent_loaded := false;
     waagent_params := 2;
     waagent_RunGetOutput := fun _ _ _ _ => (0, PyUnicode []);
     check_output := fun _ cmd =>
       match lookup cmd answers with
       | Some r => r
       | None => CalledProcessError 127 "/bin/sh: command not found"
       end;
     path_exists := fun _ p => mem p paths;
     read_file := fun _ p => lookup p files;
     os_walk := fun _ top => if String.eqb top EtcOMSAgentPath then walk else [];
     b64decode := fun s =>
       if all_chars is_ascii7 s then
         match Base64.decode s with
         | Some bytes => Decoded bytes
         | None => DecodeTypeError
         end
       else DecodeUnicodeEncodeError;
     b64encode := Base64.encode;
     vm_support := (true, "Ubuntu", "16.04");
     settings := st;
     os_chmod := fun _ _ _ => true;
     hutil_object := false;
     hutil_do_exit := fun _ _ _ _ _ => None;
     update_status_file := fun _ _ _ _ _ => None |}.

Definition no_settings : option public_settings_t * option protected_settings_t :=
  (None, None).

(** Policies for examples. *)
Definition retry_always : retry_policy := fun _ _ => ret (true, "Retrying.").
Definition retry_never : retry_policy := fun _ _ => ret (false, EmptyString).

(** The log line [run_command_and_log] writes after the command. *)
Definition output_log (cmd : string) (log_cmd : bool) (output : string) : event :=
  EvLog Hutil Info
    (if log_cmd
     then "Output of command " ++ dquote ++ cmd ++ dquote ++ ": " ++ String newline output
     else "Output: " ++ String newline output).


(** [exit_code] and [output] are what an attempt returned, and after the
    policy looked at them the loop did nothing but, on a retry signal,
    log the reason and sleep: at [tr_end] this attempt is the last one. *)
Definition is_last_attempt (h : host) (cmd : string) (retry_check : retry_policy)
           (check_error log_cmd : bool) (exit_code : Z) (output : string)
           (tr_end : history) : Prop :=
  exists tr0 tr1 should_retry msg tr2 s,
    run_command_and_log h cmd check_error log_cmd tr0 = (Ok (exit_code, output), tr1)
    /\ retry_check exit_code output tr1 = (Ok (should_retry, msg), tr2)
    /\ tr_end = if (should_retry : bool)
                then ((tr2 ++ [EvLog Hutil Info msg]) ++ [EvSleep s])%list
                else tr2.

(** A machine whose package manager stays locked. *)
Definition dpkg_cmd : string := "dpkg --configure -a".
Definition dpkg_locked_output : string :=
  "dpkg: error: dpkg status database is locked by another process".
Definition locked_host : host :=
  static_host [] [] [] [(dpkg_cmd, CalledProcessError 2 dpkg_locked_output)] no_settings.

(** A machine with the agent installed that cannot resolve the service. *)
Definition sample_workspace_id : string := "94a1f46d-2ced-4739-9b6a-1f06156ca4ac".
Definition sample_workspace_key : string := "aGVsbG8gd29ybGQ=".
Definition sample_settings (key : string)
  : option public_settings_t * option protected_settings_t :=
  (Some {| pub_workspaceId := Some sample_workspace_id;
           pub_stopOnMultipleConnections := Some true |},
   Some {| prot_workspaceKey := Some key;
           prot_proxy := None;
           prot_vmResourceId := None |}).
Definition unresolvable_host : host :=
  static_host [OMSAdminPath] [] []
    [(onboard_cmd sample_workspace_id sample_workspace_key None None,
      CalledProcessError 7 "Error resolving host during the onboarding request")]
    (sample_settings sample_workspace_key).


(** A machine already onboarded to another workspace; its SCOM port is
    not open. *)
Definition other_workspace_id : string := "11111111-2222-3333-4444-555555555555".
Definition other_workspace_host : host :=
  static_host [OMSAdminPath] [] []
    [(WorkspaceCheckCommand,
      Output ("Primary Workspace: " ++ other_workspace_id
              ++ "    Status: Onboarded(OMSAgent Running)"));
     (OMSAdminPath ++ " -o", CalledProcessError 1 EmptyString)]
    no_settings.

(** A machine already onboarded to the sample workspace, with a SCOM
    workspace next to it. *)
Definition same_workspace_host : host :=
  static_host [OMSAdminPath] [] []
    [(WorkspaceCheckCommand,
      Output ("Workspace(SCOM Workspace): scom" ++
              String newline ("Primary Workspace: " ++ sample_workspace_id
                              ++ "    Status: Onboarded(OMSAgent Running)")))]
    no_settings.

(** A machine without the onboarding script whose configuration root
    holds a SCOM directory and the directory of the sample workspace. *)
Definition same_workspace_dir_host : host :=
  static_host [] []
    [(EtcOMSAgentPath, ["scom"; sample_workspace_id; "conf"], []);
     (EtcOMSAgentPath ++ "scom", ["conf"], [])]
    [] no_settings.

(** The machine [h] with the waagent module loaded: RunGetOutput takes
    three arguments and answers [run cmd]. *)
Definition with_waagent (run : string -> Z * pytext) (h : host) : host :=
  {| waagent_loaded := true;
     waagent_params := 3;
     waagent_RunGetOutput := fun _ cmd _ _ => run cmd;
     check_output := check_output h;
     path_exists := path_exists h;
     read_file := read_file h;
     os_walk := os_walk h;
     b64decode := b64decode h;
     b64encode := b64encode h;
     vm_support := vm_support h;
     settings := settings h;
     os_chmod := os_chmod h;
     hutil_object := hutil_object h;
     hutil_do_exit := hutil_do_exit h;
     update_status_file := update_status_file h |}.


(** The machine [h] on which the mode of the bundle cannot be changed. *)
Definition with_chmod_failure (h : host) : host :=
  {| waagent_loaded := waagent_loaded h;
     waagent_params := waagent_params h;
     waagent_RunGetOutput := waagent_RunGetOutput h;
     check_output := check_output h;
     path_exists := path_exists h;
     read_file := read_file h;
     os_walk := os_walk h;
     b64decode := b64decode h;
     b64encode := b64encode h;
     vm_support := vm_support h;
     settings := settings h;
     os_chmod := fun _ _ _ => false;
     hutil_object := hutil_object h;
     hutil_do_exit := hutil_do_exit h;
     update_status_file := update_status_file h |}.

(** The code points of an ASCII text. *)
Definition code_points (s : string) : list N := map N_of_ascii (list_ascii_of_string s).

(** A machine with the waagent module, already onboarded to the sample
    workspace, whose workspace command prints a line with an accent
    (e-acute, U+00E9) before the line of the workspace.
    waagent.RunGetOutput hands the output over as a unicode string;
    [accented_bytes] is its UTF-8 encoding. *)
Definition accented_output : list N :=
  (code_points "Etat de l'agent : op" ++ [233%N] ++ code_points "rationnel" ++ [10%N]
   ++ code_points ("Primary Workspace: " ++ sample_workspace_id
                   ++ "    Status: Onboarded(OMSAgent Running)"))%list.
Definition accented_bytes : string :=
  String.concat EmptyString (map utf8_encode_cp accented_output).
Definition accented_host : host :=
  with_waagent (fun cmd => if String.eqb cmd WorkspaceCheckCommand
                           then (0, PyUnicode accented_output)
                           else (127, PyUnicode []))
               (static_host [OMSAdminPath] [] [] [] no_settings).

(** A sub-directory name that counts as another connection. *)
Definition is_other_connection_dir (sub_dir : string) : bool :=
  GUIDOnly_match (basename sub_dir) || String.eqb (basename sub_dir) "scom".

(** A machine with the onboarding script and no workspace configured. *)
Definition fresh_host : host :=
  static_host [OMSAdminPath] [] []
    [(WorkspaceCheckCommand, Output "No Workspace");
     (OMSAdminPath ++ " -o", CalledProcessError 1 EmptyString)]
    no_settings.

(** The commands of the SCOM verification. *)
Definition omsadmin_port_cmd : string := OMSAdminPath ++ " -o".
Definition omiconfigeditor_cmd : string :=
  OMIConfigEditorPath ++ " httpsport -q " ++ str_of_Z SCOMPort ++ " < " ++ OMIServerConfPath.
Definition scom_cert_cmd : string :=
  "openssl x509 -in " ++ SCOMCertPath ++ " -noout -text".

(** The tool answered that it does not know the option. *)
Definition unrecognized_option (output : string) : bool :=
  contains "illegal option" (lower output) || contains "unknown option" (lower output).



(** A machine without the onboarding script, with a config editor too old
    to know the query option, a server configuration that lists port 1270
    and a certificate. *)
Definition unknown_option_host : host :=
  static_host [OMIConfigEditorPath; OMIServerConfPath; SCOMCertPath]
    [(OMIServerConfPath, "httpsport = 1270,8080")] []
    [(omiconfigeditor_cmd, CalledProcessError 1 "omiconfigeditor: unknown option -- q")]
    no_settings.




Definition sample_cwd : string := "/var/lib/waagent/OmsAgentForLinux".


(** A machine with neither probe tool, whose server configuration lists
    port 1270. *)
Definition conf_only_host : host :=
  static_host [OMIServerConfPath] [(OMIServerConfPath, "httpsport = 1270,8080")] []
    [] no_settings.

(** A machine with the agent installed whose settings carry a workspace
    key that is not base64. *)
Definition bad_workspace_key : string := "not a base64 key".
Definition bad_key_host : host :=
  static_host [OMSAdminPath] [] []
    [(onboard_cmd sample_workspace_id bad_workspace_key None None, Output EmptyString)]
    (sample_settings bad_workspace_key).

(** A machine with the agent installed whose settings carry a workspace
    key with an accent in it (e-acute, U+00E9, here by its UTF-8
    bytes). *)
Definition accented_workspace_key : string :=
  "aGVsbG8gd29ybGQ" ++ utf8_encode_cp 233 ++ "=".
Definition accented_key_host : host :=
  static_host [OMSAdminPath] [] []
    [(onboard_cmd sample_workspace_id accented_workspace_key None None, Output EmptyString)]
    (sample_settings accented_workspace_key).

(** A machine on which removing the bundle keeps failing on the dpkg
    lock. *)
Definition uninstall_cmd : string := UninstallCommandTemplate (bundle_path sample_cwd).
Definition locked_uninstall_host : host :=
  static_host [] [] []
    [(uninstall_cmd, CalledProcessError 2 dpkg_locked_output);
     ("which apt-get", Output "/usr/bin/apt-get")]
    no_settings.

(* ------------------------------------------------------------------ *)
(** ** Further observations on histories *)

(** The durations of the sleeps, in order. *)
Definition sleep_durations (tr : history) : list Z :=
  flat_map (fun e => match e with EvSleep s => [s] | _ => [] end) tr.

(** The computation [m] never sleeps. *)
Definition does_not_sleep {A} (m : M A) : Prop :=
  forall tr, sleep_durations (snd (m tr)) = sleep_durations tr.

(** The first [n] sleeps of the engine: the sleep after attempt [k] lasts
    [initial_sleep_time * sleep_increase_factor ^ k]. *)
Definition sleep_schedule (initial_sleep_time sleep_increase_factor : Z) (n : nat) : list Z :=
  map (fun k => initial_sleep_time * sleep_increase_factor ^ Z.of_nat k) (seq 0 n).

(** Every run of [cmd] on the machine fails on the package-manager lock. *)
Definition stays_locked (h : host) (cmd : string) (chk_err log_cmd : bool) : Prop :=
  forall tr, exists exit_code output,
    run_get_output h cmd chk_err log_cmd tr
      = (Ok (exit_code, output), (tr ++ [EvExec cmd])%list)
    /\ is_dpkg_locked exit_code output = true.

(** [run_get_output] returns for [cmd], whatever happened before. *)
Definition command_returns (h : host) (cmd : string) (chk_err log_cmd : bool) : Prop :=
  forall tr, exists exit_code output,
    run_get_output h cmd chk_err log_cmd tr
      = (Ok (exit_code, output), (tr ++ [EvExec cmd])%list).

(** The machine of [locked_uninstall_host], seen from the engine. *)
Definition apt_get_path_output : string := "/usr/bin/apt-get".

(* ------------------------------------------------------------------ *)
(** ** The remaining operations *)


(** [dummy_command()], the Update operation. *)
Definition dummy_command : M Z := ret 0.






(** A machine on which the service answers 403 to every onboarding. *)
Definition forbidden_host : host :=
  static_host [OMSAdminPath] [] []
    [(onboard_cmd sample_workspace_id sample_workspace_key None None,
      CalledProcessError 5 "Error 403")]
    (sample_settings sample_workspace_key).


(* ------------------------------------------------------------------ *)
(** ** What an operation runs and how it ends *)

(** The commands of the conflict detection. *)
Definition probe_commands : list string :=
  [WorkspaceCheckCommand; omsadmin_port_cmd; omiconfigeditor_cmd;
   "which openssl"; scom_cert_cmd].

(** The exceptions that come from running a command or reading a file. *)
Definition engine_failure (e : exn) : bool :=
  match e with
  | UnicodeDecodeError | UnboundLocalError | OSError | IOError => true
  | _ => false
  end.

(** The call returned, or failed while running a command. *)
Definition io_outcome {A} (r : outcome A) : Prop :=
  match r with
  | Ok _ => True
  | Raise e => engine_failure e = true
  | Exit _ => False
  end.

(** The computation only ends in such a way. *)
Definition only_io_outcomes {A} (m : M A) : Prop :=
  forall tr, io_outcome (fst (m tr)).

(** A machine onboarded to another workspace on which conflict avoidance
    is requested. *)
Definition conflicting_host : host :=
  static_host [OMSAdminPath] [] []
    [(WorkspaceCheckCommand,
      Output ("Primary Workspace: " ++ other_workspace_id
              ++ "    Status: Onboarded(OMSAgent Running)"))]
    (sample_settings sample_workspace_key).

(** The operation ended before its work was done: the process exited, or
    an exception other than a failure of a command was raised. *)
Definition aborted {A} (r : outcome A) : Prop :=
  match r with
  | Ok _ => False
  | Raise e => engine_failure e = false
  | Exit _ => True
  end.

(* ------------------------------------------------------------------ *)
(** ** The operation named on the command line *)

Definition is_dash_or_slash (c : ascii) : bool :=
  Ascii.eqb c "-" || Ascii.eqb c "/".

(** [[-/]*] at the start of the option, greedy. *)
Fixpoint skip_dashes (s : string) : string :=
  match s with
  | EmptyString => EmptyString
  | String c r => if is_dash_or_slash c then skip_dashes r else s
  end.

(** [re.match] of the pattern '^', a group of [[-/]] repeated, then the
    group of the name, on the option, is not None: the names start
    with a letter, so the leading run of dashes and slashes has to be
    taken whole. *)
Definition option_matches (name opt : string) : bool :=
  startswith name (skip_dashes opt).

(** The chain of [if] ... [elif] of [main] over [option = sys.argv[1]]. *)
Definition operation_of_option (opt : string) : option string :=
  if option_matches "disable" opt then Some "Disable"
  else if option_matches "uninstall" opt then Some "Uninstall"
  else if option_matches "install" opt then Some "Install"
  else if option_matches "enable" opt then Some "Enable"
  else if option_matches "update" opt then Some "Update"
  else None.

(** The names of the operations, as the patterns spell them, with the
    operation each one stands for. *)
Definition operation_names : list (string * string) :=
  [("disable", "Disable"); ("uninstall", "Uninstall"); ("install", "Install");
   ("enable", "Enable"); ("update", "Update")].


(** The line reads: anything, "dpkg", at least one character, "lock",
    anything; what r'^.*dpkg.+lock.*$' asks of a line. *)
Definition dpkg_lock_line (line : string) : Prop :=
  exists before between after,
    line = (before ++ "dpkg" ++ between ++ "lock" ++ after)%string
    /\ between <> EmptyString.

(** A character that separates the ports of the httpsport directive. *)
Definition port_separator (c : ascii) : Prop := c = " "%char \/ c = ","%char.

(** The SCOM port is an element of the list: "1270" stands in the text
    of the directive between separators (a blank or a comma) or the ends
    of the text. *)
Definition scom_port_listed (ports : string) : Prop :=
  exists before after,
    ports = (before ++ "1270" ++ after)%string
    /\ (before = EmptyString
        \/ exists b d, before = (b ++ String d EmptyString)%string /\ port_separator d)
    /\ (after = EmptyString
        \/ exists d a, after = String d a /\ port_separator d).

(** No character of the text is [sep]. *)
Definition free_of (sep : ascii) (s : string) : bool :=
  all_chars (fun c => negb (Ascii.eqb c sep)) s.

(* ------------------------------------------------------------------ *)
(** ** Supported distributions *)

(** The value of a string of decimal digits, as [int] reads it (leading
    zeros allowed); no value for the empty string or any other
    character. *)
Fixpoint decimal_digits (acc : Z) (s : string) : option Z :=
  match s with
  | EmptyString => Some acc
  | String c r =>
      if is_digit c
      then decimal_digits (10 * acc + Z.of_nat (nat_of_ascii c - 48)) r
      else None
  end.

Definition decimal_int (s : string) : option Z :=
  match s with
  | EmptyString => None
  | _ => decimal_digits 0 s
  end.

(** What is assumed of [int] on a byte string: a string of decimal
    digits has its decimal value.  What [int] does with any other text
    (blanks, signs) is left open; [None] is its ValueError. *)
Definition reads_decimals (py_int : string -> option Z) : Prop :=
  forall s n, decimal_int s = Some n -> py_int s = Some n.

(** supported_dists, in the order of the dictionary display. *)
Definition supported_dists : list (string * list string) :=
  [("redhat", ["5"; "6"; "7"]);
   ("centos", ["5"; "6"; "7"]);
   ("red hat", ["5"; "6"; "7"]);
   ("oracle", ["5"; "6"; "7"]);
   ("debian", ["6"; "7"; "8"]);
   ("ubuntu", ["12.04"; "14.04"; "15.04"; "15.10"; "16.04"; "16.10"]);
   ("suse", ["11"; "12"])]%string.

Section VmSupport.

(** [int] on a string; [None] is ValueError, which nothing here catches. *)
Variable py_int : string -> option Z.

(** The loop over [enumerate(supported_ver_split)]: [Some true] when
    vm_ver_match stays True, [Some false] after a break (a component
    that differs, or the IndexError of a version with fewer
    components), [None] for a ValueError.  The numbers compared with
    [is not] are equal only when both are the small supported number,
    where identity is equality. *)
Fixpoint vm_ver_match (vm_ver_split : list string) (idx : nat)
         (supported_ver_split : list string) : option bool :=
  match supported_ver_split with
  | [] => Some true
  | supported_ver_num :: rest =>
      match py_int supported_ver_num with
      | None => None
      | Some supported_ver_num =>
          match nth_error vm_ver_split idx with
          | None => Some false
          | Some vm_ver_component =>
              match py_int vm_ver_component with
              | None => None
              | Some vm_ver_num =>
                  if negb (vm_ver_num =? supported_ver_num) then Some false
                  else vm_ver_match vm_ver_split (S idx) rest
              end
          end
      end
  end.

(** The loop over the supported versions of one distribution. *)
Fixpoint supported_versions_loop (vm_ver_split : list string)
         (supported_vers : list string) : option bool :=
  match supported_vers with
  | [] => Some false
  | supported_ver :: rest =>
      match vm_ver_match vm_ver_split 0 (split_on "." supported_ver) with
      | None => None
      | Some true => Some true
      | Some false => supported_versions_loop vm_ver_split rest
      end
  end.

(** The loop over [supported_dists.keys()], in the order [dists]. *)
Fixpoint supported_dists_loop (dists : list (string * list string))
         (vm_dist vm_ver : string) : option bool :=
  match dists with
  | [] => Some false
  | (supported_dist, supported_vers) :: rest =>
      if negb (startswith supported_dist (lower vm_dist))
      then supported_dists_loop rest vm_dist vm_ver
      else
        match supported_versions_loop (split_on "." vm_ver) supported_vers with
        | None => None
        | Some true => Some true
        | Some false => supported_dists_loop rest vm_dist vm_ver
        end
  end.

(** [is_vm_supported_for_extension()] on a machine whose
    [platform.linux_distribution()] is [(vm_dist, vm_ver, _)], the keys
    of the dictionary coming in the order [keys_order] (a Python 2
    dictionary promises none). *)
Definition is_vm_supported_for_extension_in (keys_order : list (string * list string))
           (vm_dist vm_ver : string) : option (bool * string * string) :=
  match supported_dists_loop keys_order vm_dist vm_ver with
  | None => None
  | Some vm_supported => Some (vm_supported, vm_dist, vm_ver)
  end.

Definition is_vm_supported_for_extension (vm_dist vm_ver : string)
  : option (bool * string * string) :=
  is_vm_supported_for_extension_in supported_dists vm_dist vm_ver.

End VmSupport.

(** The distribution named by [vm_dist] has an entry in the table. *)
Definition dist_key_matches (vm_dist : string) (entry : string * list string) : bool :=
  startswith (fst entry) (lower vm_dist).

(** Every component of the supported version is there in the version
    of the machine, at the same place and with the same number. *)
Definition components_agree (py_int : string -> option Z)
           (vm_ver_split supported_ver_split : list string) : Prop :=
  forall i s,
    nth_error supported_ver_split i = Some s ->
    exists c n,
      nth_error vm_ver_split i = Some c /\ py_int s = Some n /\ py_int c = Some n.

(* ------------------------------------------------------------------ *)
(** ** The latest settings sequence number *)

(** [re.match(r'[0-9]{1,10}\.settings', s) is not None]: between one
    and ten digits, then the literal, at the start of [s]; what follows
    is free. *)
Definition settings_file_match (s : string) : bool :=
  existsb (fun k =>
             match match_classes (repeat is_digit k) s with
             | Some rest =>
                 match match_literal ".settings" rest with
                 | Some _ => true
                 | None => false
                 end
             | None => false
             end)
          (seq 1 10).

(** latest_seq_no and latest_time of the scan. *)
Record seq_scan : Type := { latest_seq_no : Z; latest_time : option Z }.

Section LatestSeqNo.

(** [int] on a string ([None]: ValueError) and [os.path.getmtime]
    ([None]: OSError); a time is a number of which only the order is
    used. *)
Variable py_int : string -> option Z.
Variable getmtime : string -> option Z.
Variable config_dir : string.

(** The body of the loop over the files for one file.  [None]: an
    exception, which the bare [except] around both loops turns into
    the end of the scan. *)
Definition scan_settings_file (st : seq_scan) (file : string) : option seq_scan :=
  let file_basename := basename file in
  if negb (settings_file_match file_basename) then Some st
  else
    match py_int (hd EmptyString (split_on "." file_basename)) with
    | None => None
    | Some cur_seq_no =>
        let file_path := path_join config_dir file in
        match getmtime file_path with
        | None => None
        | Some cur_time =>
            if match latest_time st with
               | None => true
               | Some t => t <? cur_time
               end
            then Some {| latest_seq_no := cur_seq_no; latest_time := Some cur_time |}
            else Some st
        end
    end.

(** The inner loop; the flag says whether it ran to its end. *)
Fixpoint scan_settings_files (files : list string) (st : seq_scan) : seq_scan * bool :=
  match files with
  | [] => (st, true)
  | file :: rest =>
      match scan_settings_file st file with
      | None => (st, false)
      | Some st' => scan_settings_files rest st'
      end
  end.

(** The loop over [os.walk(config_dir)]. *)
Fixpoint scan_settings_walk (walk : list (string * list string * list string))
         (st : seq_scan) : seq_scan * bool :=
  match walk with
  | [] => (st, true)
  | (dir_name, sub_dirs, files) :: rest =>
      match scan_settings_files files st with
      | (st', true) => scan_settings_walk rest st'
      | (st', false) => (st', false)
      end
  end.

(** [get_latest_seq_no()]: the global SettingsSequenceNumber goes in
    and comes out; [config_dir] is what the handler environment (or the
    working directory) gives, [walk] what [os.walk(config_dir)]
    yields.  Returns the number and the new value of the global. *)
Definition get_latest_seq_no (SettingsSequenceNumber : option Z)
           (walk : list (string * list string * list string)) : Z * option Z :=
  match SettingsSequenceNumber with
  | Some n => (n, Some n)
  | None =>
      let st := fst (scan_settings_walk walk {| latest_seq_no := -1; latest_time := None |}) in
      let latest_seq_no := if latest_seq_no st <? 0 then 0 else latest_seq_no st in
      (latest_seq_no, Some latest_seq_no)
  end.

(** The sequence number in the name of a settings file and the time of
    the file the scan asks for. *)
Definition seq_no_of (file : string) : option Z :=
  py_int (hd EmptyString (split_on "." (basename file))).

Definition mtime_of (file : string) : option Z :=
  getmtime (path_join config_dir file).

End LatestSeqNo.

(** The files of a walk, in the order of the scan, and those among
    them with the name of a settings file. *)
Definition walk_files (walk : list (string * list string * list string)) : list string :=
  flat_map (fun entry => snd entry) walk.

Definition settings_files (walk : list (string * list string * list string)) : list string :=
  filter (fun file => settings_file_match (basename file)) (walk_files walk).

(** [file], of time [t], is the latest of the files [cands] as the scan
    sees it: the first one, in the order of the scan, among those of
    the greatest time. *)
Definition latest_of (mtime : string -> option Z) (cands : list string)
           (file : string) (t : Z) : Prop :=
  exists pre post,
    cands = (pre ++ file :: post)%list
    /\ mtime file = Some t
    /\ (forall g tg, In g pre -> mtime g = Some tg -> tg < t)
    /\ (forall g tg, In g post -> mtime g = Some tg -> tg <= t).

(** What the scan has in hand after the settings files [cands]. *)
Definition scan_inv (py_int : string -> option Z) (mtime : string -> option Z)
           (st : seq_scan) (cands : list string) : Prop :=
  match latest_time st with
  | None => cands = [] /\ latest_seq_no st = -1
  | Some t =>
      exists file,
        latest_of mtime cands file t
        /\ seq_no_of py_int file = Some (latest_seq_no st)
        /\ 0 <= latest_seq_no st
  end.

Definition is_settings_file (file : string) : bool := settings_file_match (basename file).

(** A configuration folder for the examples: two settings files, the
    one with the lower number changed last, and a file of another
    name. *)
Definition sample_config_dir : string := "/var/lib/waagent/ext/config".
Definition sample_walk : list (string * list string * list string) :=
  [(sample_config_dir, [], ["7.settings"; "3.settings"; "HandlerState"]%string)].
Definition sample_getmtime (path : string) : option Z :=
  lookup path [("/var/lib/waagent/ext/config/7.settings"%string, 100);
               ("/var/lib/waagent/ext/config/3.settings"%string, 200)].

(* ------------------------------------------------------------------ *)
(** ** Installing where nothing conflicts *)

(** [install] from [os.chmod] on. *)
Definition install_cmd (cwd : string) : string := InstallCommandTemplate (bundle_path cwd).

Definition install_bundle (h : host) (cwd : string) : M Z :=
  chmod h (bundle_path cwd) 100 ;;
  hutil_log_info ("Running command " ++ dquote ++ install_cmd cwd ++ dquote) ;;
  run_command_with_retries h (install_cmd cwd) 15
    (retry_if_dpkg_locked_or_curl_is_not_found h)
    (Some (pure_policy final_check_if_dpkg_locked)) true true 30 1.

Definition port_undetermined_msg : string := "SCOM port could not be determined to be open".

(** A machine on which nothing of the agent or of OMI is installed, with
    the settings asking to stop on multiple connections; the bundle
    installs at once. *)
Definition clean_host : host :=
  static_host [] [] []
    [(install_cmd sample_cwd, Output "Installation complete")]
    (sample_settings sample_workspace_key).
(* ------------------------------------------------------------------ *)
(** ** Basic facts: histories and the monad *)

Lemma executions_app (cmd : string) (a b : history) :
  executions cmd (a ++ b)%list = (executions cmd a + executions cmd b)%nat.
Proof.
  unfold executions. rewrite filter_app, length_app. reflexivity.
Qed.

Lemma executions_exec (cmd : string) (tr : history) :
  executions cmd (tr ++ [EvExec cmd])%list = S (executions cmd tr).
Proof.
  rewrite executions_app. unfold executions at 2. simpl.
  rewrite String.eqb_refl. simpl. lia.
Qed.

Lemma executions_log (cmd : string) (tr : history) who lvl msg :
  executions cmd (tr ++ [EvLog who lvl msg])%list = executions cmd tr.
Proof.
  rewrite executions_app. unfold executions at 2. simpl. lia.
Qed.

Lemma executions_sleep (cmd : string) (tr : history) s :
  executions cmd (tr ++ [EvSleep s])%list = executions cmd tr.
Proof.
  rewrite executions_app. unfold executions at 2. simpl. lia.
Qed.

Lemma bind_unfold {A B} (m : M A) (k : A -> M B) (tr : history) :
  bind m k tr =
  match m tr with
  | (Ok a, tr') => k a tr'
  | (Raise e, tr') => (Raise e, tr')
  | (Exit c, tr') => (Exit c, tr')
  end.
Proof. reflexivity. Qed.

Lemma bind_ok {A B} (m : M A) (k : A -> M B) (tr tr' : history) (a : A) :
  m tr = (Ok a, tr') -> bind m k tr = k a tr'.
Proof. intros H. unfold bind. rewrite H. reflexivity. Qed.


Lemma bind_exit {A B} (m : M A) (k : A -> M B) (tr tr' : history) (c : Z) :
  m tr = (Exit c, tr') -> bind m k tr = (Exit c, tr').
Proof. intros H. unfold bind. rewrite H. reflexivity. Qed.

(** The facility always records the command, however it ends. *)
Lemma execution_facility_history (h : host) cmd ce lc tr :
  snd (execution_facility h cmd ce lc tr) = (tr ++ [EvExec cmd])%list.
Proof.
  unfold execution_facility.
  destruct (waagent_loaded h).
  - destruct (3 <=? waagent_params h)%nat; reflexivity.
  - destruct (check_output h tr cmd); reflexivity.
Qed.

Lemma encode_utf8_history (t : pytext) tr : snd (encode_utf8 t tr) = tr.
Proof.
  destruct t as [b | cps]; simpl; [destruct (all_chars is_ascii7 b) |]; reflexivity.
Qed.

Lemma encode_utf8_encodable (t : pytext) tr :
  encodable t = true -> exists s, encode_utf8 t tr = (Ok s, tr).
Proof.
  destruct t as [b | cps]; simpl; intros H.
  - rewrite H. eexists; reflexivity.
  - eexists; reflexivity.
Qed.

Lemma run_get_output_history (h : host) cmd ce lc tr :
  snd (run_get_output h cmd ce lc tr) = (tr ++ [EvExec cmd])%list.
Proof.
  unfold run_get_output. rewrite bind_unfold.
  pose proof (execution_facility_history h cmd ce lc tr) as Hf.
  destruct (execution_facility h cmd ce lc tr) as [[[code raw] | e | c] tr1];
    simpl in Hf; subst tr1; try reflexivity.
  rewrite bind_unfold.
  pose proof (encode_utf8_history raw (tr ++ [EvExec cmd])%list) as He.
  destruct (encode_utf8 raw (tr ++ [EvExec cmd])%list) as [[s | e | c] tr2];
    simpl in He; subst tr2; reflexivity.
Qed.

Lemma run_get_output_answers (h : host) cmd ce lc :
  facility_answers h cmd ce lc ->
  forall tr, exists exit_code output,
    run_get_output h cmd ce lc tr = (Ok (exit_code, output), (tr ++ [EvExec cmd])%list).
Proof.
  intros Hf tr. destruct (Hf tr) as (code & raw & Hr & Henc).
  pose proof (execution_facility_history h cmd ce lc tr) as Hh.
  destruct (execution_facility h cmd ce lc tr) as [r tr1] eqn:E.
  simpl in Hr, Hh. subst r tr1.
  destruct (encode_utf8_encodable raw (tr ++ [EvExec cmd])%list Henc) as (s & Hs).
  exists code, (strip s).
  unfold run_get_output. rewrite (bind_ok _ _ _ _ _ E).
  rewrite (bind_ok _ _ _ _ _ Hs). reflexivity.
Qed.

Lemma run_command_and_log_ok (h : host) cmd ce lc tr exit_code output :
  run_get_output h cmd ce lc tr = (Ok (exit_code, output), (tr ++ [EvExec cmd])%list) ->
  run_command_and_log h cmd ce lc tr =
  (Ok (exit_code, output), (tr ++ [EvExec cmd] ++ [output_log cmd lc output])%list).
Proof.
  intros H. unfold run_command_and_log. rewrite (bind_ok _ _ _ _ _ H).
  unfold output_log. rewrite app_assoc. destruct lc; reflexivity.
Qed.

Lemma run_command_and_log_executions (h : host) cmd ce lc tr :
  executions cmd (snd (run_command_and_log h cmd ce lc tr)) = S (executions cmd tr).
Proof.
  unfold run_command_and_log. rewrite bind_unfold.
  pose proof (run_get_output_history h cmd ce lc tr) as Hh.
  destruct (run_get_output h cmd ce lc tr) as [[[code out] | e | c] tr1];
    simpl in Hh; subst tr1; simpl; try apply executions_exec.
  destruct lc; unfold bind, hutil_log_info, emit, ret; simpl;
    rewrite executions_log; apply executions_exec.
Qed.

(* ------------------------------------------------------------------ *)
(** ** The text helpers on the handler's own examples *)

Example split_ports_example :
  split_on " " (replace_char "," " " " 1270,8080") = [EmptyString; "1270"; "8080"].
Proof. reflexivity. Qed.

Example str_of_SCOMPort : str_of_Z SCOMPort = "1270".
Proof. reflexivity. Qed.

Example httpsport_search_second_line :
  httpsport_search ("httpport=0" ++ String newline "  httpsport = 0,1270")
  = Some " 0,1270".
Proof. reflexivity. Qed.

Example GUIDOnly_match_example :
  GUIDOnly_match "94a1f46d-2ced-4739-9b6a-1f06156ca4ac" = true
  /\ GUIDOnly_match "94a1f46d-2ced-4739-9b6a-1f06156ca4ac0" = false
  /\ GUIDOnly_match "scom" = false.
Proof. repeat split; reflexivity. Qed.

Example dpkg_locked_search_example :
  dpkg_locked_search "E: Could not get lock /var/lib/dpkg/lock" = true
  /\ dpkg_locked_search "dpkglock" = false
  /\ dpkg_locked_search "dpkg: error: dpkg status database is locked by another process"
     = true
  /\ dpkg_locked_search ("dpkg" ++ String newline "lock") = false.
Proof. repeat split; reflexivity. Qed.

Example SCOMCertIssuer_search_example :
  SCOMCertIssuer_search
    ("Certificate:" ++
     String newline
       "    Issuer: CN=SCX-Certificate/title=SCX94a1f46d-2ced-4739-9b6a-1f06156ca4ac, DC=NEB-OM-1502733")
  = true
  /\ SCOMCertIssuer_search "    Issuer: CN=SCX-Certificate/title=SCX, DC=host" = false.
Proof. repeat split; reflexivity. Qed.

Example strip_lower_example : lower (strip "  No Workspace ") = "no workspace".
Proof. reflexivity. Qed.

Example base64_example :
  Base64.encode "hello world" = "aGVsbG8gd29ybGQ="
  /\ Base64.decode "aGVsbG8gd29ybGQ=" = Some "hello world"
  /\ Base64.decode "not a base64 key" = None.
Proof. repeat split; reflexivity. Qed.

(* ------------------------------------------------------------------ *)
(** ** The retry engine *)

Section RetryLoop.

Variable h : host.
Variable cmd : string.
Variable retry_check : retry_policy.
Variables check_error log_cmd : bool.
Variable sleep_increase_factor : Z.

(** One turn of the loop, when the command returns and the policy asks
    for a retry. *)
Lemma retry_loop_step (remaining : nat) sleep_time last tr exit_code output msg tr2 :
  run_get_output h cmd check_error log_cmd tr
    = (Ok (exit_code, output), (tr ++ [EvExec cmd])%list) ->
  retry_check exit_code output
    (tr ++ [EvExec cmd] ++ [output_log cmd log_cmd output])%list
    = (Ok (true, msg), tr2) ->
  retry_loop h cmd retry_check check_error log_cmd sleep_increase_factor
             (S remaining) sleep_time last tr
  = retry_loop h cmd retry_check check_error log_cmd sleep_increase_factor
               remaining (sleep_time * sleep_increase_factor)
               (Some (exit_code, output))
               ((tr2 ++ [EvLog Hutil Info msg]) ++ [EvSleep sleep_time])%list.
Proof.
  intros Hrun Hpol. simpl.
  rewrite (bind_ok _ _ _ _ _ (run_command_and_log_ok _ _ _ _ _ _ _ Hrun)).
  rewrite (bind_ok _ _ _ _ _ Hpol). reflexivity.
Qed.

(** One turn of the loop, when the command returns and the policy
    declines. *)
Lemma retry_loop_stop (remaining : nat) sleep_time last tr exit_code output msg tr2 :
  run_get_output h cmd check_error log_cmd tr
    = (Ok (exit_code, output), (tr ++ [EvExec cmd])%list) ->
  retry_check exit_code output
    (tr ++ [EvExec cmd] ++ [output_log cmd log_cmd output])%list
    = (Ok (false, msg), tr2) ->
  retry_loop h cmd retry_check check_error log_cmd sleep_increase_factor
             (S remaining) sleep_time last tr
  = (Ok (Some (exit_code, output)), tr2).
Proof.
  intros Hrun Hpol. simpl.
  rewrite (bind_ok _ _ _ _ _ (run_command_and_log_ok _ _ _ _ _ _ _ Hrun)).
  rewrite (bind_ok _ _ _ _ _ Hpol). reflexivity.
Qed.

Hypothesis Hanswers : facility_answers h cmd check_error log_cmd.
Hypothesis Halways : always_retries retry_check.
Hypothesis Hframe : forall c o, does_not_run cmd (retry_check c o).

(** With a policy that always asks for a retry the loop uses up every
    turn it is allowed: [remaining] executions, and it ends with the
    values of an attempt. *)
Lemma retry_loop_always (remaining : nat) :
  forall sleep_time last tr,
  exists r tr',
    retry_loop h cmd retry_check check_error log_cmd sleep_increase_factor
               remaining sleep_time last tr = (Ok r, tr')
    /\ executions cmd tr' = (executions cmd tr + remaining)%nat
    /\ (remaining <> O -> exists c o, r = Some (c, o))
    /\ (remaining = O -> r = last).
Proof.
  induction remaining as [| k IH]; intros sleep_time last tr.
  - exists last, tr. simpl. repeat split; try reflexivity; try lia.
  - destruct (run_get_output_answers h cmd check_error log_cmd Hanswers tr)
      as (code & out & Hrun).
    destruct (Halways code out (tr ++ [EvExec cmd] ++ [output_log cmd log_cmd out])%list)
      as (msg & tr2 & Hpol).
    rewrite (retry_loop_step k sleep_time last tr code out msg tr2 Hrun Hpol).
    destruct (IH (sleep_time * sleep_increase_factor) (Some (code, out))
                 ((tr2 ++ [EvLog Hutil Info msg]) ++ [EvSleep sleep_time])%list)
      as (r & tr' & Hloop & Hcount & Hsome & Hzero).
    exists r, tr'. split; [exact Hloop |]. split; [| split].
    + rewrite Hcount, executions_sleep, executions_log.
      pose proof (Hframe code out (tr ++ [EvExec cmd] ++ [output_log cmd log_cmd out])%list) as Hf.
      rewrite Hpol in Hf. cbn [snd] in Hf. rewrite Hf.
      rewrite app_assoc. unfold output_log. rewrite executions_log, executions_exec. lia.
    + intros _. destruct k as [| k'].
      * exists code, out. apply Hzero. reflexivity.
      * apply Hsome. discriminate.
    + discriminate.
Qed.

End RetryLoop.

(** Whatever the policy does, one turn of the loop hands the command to
    the facility once. *)
Lemma retry_loop_one_turn (h : host) cmd (retry_check : retry_policy) ce lc sif st last tr :
  (forall c o, does_not_run cmd (retry_check c o)) ->
  executions cmd (snd (retry_loop h cmd retry_check ce lc sif 1 st last tr))
  = S (executions cmd tr).
Proof.
  intros Hframe. simpl. rewrite bind_unfold.
  pose proof (run_command_and_log_executions h cmd ce lc tr) as Hrun.
  destruct (run_command_and_log h cmd ce lc tr) as [[[code out] | e | c] tr1];
    simpl in Hrun; try exact Hrun.
  rewrite bind_unfold.
  pose proof (Hframe code out tr1) as Hp.
  destruct (retry_check code out tr1) as [[[b msg] | e | c] tr2];
    simpl in Hp; simpl; try congruence.
  destruct b; simpl.
  - unfold bind, hutil_log_info, sleep, emit, ret. simpl.
    rewrite executions_sleep, executions_log. congruence.
  - unfold ret. simpl. congruence.
Qed.

(** C1. With [retries = n >= 0] and a retry policy that always answers
    (True, msg), [run_command_with_retries] hands the command to the
    execution facility exactly n+1 times; and with [retries = 0] it does so
    exactly once whatever the policy answers.  (The command is counted in
    the history; the policies are taken not to run that same command
    themselves, and in the first part the facility returns each time.) *)
Theorem run_command_with_retries_attempts :
  forall (h : host) (cmd : string) (final_check : option final_policy)
         (check_error log_cmd : bool) (initial_sleep_time sleep_increase_factor : Z)
         (tr : history),
    (forall f, final_check = Some f -> forall c o, does_not_run cmd (f c o)) ->
    (forall (n : Z) (retry_check : retry_policy),
        0 <= n ->
        facility_answers h cmd check_error log_cmd ->
        always_retries retry_check ->
        (forall c o, does_not_run cmd (retry_check c o)) ->
        executions cmd
          (snd (run_command_with_retries h cmd n retry_check final_check
                  check_error log_cmd initial_sleep_time sleep_increase_factor tr))
        = (executions cmd tr + (Z.to_nat n + 1))%nat)
    /\
    (forall (retry_check : retry_policy),
        (forall c o, does_not_run cmd (retry_check c o)) ->
        executions cmd
          (snd (run_command_with_retries h cmd 0 retry_check final_check
                  check_error log_cmd initial_sleep_time sleep_increase_factor tr))
        = (executions cmd tr + 1)%nat).
Proof.
  intros h cmd final_check ce lc ist sif tr Hfinal. split.
  - intros n retry_check Hn Hans Halw Hframe.
    unfold run_command_with_retries. rewrite bind_unfold.
    destruct (retry_loop_always h cmd retry_check ce lc sif Hans Halw Hframe
                (Z.to_nat (n + 1)) ist None tr)
      as (r & tr' & Hloop & Hcount & Hsome & _).
    rewrite Hloop.
    destruct Hsome as (c & o & Hr); [lia |]. subst r.
    replace (Z.to_nat n + 1)%nat with (Z.to_nat (n + 1)) by lia.
    destruct final_check as [f |].
    + rewrite (Hfinal f eq_refl c o tr'). exact Hcount.
    + simpl. exact Hcount.
  - intros retry_check Hframe.
    unfold run_command_with_retries. rewrite bind_unfold.
    change (Z.to_nat (0 + 1)) with 1%nat.
    pose proof (retry_loop_one_turn h cmd retry_check ce lc sif ist None tr Hframe) as H1.
    destruct (retry_loop h cmd retry_check ce lc sif 1 ist None tr) as [[r | e | c] tr1];
      simpl in H1; simpl; try lia.
    destruct r as [[c o] |]; simpl; try lia.
    destruct final_check as [f |]; simpl; try lia.
    rewrite (Hfinal f eq_refl c o tr1). lia.
Qed.

(** The values the loop ends with are those of its last attempt. *)
Lemma retry_loop_last (h : host) cmd (retry_check : retry_policy) ce lc sif :
  forall (remaining : nat) sleep_time last tr c o tr_end,
    (forall c' o', last = Some (c', o') -> is_last_attempt h cmd retry_check ce lc c' o' tr) ->
    retry_loop h cmd retry_check ce lc sif remaining sleep_time last tr
      = (Ok (Some (c, o)), tr_end) ->
    is_last_attempt h cmd retry_check ce lc c o tr_end.
Proof.
  induction remaining as [| k IH]; intros sleep_time last tr c o tr_end Hlast Hloop.
  - simpl in Hloop. unfold ret in Hloop. inversion Hloop; subst.
    apply Hlast. reflexivity.
  - simpl in Hloop. rewrite bind_unfold in Hloop.
    destruct (run_command_and_log h cmd ce lc tr) as [[[c1 o1] | e | x] tr1] eqn:Hrun;
      try discriminate.
    rewrite bind_unfold in Hloop.
    destruct (retry_check c1 o1 tr1) as [[[b msg] | e | x] tr2] eqn:Hpol;
      try discriminate.
    destruct b; simpl in Hloop.
    + unfold bind at 1 2 in Hloop. simpl in Hloop.
      apply (IH _ _ _ _ _ _) with (2 := Hloop).
      intros c' o' Heq. inversion Heq; subst.
      exists tr, tr1, true, msg, tr2, sleep_time. auto.
    + unfold ret in Hloop. inversion Hloop; subst.
      exists tr, tr1, false, msg, tr_end, 0. auto.
Qed.

(** The loop started afresh ends with the values of its last attempt. *)
Lemma retry_loop_fresh_last (h : host) cmd (retry_check : retry_policy)
      ce lc sif remaining sleep_time tr c o tr_end :
  retry_loop h cmd retry_check ce lc sif remaining sleep_time None tr
    = (Ok (Some (c, o)), tr_end) ->
  is_last_attempt h cmd retry_check ce lc c o tr_end.
Proof.
  intros Hloop.
  apply (retry_loop_last h cmd retry_check ce lc sif _ _ _ _ _ _ _) with (2 := Hloop).
  intros c' o' H; discriminate.
Qed.

(** C6, as amended.  When the loop exits with the exit code and output of
    its last attempt, a final policy that was supplied is applied to
    exactly these values and its result is what the engine returns
    (without a final policy the exit code is returned as it is); and
    [final_check_if_dpkg_locked] answers the lock code 12 for every exit
    code other than 0 whose output matches the lock pattern, while exit
    code 0 stays 0. *)
Theorem final_check_on_last_attempt :
  forall (h : host) (cmd : string) (retries : Z) (retry_check : retry_policy)
         (check_error log_cmd : bool) (initial_sleep_time sleep_increase_factor : Z)
         (tr : history) (c : Z) (o : string) (tr_end : history),
    retry_loop h cmd retry_check check_error log_cmd sleep_increase_factor
               (Z.to_nat (retries + 1)) initial_sleep_time None tr
      = (Ok (Some (c, o)), tr_end) ->
    is_last_attempt h cmd retry_check check_error log_cmd c o tr_end
    /\ (forall f : final_policy,
           run_command_with_retries h cmd retries retry_check (Some f)
             check_error log_cmd initial_sleep_time sleep_increase_factor tr
           = f c o tr_end)
    /\ run_command_with_retries h cmd retries retry_check None
         check_error log_cmd initial_sleep_time sleep_increase_factor tr
       = (Ok c, tr_end)
    /\ (forall exit_code output,
           exit_code <> 0 -> dpkg_locked_search output = true ->
           final_check_if_dpkg_locked exit_code output = DPKGLockedErrorCode)
    /\ (forall output, final_check_if_dpkg_locked 0 output = 0).
Proof.
  intros h cmd retries rc ce lc ist sif tr c o tr_end Hloop.
  split; [| split; [| split; [| split]]].
  - exact (retry_loop_fresh_last h cmd rc ce lc sif _ _ _ _ _ _ Hloop).
  - intros f. unfold run_command_with_retries. rewrite (bind_ok _ _ _ _ _ Hloop).
    reflexivity.
  - unfold run_command_with_retries. rewrite (bind_ok _ _ _ _ _ Hloop). reflexivity.
  - intros exit_code output Hne Hlock.
    unfold final_check_if_dpkg_locked, is_dpkg_locked.
    destruct (Z.eqb_spec exit_code 0) as [-> | _]; [congruence |].
    simpl. rewrite Hlock. reflexivity.
  - intros output. reflexivity.
Qed.

Lemma final_check_on_last_attempt_witness :
  run_command_with_retries locked_host dpkg_cmd 1 retry_always
    (Some (pure_policy final_check_if_dpkg_locked)) true true 30 1 []
  = (Ok DPKGLockedErrorCode,
     [EvExec dpkg_cmd; output_log dpkg_cmd true dpkg_locked_output;
      EvLog Hutil Info "Retrying."; EvSleep 30;
      EvExec dpkg_cmd; output_log dpkg_cmd true dpkg_locked_output;
      EvLog Hutil Info "Retrying."; EvSleep 30]).
Proof.
  eassert (Hloop : retry_loop locked_host dpkg_cmd retry_always true true 1
                     (Z.to_nat (1 + 1)) 30 None [] = (Ok (Some (_, _)), _))
    by reflexivity.
  destruct (final_check_on_last_attempt _ _ _ _ _ _ _ _ _ _ _ _ Hloop)
    as (_ & Hfinal & _).
  rewrite Hfinal. reflexivity.
Defined.

(** C6, as the specification states it: the output matches the lock pattern and
    the command ended with exit code 0; the final policy leaves 0. *)
Lemma final_check_if_dpkg_locked_exit_code_zero :
  dpkg_locked_search dpkg_locked_output = true
  /\ final_check_if_dpkg_locked 0 dpkg_locked_output = 0
  /\ final_check_if_dpkg_locked 0 dpkg_locked_output <> DPKGLockedErrorCode.
Proof.
  split; [reflexivity | split; [reflexivity |]].
  intros H. discriminate H.
Qed.

(** C1 at a concrete machine: three attempts for [retries = 2] under a
    policy that always retries, one attempt for [retries = 0]. *)
Lemma run_command_with_retries_attempts_witness :
  executions dpkg_cmd
    (snd (run_command_with_retries locked_host dpkg_cmd 2 retry_always
            (Some (pure_policy final_check_if_dpkg_locked)) true true 30 1 []))
  = 3%nat
  /\ executions dpkg_cmd
       (snd (run_command_with_retries locked_host dpkg_cmd 0 retry_never
               (Some (pure_policy final_check_if_dpkg_locked)) true true 30 1 []))
     = 1%nat.
Proof.
  assert (Hfinal : forall f, Some (pure_policy final_check_if_dpkg_locked) = Some f ->
                             forall c o, does_not_run dpkg_cmd (f c o)).
  { intros f Hf c o tr. inversion Hf; subst. reflexivity. }
  destruct (run_command_with_retries_attempts locked_host dpkg_cmd
              (Some (pure_policy final_check_if_dpkg_locked)) true true 30 1 [] Hfinal)
    as [Hall Hzero].
  split.
  - apply (Hall 2 retry_always).
    + lia.
    + intros tr. exists 2, (PyStr dpkg_locked_output). split; reflexivity.
    + intros c o tr. exists "Retrying.", tr. reflexivity.
    + intros c o tr. reflexivity.
  - apply (Hzero retry_never). intros c o tr. reflexivity.
Defined.

(* ------------------------------------------------------------------ *)
(** ** The no-internet final policy and the top level *)

(** How [log_and_exit] ends: after its two log lines, with the process
    exit, or with the exception of the status report. *)
Lemma log_and_exit_unfold {A} (h : host) (operation : string) (exit_code : Z)
      (message : string) (tr : history) :
  @log_and_exit h A operation exit_code message tr
  = (match report_status h operation exit_code message (tr ++ exit_logs exit_code message)%list with
     | Some e => Raise (raised_by_report e)
     | None => Exit exit_code
     end,
     (tr ++ exit_logs exit_code message)%list).
Proof.
  unfold log_and_exit, exit_logs, bind, ask, waagent_log_info, hutil_log_info,
    waagent_log_error, hutil_log_error, emit, raise, sys_exit.
  destruct (exit_code =? 0); rewrite <- app_assoc; cbn [app];
    match goal with
    | |- context [report_status ?a ?b ?c ?d ?e] => destruct (report_status a b c d e)
    end; reflexivity.
Qed.

Lemma log_and_exit_reported {A} (h : host) (operation : string) (exit_code : Z)
      (message : string) (tr : history) :
  status_reported h ->
  @log_and_exit h A operation exit_code message tr
  = (Exit exit_code, (tr ++ exit_logs exit_code message)%list).
Proof. intros Hrep. rewrite log_and_exit_unfold, Hrep. reflexivity. Qed.




(* ------------------------------------------------------------------ *)
(** ** Sleeping and re-execution *)

(** C8, the code when the retries run out.  At [retries = 0] with a
    policy that asks for a retry the command runs once, the reason is
    logged, the handler sleeps for 30 seconds, and the loop is over: this
    sleep is followed by no execution.  In the same way [uninstall], on a
    machine whose package manager stays locked, runs the command 6 times
    and sleeps 6 times, the last time right before it gives up with the
    lock code. *)
Theorem sleep_after_last_attempt :
  run_command_with_retries locked_host dpkg_cmd 0 retry_always None true true 30 1 []
  = (Ok 2,
     [EvExec dpkg_cmd; output_log dpkg_cmd true dpkg_locked_output;
      EvLog Hutil Info "Retrying."; EvSleep 30])
  /\ fst (uninstall locked_uninstall_host sample_cwd []) = Ok DPKGLockedErrorCode
  /\ executions uninstall_cmd (snd (uninstall locked_uninstall_host sample_cwd [])) = 6%nat
  /\ sleeps (snd (uninstall locked_uninstall_host sample_cwd [])) = 6%nat
  /\ List.last (snd (uninstall locked_uninstall_host sample_cwd [])) (EvSleep 0)
     = EvSleep 30.
Proof. repeat split; vm_compute; reflexivity. Qed.

(** When the policy declines on the first attempt there is one execution
    and no sleep. *)
Lemma no_retry_no_sleep (h : host) cmd (retry_check : retry_policy) ce lc ist sif
      retries tr code out msg tr2 :
  0 <= retries ->
  run_get_output h cmd ce lc tr = (Ok (code, out), (tr ++ [EvExec cmd])%list) ->
  retry_check code out (tr ++ [EvExec cmd] ++ [output_log cmd lc out])%list
    = (Ok (false, msg), tr2) ->
  run_command_with_retries h cmd retries retry_check None ce lc ist sif tr = (Ok code, tr2).
Proof.
  intros Hr Hrun Hpol. unfold run_command_with_retries.
  replace (Z.to_nat (retries + 1)) with (S (Z.to_nat retries)) by lia.
  rewrite (bind_ok _ _ _ _ _ (retry_loop_stop h cmd retry_check ce lc sif _ ist None
                                tr code out msg tr2 Hrun Hpol)).
  reflexivity.
Qed.

(* ------------------------------------------------------------------ *)
(** ** Exceptions out of the engine *)






(* ------------------------------------------------------------------ *)
(** ** Facts about strings *)

Lemma occurs_cons (c a : ascii) (s : string) :
  occurs c (String a s) <-> a = c \/ occurs c s.
Proof. unfold occurs. simpl. tauto. Qed.

Lemma startswith_occurs (c : ascii) :
  forall p s, startswith p s = true -> occurs c p -> occurs c s.
Proof.
  induction p as [| a p IH]; intros s Hs Hc.
  - destruct Hc.
  - destruct s as [| b s]; simpl in Hs; [discriminate |].
    apply andb_true_iff in Hs. destruct Hs as [Hab Hp].
    apply Ascii.eqb_eq in Hab. subst b.
    apply occurs_cons in Hc. apply occurs_cons.
    destruct Hc as [Hc | Hc]; [left; exact Hc | right; apply (IH s Hp Hc)].
Qed.

Lemma contains_occurs (c : ascii) (sub : string) :
  forall s, contains sub s = true -> occurs c sub -> occurs c s.
Proof.
  induction s as [| a s IH]; intros Hs Hc; simpl in Hs.
  - apply orb_true_iff in Hs. destruct Hs as [Hs | Hs]; [| discriminate].
    apply (startswith_occurs c sub _ Hs Hc).
  - apply orb_true_iff in Hs. destruct Hs as [Hs | Hs].
    + apply (startswith_occurs c sub _ Hs Hc).
    + apply occurs_cons. right. apply IH; assumption.
Qed.

Lemma split_on_not_nil (sep : ascii) (s : string) : split_on sep s <> [].
Proof.
  destruct s as [| a s]; simpl; [discriminate |].
  destruct (Ascii.eqb a sep); [discriminate |].
  destruct (split_on sep s); discriminate.
Qed.

Lemma split_on_occurs (c sep : ascii) :
  forall s line, In line (split_on sep s) -> occurs c line -> occurs c s.
Proof.
  induction s as [| a s IH]; intros line Hin Hc; simpl in Hin.
  - destruct Hin as [<- | []]. exact Hc.
  - apply occurs_cons. destruct (Ascii.eqb a sep).
    + destruct Hin as [<- | Hin]; [destruct Hc |]. right. apply (IH line Hin Hc).
    + destruct (split_on sep s) as [| f fs] eqn:E.
      * destruct Hin as [<- | []]. apply occurs_cons in Hc.
        destruct Hc as [Hc | []]. left; exact Hc.
      * destruct Hin as [<- | Hin].
        -- apply occurs_cons in Hc. destruct Hc as [Hc | Hc]; [left; exact Hc |].
           right. apply (IH f); [left; reflexivity | exact Hc].
        -- right. apply (IH line); [right; exact Hin | exact Hc].
Qed.

Lemma lstrip_occurs (c : ascii) :
  forall s, occurs c s -> is_space c = false -> occurs c (lstrip s).
Proof.
  induction s as [| a s IH]; intros Hc Hs; [destruct Hc |].
  simpl. destruct (is_space a) eqn:Ea.
  - apply occurs_cons in Hc. destruct Hc as [-> | Hc]; [congruence |].
    apply IH; assumption.
  - exact Hc.
Qed.

Lemma rstrip_occurs (c : ascii) :
  forall s, occurs c s -> is_space c = false -> occurs c (rstrip s).
Proof.
  induction s as [| a s IH]; intros Hc Hs; [destruct Hc |].
  simpl. apply occurs_cons in Hc. destruct Hc as [-> | Hc].
  - destruct (rstrip s); [rewrite Hs |]; apply occurs_cons; left; reflexivity.
  - specialize (IH Hc Hs). destruct (rstrip s) as [| x y]; [destruct IH |].
    apply occurs_cons. right. exact IH.
Qed.

Lemma strip_occurs (c : ascii) (s : string) :
  occurs c s -> is_space c = false -> occurs c (strip s).
Proof.
  intros Hc Hs. unfold strip. apply rstrip_occurs; [| exact Hs].
  apply lstrip_occurs; assumption.
Qed.

Lemma lower_occurs (c : ascii) :
  forall s, occurs c s -> occurs (lower_char c) (lower s).
Proof.
  induction s as [| a s IH]; intros Hc; [destruct Hc |].
  simpl. apply occurs_cons in Hc. apply occurs_cons.
  destruct Hc as [-> | Hc]; [left; reflexivity | right; apply IH; exact Hc].
Qed.

(** A text with a hyphen in it is not the answer "no workspace". *)
Lemma hyphen_not_no_workspace (output : string) :
  occurs "-" output -> String.eqb (lower (strip output)) "no workspace" = false.
Proof.
  intros Hc. destruct (String.eqb_spec (lower (strip output)) "no workspace") as [E | _];
    [| reflexivity].
  pose proof (lower_occurs "-" _ (strip_occurs "-" output Hc eq_refl)) as H.
  rewrite E in H. unfold occurs in H. simpl in H.
  repeat (destruct H as [H | H]; [discriminate H |]). destruct H.
Qed.

(** A well-formed workspace id has a hyphen in it. *)
Lemma GUIDOnly_match_hyphen (s : string) :
  GUIDOnly_match s = true -> occurs "-" s.
Proof.
  unfold GUIDOnly_match. intros H.
  destruct (match_classes GUIDRegex s) as [rest |] eqn:E; [clear H | discriminate].
  unfold GUIDRegex in E. cbn [repeat app] in E.
  do 9 (destruct s as [| ? s]; [discriminate E |]; cbn [match_classes] in E;
        match type of E with
        | (if ?b then _ else _) = _ => destruct b eqn:?; [| discriminate E]
        end).
  match goal with
  | Hh : is_char _ _ = true |- _ => apply Ascii.eqb_eq in Hh; subst
  end.
  unfold occurs. cbn [list_ascii_of_string In]. do 8 right. left. reflexivity.
Qed.

(* ------------------------------------------------------------------ *)
(** ** Enumerating the configured workspaces *)

Lemma scan_lines_found (workspace_id : string) (tr : history) :
  forall before line after other,
    (forall l, In l before -> all_chars is_ascii7 l = true) ->
    all_chars is_ascii7 line = true ->
    contains workspace_id line = true ->
    scan_lines workspace_id (before ++ line :: after) other tr = (Ok AlreadyConfigured, tr).
Proof.
  induction before as [| l before IH]; intros line after other Hascii Hline Hc.
  - cbn [app scan_lines]. rewrite Hline, Hc. reflexivity.
  - cbn [app scan_lines]. rewrite (Hascii l (or_introl eq_refl)). cbn [negb].
    destruct (contains workspace_id l); [reflexivity |].
    apply IH; [intros l' Hl'; apply Hascii; right; exact Hl' | exact Hline | exact Hc].
Qed.

Lemma scan_lines_not_found (workspace_id : string) (tr : history) :
  forall lines other,
    (forall line, In line lines -> all_chars is_ascii7 line = true) ->
    (forall line, In line lines -> contains workspace_id line = false) ->
    scan_lines workspace_id lines other tr
    = (Ok (Scanned (match lines with [] => other | _ :: _ => true end)), tr).
Proof.
  induction lines as [| l lines IH]; intros other Hascii Hall; [reflexivity |].
  cbn [scan_lines]. rewrite (Hascii l (or_introl eq_refl)), (Hall l (or_introl eq_refl)).
  cbn [negb].
  rewrite IH by (intros line Hin; first [apply Hascii | apply Hall]; right; exact Hin).
  destruct lines; reflexivity.
Qed.

Lemma scan_lines_history (workspace_id : string) (tr : history) :
  forall lines other, snd (scan_lines workspace_id lines other tr) = tr.
Proof.
  induction lines as [| l lines IH]; intros other; [reflexivity |].
  cbn [scan_lines]. destruct (negb (all_chars is_ascii7 l)); [reflexivity |].
  destruct (contains workspace_id l); [reflexivity | apply IH].
Qed.

(** A line that does not decode, before any line with the id in it. *)
Lemma scan_lines_decode_error (workspace_id : string) (tr : history) :
  forall before line after other,
    (forall l, In l before -> all_chars is_ascii7 l = true) ->
    (forall l, In l before -> contains workspace_id l = false) ->
    all_chars is_ascii7 line = false ->
    scan_lines workspace_id (before ++ line :: after) other tr
    = (Raise UnicodeDecodeError, tr).
Proof.
  induction before as [| l before IH]; intros line after other Hascii Hnone Hline.
  - cbn [app scan_lines]. rewrite Hline. reflexivity.
  - cbn [app scan_lines].
    rewrite (Hascii l (or_introl eq_refl)), (Hnone l (or_introl eq_refl)). cbn [negb].
    apply IH; [intros l' Hl'; apply Hascii; right; exact Hl'
              | intros l' Hl'; apply Hnone; right; exact Hl' | exact Hline].
Qed.

Lemma scan_sub_dirs_found (workspace_id : string) :
  all_chars is_ascii7 workspace_id = true ->
  forall sub_dirs other,
    (exists sub_dir, In sub_dir sub_dirs /\ basename sub_dir = workspace_id) ->
    scan_sub_dirs workspace_id sub_dirs other = AlreadyConfigured.
Proof.
  intros Hid.
  induction sub_dirs as [| d ds IH]; intros other (sd & Hin & Hb).
  - destruct Hin.
  - cbn [scan_sub_dirs].
    destruct (all_chars is_ascii7 (basename d) && String.eqb (basename d) workspace_id)
      eqn:E; [reflexivity |].
    destruct Hin as [-> | Hin].
    + rewrite Hb, Hid, String.eqb_refl in E. discriminate E.
    + destruct (GUIDOnly_match (basename d) || (basename d =? "scom")%string);
        apply IH; exists sd; auto.
Qed.

Lemma scan_sub_dirs_not_found (workspace_id : string) :
  forall sub_dirs other,
    (forall sub_dir, In sub_dir sub_dirs -> basename sub_dir <> workspace_id) ->
    scan_sub_dirs workspace_id sub_dirs other
    = Scanned (other || existsb is_other_connection_dir sub_dirs).
Proof.
  induction sub_dirs as [| d ds IH]; intros other Hall.
  - simpl. rewrite orb_false_r. reflexivity.
  - cbn [scan_sub_dirs existsb].
    destruct (String.eqb_spec (basename d) workspace_id) as [E | _].
    + exfalso. apply (Hall d (or_introl eq_refl) E).
    + rewrite andb_false_r. unfold is_other_connection_dir at 1.
      destruct (GUIDOnly_match (basename d) || (basename d =? "scom")%string);
        rewrite IH by (intros sd Hin; apply Hall; right; exact Hin); simpl.
      * rewrite orb_true_r. reflexivity.
      * reflexivity.
Qed.

Lemma scan_walk_found (workspace_id : string) :
  all_chars is_ascii7 workspace_id = true ->
  forall entries other,
    (exists dir_name sub_dirs files sub_dir,
        In (dir_name, sub_dirs, files) entries
        /\ In sub_dir sub_dirs /\ basename sub_dir = workspace_id) ->
    scan_walk workspace_id entries other = AlreadyConfigured.
Proof.
  intros Hid.
  induction entries as [| [[d sds] fs] entries IH];
    intros other (dn & sub_dirs & files & sd & Hin & Hsd & Hb).
  - destruct Hin.
  - simpl. destruct (scan_sub_dirs workspace_id sds other) eqn:E; [reflexivity |].
    destruct Hin as [Heq | Hin].
    + injection Heq as -> -> ->.
      rewrite (scan_sub_dirs_found workspace_id Hid sub_dirs other) in E; [discriminate |].
      exists sd. auto.
    + apply IH. exists dn, sub_dirs, files, sd. auto.
Qed.

Lemma scan_walk_not_found (workspace_id : string) :
  forall entries other,
    (forall dir_name sub_dirs files sub_dir,
        In (dir_name, sub_dirs, files) entries -> In sub_dir sub_dirs ->
        basename sub_dir <> workspace_id) ->
    scan_walk workspace_id entries other
    = Scanned (other ||
               existsb (fun entry => existsb is_other_connection_dir (snd (fst entry)))
                       entries).
Proof.
  induction entries as [| [[d sds] fs] entries IH]; intros other Hall.
  - simpl. rewrite orb_false_r. reflexivity.
  - simpl. rewrite scan_sub_dirs_not_found
      by (intros sd Hin; apply (Hall d sds fs sd); [left; reflexivity | exact Hin]).
    rewrite IH
      by (intros dn sub_dirs files sd Hin Hsd;
          apply (Hall dn sub_dirs files sd); [right; exact Hin | exact Hsd]).
    rewrite orb_assoc. reflexivity.
Qed.

(** The workspace is already configured and the probe answer decodes:
    when a line of the answer of the probe command holds the target
    workspace id and that line and the lines before it are ASCII (or,
    without the onboarding script, a sub-directory under the agent
    configuration root is named by the id, an ASCII one), and the id is
    well formed as [install] has checked, [detect_multiple_connections]
    returns without raising, whatever else is enumerated; it logs that
    the workspace is already configured and probes nothing further. *)
Lemma detect_multiple_connections_same_workspace_ascii :
  forall (h : host) (workspace_id : string) (tr : history),
    GUIDOnly_match workspace_id = true ->
    (path_exists h tr OMSAdminPath = true ->
     exists exit_code output,
       run_get_output h WorkspaceCheckCommand false true tr
         = (Ok (exit_code, output), (tr ++ [EvExec WorkspaceCheckCommand])%list)
       /\ exists before line after,
           split_on newline output = (before ++ line :: after)%list
           /\ (forall l, In l before -> all_chars is_ascii7 l = true)
           /\ all_chars is_ascii7 line = true
           /\ contains workspace_id line = true) ->
    (path_exists h tr OMSAdminPath = false ->
     all_chars is_ascii7 workspace_id = true
     /\ exists dir_name sub_dirs files sub_dir,
         In (dir_name, sub_dirs, files) (os_walk h tr EtcOMSAgentPath)
         /\ In sub_dir sub_dirs /\ basename sub_dir = workspace_id) ->
    detect_multiple_connections h workspace_id tr
    = (Ok tt,
       ((if path_exists h tr OMSAdminPath
         then tr ++ [EvExec WorkspaceCheckCommand] else tr)
        ++ [EvLog Hutil Info already_configured_msg])%list).
Proof.
  intros h wid tr Hguid Hprobe Hdir. unfold detect_multiple_connections.
  unfold bind at 1. unfold ask at 1.
  destruct (path_exists h tr OMSAdminPath) eqn:Hex.
  - destruct (Hprobe eq_refl)
      as (code & out & Hrun & before & line & after & Hsplit & Hascii & Hline & Hc).
    rewrite bind_unfold. rewrite bind_unfold. rewrite Hrun.
    assert (Hin : In line (split_on newline out))
      by (rewrite Hsplit; apply in_or_app; right; left; reflexivity).
    assert (Hsent : String.eqb (lower (strip out)) "no workspace" = false).
    { apply hyphen_not_no_workspace.
      apply (split_on_occurs "-" newline out line Hin).
      apply (contains_occurs "-" wid line Hc).
      apply GUIDOnly_match_hyphen. exact Hguid. }
    rewrite Hsent. cbn [negb]. rewrite Hsplit.
    rewrite (scan_lines_found wid _ before line after false Hascii Hline Hc).
    reflexivity.
  - destruct (Hdir eq_refl) as (Hid & dn & sds & fs & sd & Hin & Hsd & Hb).
    rewrite bind_unfold. rewrite bind_unfold. unfold ask. simpl.
    rewrite (scan_walk_found wid Hid (os_walk h tr EtcOMSAgentPath) false)
      by (exists dn, sds, fs, sd; auto).
    reflexivity.
Qed.

Lemma detect_multiple_connections_same_workspace_hosts :
  detect_multiple_connections same_workspace_host sample_workspace_id []
  = (Ok tt, [EvExec WorkspaceCheckCommand; EvLog Hutil Info already_configured_msg])
  /\ detect_multiple_connections same_workspace_dir_host sample_workspace_id []
     = (Ok tt, [EvLog Hutil Info already_configured_msg]).
Proof. split; vm_compute; reflexivity. Qed.

(** C4, where the code fails it.  The machine is already onboarded to the
    target workspace: the answer of the workspace command holds the id,
    on its second line.  The first line has an accent in it.  The id is
    a unicode object and the line a byte string, so [workspace_id in
    line] decodes the line as ASCII and raises UnicodeDecodeError:
    [detect_multiple_connections] does not return, against its own
    docstring (connecting to an already-configured workspace is not a
    stopping case). *)
Theorem detect_multiple_connections_non_ascii_line :
  GUIDOnly_match sample_workspace_id = true
  /\ run_get_output accented_host WorkspaceCheckCommand false true []
     = (Ok (0, accented_bytes), [EvExec WorkspaceCheckCommand])
  /\ (exists line,
         In line (split_on newline accented_bytes)
         /\ contains sample_workspace_id line = true)
  /\ detect_multiple_connections accented_host sample_workspace_id []
     = (Raise UnicodeDecodeError, [EvExec WorkspaceCheckCommand]).
Proof.
  split; [reflexivity |]. split; [vm_compute; reflexivity |]. split.
  - exists ("Primary Workspace: " ++ sample_workspace_id
            ++ "    Status: Onboarded(OMSAgent Running)")%string.
    split; [vm_compute; right; left; reflexivity | vm_compute; reflexivity].
  - vm_compute. reflexivity.
Qed.

Lemma existsb_nested_false (entries : list (string * list string * list string)) :
  (forall dir_name sub_dirs files sub_dir,
      In (dir_name, sub_dirs, files) entries -> In sub_dir sub_dirs ->
      is_other_connection_dir sub_dir = false) ->
  existsb (fun entry => existsb is_other_connection_dir (snd (fst entry))) entries = false.
Proof.
  intros Hall. apply not_true_is_false. intros Hex.
  apply existsb_exists in Hex. destruct Hex as ([[dn sds] fs] & Hin & Hex).
  apply existsb_exists in Hex. destruct Hex as (sd & Hsd & Ht).
  simpl in Hsd. rewrite (Hall dn sds fs sd Hin Hsd) in Ht. discriminate.
Qed.

Lemma existsb_nested_true (entries : list (string * list string * list string)) :
  (exists dir_name sub_dirs files sub_dir,
      In (dir_name, sub_dirs, files) entries /\ In sub_dir sub_dirs
      /\ is_other_connection_dir sub_dir = true) ->
  existsb (fun entry => existsb is_other_connection_dir (snd (fst entry))) entries = true.
Proof.
  intros (dn & sds & fs & sd & Hin & Hsd & Ht).
  apply existsb_exists. exists (dn, sds, fs). split; [exact Hin |].
  apply existsb_exists. exists sd. auto.
Qed.

(** C2, as the specification states it: the machine is onboarded to another
    workspace and its SCOM port is not open.  The candidate alone makes
    [detect_multiple_connections] raise, right after the enumeration; the
    SCOM verification, which would have declared nothing, is not run. *)
Lemma detect_multiple_connections_candidate_raises :
  detect_multiple_connections other_workspace_host sample_workspace_id []
  = (Raise (OMSAgentUnwantedMultipleConnectionsException other_workspace_err_msg),
     [EvExec WorkspaceCheckCommand])
  /\ fst (detect_scom_connection other_workspace_host [EvExec WorkspaceCheckCommand])
     = Ok tt.
Proof. split; vm_compute; reflexivity. Qed.

(** C2, as amended.  When the target workspace is not among the
    configured connections but another entry is (any line at all in the
    answer of the probe command, the lines being ASCII; a sub-directory
    named by a workspace id or named scom),
    [detect_multiple_connections] raises the multiple-connections
    failure at once, without SCOM verification.
    [detect_scom_connection] is run only when nothing is enumerated: the
    probe command answers "no workspace", or no sub-directory is a
    workspace or SCOM directory. *)
Theorem detect_multiple_connections_other_connection :
  forall (h : host) (workspace_id : string) (tr : history),
    (forall exit_code output,
        path_exists h tr OMSAdminPath = true ->
        run_get_output h WorkspaceCheckCommand false true tr
          = (Ok (exit_code, output), (tr ++ [EvExec WorkspaceCheckCommand])%list) ->
        String.eqb (lower (strip output)) "no workspace" = false ->
        (forall line, In line (split_on newline output) ->
                      all_chars is_ascii7 line = true) ->
        (forall line, In line (split_on newline output) ->
                      contains workspace_id line = false) ->
        detect_multiple_connections h workspace_id tr
        = (Raise (OMSAgentUnwantedMultipleConnectionsException other_workspace_err_msg),
           (tr ++ [EvExec WorkspaceCheckCommand])%list))
    /\
    (path_exists h tr OMSAdminPath = false ->
     (forall dir_name sub_dirs files sub_dir,
         In (dir_name, sub_dirs, files) (os_walk h tr EtcOMSAgentPath) ->
         In sub_dir sub_dirs -> basename sub_dir <> workspace_id) ->
     (exists dir_name sub_dirs files sub_dir,
         In (dir_name, sub_dirs, files) (os_walk h tr EtcOMSAgentPath)
         /\ In sub_dir sub_dirs /\ is_other_connection_dir sub_dir = true) ->
     detect_multiple_connections h workspace_id tr
     = (Raise (OMSAgentUnwantedMultipleConnectionsException other_workspace_err_msg), tr))
    /\
    (forall exit_code output,
        path_exists h tr OMSAdminPath = true ->
        run_get_output h WorkspaceCheckCommand false true tr
          = (Ok (exit_code, output), (tr ++ [EvExec WorkspaceCheckCommand])%list) ->
        String.eqb (lower (strip output)) "no workspace" = true ->
        detect_multiple_connections h workspace_id tr
        = detect_scom_connection h (tr ++ [EvExec WorkspaceCheckCommand])%list)
    /\
    (path_exists h tr OMSAdminPath = false ->
     (forall dir_name sub_dirs files sub_dir,
         In (dir_name, sub_dirs, files) (os_walk h tr EtcOMSAgentPath) ->
         In sub_dir sub_dirs ->
         basename sub_dir <> workspace_id /\ is_other_connection_dir sub_dir = false) ->
     detect_multiple_connections h workspace_id tr = detect_scom_connection h tr).
Proof.
  intros h wid tr. unfold detect_multiple_connections.
  split; [| split; [| split]].
  - intros code out Hex Hrun Hsent Hascii Hnone.
    unfold bind at 1. unfold ask at 1. rewrite Hex.
    rewrite bind_unfold. rewrite bind_unfold. rewrite Hrun. rewrite Hsent. cbn [negb].
    rewrite (scan_lines_not_found wid _ _ false Hascii Hnone).
    pose proof (split_on_not_nil newline out) as Hnn.
    destruct (split_on newline out); [congruence | reflexivity].
  - intros Hex Hnone Hsome.
    unfold bind at 1. unfold ask at 1. rewrite Hex.
    rewrite bind_unfold. rewrite bind_unfold. unfold ask. simpl.
    rewrite (scan_walk_not_found wid _ false Hnone).
    rewrite (existsb_nested_true _ Hsome). reflexivity.
  - intros code out Hex Hrun Hsent.
    unfold bind at 1. unfold ask at 1. rewrite Hex.
    rewrite bind_unfold. rewrite bind_unfold. rewrite Hrun. rewrite Hsent. reflexivity.
  - intros Hex Hnone.
    unfold bind at 1. unfold ask at 1. rewrite Hex.
    rewrite bind_unfold. rewrite bind_unfold. unfold ask. simpl.
    rewrite (scan_walk_not_found wid _ false)
      by (intros dn sds fs sd Hin Hsd; apply (Hnone dn sds fs sd Hin Hsd)).
    rewrite existsb_nested_false
      by (intros dn sds fs sd Hin Hsd; apply (Hnone dn sds fs sd Hin Hsd)).
    reflexivity.
Qed.

Lemma detect_multiple_connections_other_connection_witness :
  detect_multiple_connections other_workspace_host sample_workspace_id []
  = (Raise (OMSAgentUnwantedMultipleConnectionsException other_workspace_err_msg),
     [EvExec WorkspaceCheckCommand])
  /\ detect_multiple_connections fresh_host sample_workspace_id []
     = detect_scom_connection fresh_host [EvExec WorkspaceCheckCommand].
Proof.
  destruct (detect_multiple_connections_other_connection other_workspace_host
              sample_workspace_id []) as (Hraise & _).
  destruct (detect_multiple_connections_other_connection fresh_host
              sample_workspace_id []) as (_ & _ & Hscom & _).
  split.
  - eapply Hraise.
    + reflexivity.
    + vm_compute. reflexivity.
    + vm_compute. reflexivity.
    + intros line Hin. vm_compute in Hin.
      destruct Hin as [<- | []]. vm_compute. reflexivity.
    + intros line Hin. vm_compute in Hin.
      destruct Hin as [<- | []]. vm_compute. reflexivity.
  - eapply Hscom.
    + reflexivity.
    + vm_compute. reflexivity.
    + vm_compute. reflexivity.
Defined.

(* ------------------------------------------------------------------ *)
(** ** SCOM verification *)
















(** C3, where the code fails it: no onboarding script, a config editor
    that answers "unknown option", and a server configuration with
    'httpsport = 1270,8080'.  The comments of [detect_scom_connection]
    say that the next source is used when the option of a tool is not
    available, and the function tests [scom_port_open is None] for it;
    but [detect_scom_using_omiconfigeditor] answers False, not None,
    when its guard against older versions fires.  So the probe ends with
    "not open", the configuration file, which lists the port, is never
    read, and [detect_scom_connection] returns at once. *)
Theorem scom_port_open_probe_unknown_option :
  read_file unknown_option_host [] OMIServerConfPath = Some "httpsport = 1270,8080"
  /\ detect_scom_using_omiserver_conf unknown_option_host []
     = (Ok true, [EvLog Hutil Info ("SCOM port is listed in " ++ OMIServerConfPath)])
  /\ detect_scom_using_omiconfigeditor unknown_option_host []
     = (Ok false, [EvExec omiconfigeditor_cmd])
  /\ scom_port_open_probe unknown_option_host []
     = (Ok (Some false), [EvExec omiconfigeditor_cmd])
  /\ fst (scom_port_open_probe unknown_option_host []) <> Ok (Some true)
  /\ detect_scom_connection unknown_option_host [] = (Ok tt, [EvExec omiconfigeditor_cmd]).
Proof.
  split; [reflexivity |]. split; [vm_compute; reflexivity |].
  split; [vm_compute; reflexivity |]. split; [vm_compute; reflexivity |].
  split; [| vm_compute; reflexivity].
  vm_compute. intros H. discriminate H.
Qed.

(** A probe tool that does not know the option answers False. *)
Lemma tool_probe_unrecognized (h : host) (cmd : string) tr exit_code output :
  run_get_output h cmd false false tr
    = (Ok (exit_code, output), (tr ++ [EvExec cmd])%list) ->
  unrecognized_option output = true ->
  (' (exit_code, output) <- run_get_output h cmd false false ;;
   if negb (contains "illegal option" (lower output))
      && negb (contains "unknown option" (lower output)) then
     if exit_code =? 0 then
       hutil_log_info ("According to " ++ cmd ++ ", SCOM port is open") ;; ret true
     else if exit_code =? 1 then
       hutil_log_info ("According to " ++ cmd ++ ", SCOM port is not open") ;; ret false
     else ret false
   else ret false)%py tr
  = (Ok false, (tr ++ [EvExec cmd])%list).
Proof.
  intros Hrun Hun. rewrite (bind_ok _ _ _ _ _ Hrun).
  unfold unrecognized_option in Hun. rewrite <- negb_orb. rewrite Hun. reflexivity.
Qed.

(** The layers of the port probe, for every machine.  A probe tool that
    answers "illegal option" or "unknown option" makes its probe answer
    False, whatever its exit code: the port probe ends there with "not
    open", no later source is consulted, and [detect_scom_connection]
    returns.  When neither the onboarding script nor the config editor
    exists, a server configuration whose first httpsport directive lists
    1270, such as 'httpsport = 1270,8080', gives "port open". *)
Lemma scom_port_open_probe_layers :
  forall (h : host) (tr : history),
    (forall exit_code output,
        path_exists h tr OMSAdminPath = true ->
        run_get_output h omsadmin_port_cmd false false tr
          = (Ok (exit_code, output), (tr ++ [EvExec omsadmin_port_cmd])%list) ->
        unrecognized_option output = true ->
        scom_port_open_probe h tr
          = (Ok (Some false), (tr ++ [EvExec omsadmin_port_cmd])%list)
        /\ detect_scom_connection h tr = (Ok tt, (tr ++ [EvExec omsadmin_port_cmd])%list))
    /\
    (forall exit_code output,
        path_exists h tr OMSAdminPath = false ->
        path_exists h tr OMIConfigEditorPath = true ->
        path_exists h tr OMIServerConfPath = true ->
        run_get_output h omiconfigeditor_cmd false false tr
          = (Ok (exit_code, output), (tr ++ [EvExec omiconfigeditor_cmd])%list) ->
        unrecognized_option output = true ->
        scom_port_open_probe h tr
          = (Ok (Some false), (tr ++ [EvExec omiconfigeditor_cmd])%list)
        /\ detect_scom_connection h tr
           = (Ok tt, (tr ++ [EvExec omiconfigeditor_cmd])%list))
    /\
    (forall omiserver_txt ports,
        path_exists h tr OMSAdminPath = false ->
        path_exists h tr OMIConfigEditorPath = false ->
        path_exists h tr OMIServerConfPath = true ->
        read_file h tr OMIServerConfPath = Some omiserver_txt ->
        httpsport_search omiserver_txt = Some ports ->
        mem (str_of_Z SCOMPort) (split_on " " (replace_char "," " " ports)) = true ->
        scom_port_open_probe h tr
        = (Ok (Some true),
           (tr ++ [EvLog Hutil Info ("SCOM port is listed in " ++ OMIServerConfPath)])%list))
    /\
    (httpsport_search "httpsport = 1270,8080" = Some " 1270,8080"
     /\ mem (str_of_Z SCOMPort) (split_on " " (replace_char "," " " " 1270,8080")) = true).
Proof.
  intros h tr. split; [| split; [| split]].
  - intros code out Hex Hrun Hun.
    assert (Hp : scom_port_open_probe h tr
                 = (Ok (Some false), (tr ++ [EvExec omsadmin_port_cmd])%list)).
    { unfold scom_port_open_probe. unfold bind at 1. unfold ask at 1. rewrite Hex.
      rewrite bind_unfold. rewrite bind_unfold.
      unfold detect_scom_using_omsadmin.
      change (OMSAdminPath ++ " -o")%string with omsadmin_port_cmd.
      rewrite (tool_probe_unrecognized h omsadmin_port_cmd tr code out Hrun Hun).
      reflexivity. }
    split; [exact Hp |].
    unfold detect_scom_connection. rewrite (bind_ok _ _ _ _ _ Hp). reflexivity.
  - intros code out Hex1 Hex2 Hex3 Hrun Hun.
    assert (Hp : scom_port_open_probe h tr
                 = (Ok (Some false), (tr ++ [EvExec omiconfigeditor_cmd])%list)).
    { unfold scom_port_open_probe. unfold bind at 1. unfold ask at 1. rewrite Hex1.
      unfold bind at 1. unfold ret at 1.
      unfold bind at 1. unfold ask at 1. rewrite Hex2, Hex3.
      cbn [is_None andb].
      rewrite bind_unfold. rewrite bind_unfold.
      unfold detect_scom_using_omiconfigeditor.
      change (OMIConfigEditorPath ++ " httpsport -q " ++ str_of_Z SCOMPort
              ++ " < " ++ OMIServerConfPath)%string with omiconfigeditor_cmd.
      rewrite (tool_probe_unrecognized h omiconfigeditor_cmd tr code out Hrun Hun).
      reflexivity. }
    split; [exact Hp |].
    unfold detect_scom_connection. rewrite (bind_ok _ _ _ _ _ Hp). reflexivity.
  - intros txt ports Hex1 Hex2 Hex3 Hread Hsearch Hmem.
    unfold scom_port_open_probe. unfold bind at 1. unfold ask at 1. rewrite Hex1.
    unfold bind at 1. unfold ret at 1.
    unfold bind at 1. unfold ask at 1. rewrite Hex2.
    cbn [is_None andb].
    unfold bind at 1. unfold ret at 1.
    unfold bind at 1. unfold ask at 1. rewrite Hex3.
    cbn [is_None andb].
    rewrite bind_unfold. unfold detect_scom_using_omiserver_conf.
    rewrite bind_unfold. rewrite Hread. rewrite Hsearch. rewrite Hmem. reflexivity.
  - split; vm_compute; reflexivity.
Qed.

Lemma scom_port_open_probe_layers_hosts :
  scom_port_open_probe unknown_option_host []
  = (Ok (Some false), [EvExec omiconfigeditor_cmd])
  /\ scom_port_open_probe conf_only_host []
     = (Ok (Some true),
        [EvLog Hutil Info ("SCOM port is listed in " ++ OMIServerConfPath)]).
Proof.
  destruct (scom_port_open_probe_layers unknown_option_host []) as (_ & Heditor & _).
  destruct (scom_port_open_probe_layers conf_only_host [])
    as (_ & _ & Hconf & Hsearch & Hmem).
  split.
  - eapply Heditor.
    + reflexivity.
    + reflexivity.
    + reflexivity.
    + vm_compute. reflexivity.
    + vm_compute. reflexivity.
  - apply (Hconf _ _ eq_refl eq_refl eq_refl eq_refl Hsearch Hmem).
Defined.

(* ------------------------------------------------------------------ *)
(** ** Validation of the workspace key *)

Lemma check_workspace_id_history (workspace_id : string) tr :
  snd (check_workspace_id workspace_id tr) = tr.
Proof.
  unfold check_workspace_id. destruct (negb (GUIDOnly_match workspace_id)); reflexivity.
Qed.

Lemma check_workspace_id_and_key_bad_key (h : host) workspace_id workspace_key tr :
  key_roundtrips h workspace_key = false ->
  b64decode h workspace_key <> DecodeUnicodeEncodeError ->
  exists msg,
    check_workspace_id_and_key h workspace_id workspace_key tr
    = (Raise (OMSAgentInvalidParameterError msg), tr).
Proof.
  intros Hk Hu. unfold check_workspace_id_and_key, check_workspace_id.
  rewrite bind_unfold.
  destruct (GUIDOnly_match workspace_id); simpl.
  - unfold key_roundtrips in Hk. destruct (b64decode h workspace_key) as [d | |].
    + rewrite Hk. simpl. eexists. reflexivity.
    + eexists. reflexivity.
    + congruence.
  - eexists. reflexivity.
Qed.

(** The key check, for every machine.  For a well-formed workspace id
    the key is accepted exactly when b64encode(b64decode(key)) == key; a
    key that does not round-trip or whose decoding raises TypeError
    raises OMSAgentInvalidParameterError, and then [enable] ends without
    the execution facility having run any command; a key whose decoding
    raises UnicodeEncodeError lets that exception out. *)
Lemma check_workspace_id_and_key_cases :
  forall (h : host) (workspace_id workspace_key : string) (tr : history),
    (GUIDOnly_match workspace_id = true ->
     (check_workspace_id_and_key h workspace_id workspace_key tr = (Ok tt, tr)
      <-> key_roundtrips h workspace_key = true))
    /\
    (key_roundtrips h workspace_key = false ->
     b64decode h workspace_key <> DecodeUnicodeEncodeError ->
     exists msg,
       check_workspace_id_and_key h workspace_id workspace_key tr
       = (Raise (OMSAgentInvalidParameterError msg), tr))
    /\
    (GUIDOnly_match workspace_id = true ->
     b64decode h workspace_key = DecodeUnicodeEncodeError ->
     check_workspace_id_and_key h workspace_id workspace_key tr
     = (Raise UnicodeEncodeError, tr)).
Proof.
  intros h wid key tr. split; [| split].
  - intros Hguid. unfold check_workspace_id_and_key, check_workspace_id, key_roundtrips.
    rewrite bind_unfold. rewrite Hguid. simpl.
    destruct (b64decode h key) as [d | |].
    + destruct (String.eqb (b64encode h d) key); simpl; split; intros H;
        try reflexivity; try discriminate H.
    + split; intros H; discriminate H.
    + split; intros H; discriminate H.
  - apply check_workspace_id_and_key_bad_key.
  - intros Hguid Hu. unfold check_workspace_id_and_key, check_workspace_id.
    rewrite bind_unfold. rewrite Hguid. simpl. rewrite Hu. reflexivity.
Qed.

Lemma check_workspace_id_and_key_hosts :
  check_workspace_id_and_key bad_key_host sample_workspace_id sample_workspace_key []
  = (Ok tt, [])
  /\ enable bad_key_host []
     = (Raise (OMSAgentInvalidParameterError "Workspace key is invalid"), []).
Proof. split; vm_compute; reflexivity. Qed.

(** C10, where the code fails it.  The workspace key of the protected
    settings is a unicode string; this one has an accent in it.
    base64.b64decode takes it through the ASCII codec and raises
    UnicodeEncodeError, which is not the TypeError that
    [check_workspace_id_and_key] catches: the key is refused with
    UnicodeEncodeError instead of OMSAgentInvalidParameterError, [enable]
    ends with it before any command is run, and [main] reports the
    general exit code 1 instead of 11. *)
Theorem check_workspace_id_and_key_unicode_key :
  GUIDOnly_match sample_workspace_id = true
  /\ all_chars is_ascii7 accented_workspace_key = false
  /\ key_roundtrips accented_key_host accented_workspace_key = false
  /\ check_workspace_id_and_key accented_key_host sample_workspace_id
       accented_workspace_key []
     = (Raise UnicodeEncodeError, [])
  /\ enable accented_key_host [] = (Raise UnicodeEncodeError, [])
  /\ fst (main_invoke accented_key_host "Enable" EmptyString EmptyString
            (enable accented_key_host) [])
     = Exit 1
  /\ fst (main_invoke bad_key_host "Enable" EmptyString EmptyString
            (enable bad_key_host) [])
     = Exit 11.
Proof. repeat split; vm_compute; reflexivity. Qed.

(* ------------------------------------------------------------------ *)
(** ** The retry engine: bounds and sleeping times *)

(** One turn of the loop, in full. *)
Lemma retry_loop_unfold (h : host) cmd (retry_check : retry_policy) ce lc sif
      (remaining : nat) sleep_time last tr :
  retry_loop h cmd retry_check ce lc sif (S remaining) sleep_time last tr =
  match run_command_and_log h cmd ce lc tr with
  | (Ok (exit_code, output), tr1) =>
      match retry_check exit_code output tr1 with
      | (Ok (true, msg), tr2) =>
          retry_loop h cmd retry_check ce lc sif remaining (sleep_time * sif)
                     (Some (exit_code, output))
                     ((tr2 ++ [EvLog Hutil Info msg]) ++ [EvSleep sleep_time])%list
      | (Ok (false, _), tr2) => (Ok (Some (exit_code, output)), tr2)
      | (Raise e, tr2) => (Raise e, tr2)
      | (Exit c, tr2) => (Exit c, tr2)
      end
  | (Raise e, tr1) => (Raise e, tr1)
  | (Exit c, tr1) => (Exit c, tr1)
  end.
Proof.
  simpl. rewrite bind_unfold.
  destruct (run_command_and_log h cmd ce lc tr) as [[[code out] | e | c] tr1];
    try reflexivity.
  rewrite bind_unfold.
  destruct (retry_check code out tr1) as [[[b msg] | e | c] tr2]; try reflexivity.
  destruct b; reflexivity.
Qed.

Lemma retry_loop_executions_grow (h : host) cmd (retry_check : retry_policy) ce lc sif :
  (forall c o, does_not_run cmd (retry_check c o)) ->
  forall (remaining : nat) sleep_time last tr,
    (executions cmd tr
     <= executions cmd
          (snd (retry_loop h cmd retry_check ce lc sif remaining sleep_time last tr)))%nat.
Proof.
  intros Hframe. induction remaining as [| k IH]; intros st last tr.
  - simpl. lia.
  - rewrite retry_loop_unfold.
    pose proof (run_command_and_log_executions h cmd ce lc tr) as Hrun.
    destruct (run_command_and_log h cmd ce lc tr) as [[[code out] | e | c] tr1];
      cbn [snd] in Hrun |- *; try lia.
    pose proof (Hframe code out tr1) as Hp.
    destruct (retry_check code out tr1) as [[[[|] msg] | e | c] tr2];
      cbn [snd] in Hp |- *; try lia.
    specialize (IH (st * sif) (Some (code, out))
                   ((tr2 ++ [EvLog Hutil Info msg]) ++ [EvSleep st])%list).
    rewrite executions_sleep, executions_log in IH. lia.
Qed.

Lemma retry_loop_bounds (h : host) cmd (retry_check : retry_policy) ce lc sif :
  (forall c o, does_not_run cmd (retry_check c o)) ->
  forall (remaining : nat) sleep_time last tr,
    (executions cmd (snd (retry_loop h cmd retry_check ce lc sif remaining sleep_time last tr))
     <= executions cmd tr + remaining)%nat
    /\ (remaining <> O ->
        (executions cmd tr + 1
         <= executions cmd
              (snd (retry_loop h cmd retry_check ce lc sif remaining sleep_time last tr)))%nat).
Proof.
  intros Hframe. induction remaining as [| k IH]; intros st last tr.
  - simpl. split; [lia | congruence].
  - rewrite retry_loop_unfold.
    pose proof (run_command_and_log_executions h cmd ce lc tr) as Hrun.
    destruct (run_command_and_log h cmd ce lc tr) as [[[code out] | e | c] tr1];
      cbn [snd] in Hrun |- *; try (split; intros; lia).
    pose proof (Hframe code out tr1) as Hp.
    destruct (retry_check code out tr1) as [[[[|] msg] | e | c] tr2];
      cbn [snd] in Hp |- *; try (split; intros; lia).
    destruct (IH (st * sif) (Some (code, out))
                 ((tr2 ++ [EvLog Hutil Info msg]) ++ [EvSleep st])%list) as [Hle _].
    pose proof (retry_loop_executions_grow h cmd retry_check ce lc sif Hframe k
                  (st * sif) (Some (code, out))
                  ((tr2 ++ [EvLog Hutil Info msg]) ++ [EvSleep st])%list) as Hge.
    rewrite executions_sleep, executions_log in Hle, Hge.
    split; intros; lia.
Qed.

(** X1. Whatever the retry policy answers, [run_command_with_retries]
    with [retries >= 0] hands the command to the facility at least once
    and at most [retries + 1] times; with [retries < 0] it runs nothing and
    raises UnboundLocalError, because [exit_code] was never assigned. *)
Theorem run_command_with_retries_bounds :
  forall (h : host) (cmd : string) (retries : Z) (retry_check : retry_policy)
         (final_check : option final_policy) (check_error log_cmd : bool)
         (initial_sleep_time sleep_increase_factor : Z) (tr : history),
    (forall c o, does_not_run cmd (retry_check c o)) ->
    (forall f, final_check = Some f -> forall c o, does_not_run cmd (f c o)) ->
    (retries < 0 ->
     run_command_with_retries h cmd retries retry_check final_check
       check_error log_cmd initial_sleep_time sleep_increase_factor tr
     = (Raise UnboundLocalError, tr))
    /\
    (0 <= retries ->
     (executions cmd tr + 1
      <= executions cmd
           (snd (run_command_with_retries h cmd retries retry_check final_check
                   check_error log_cmd initial_sleep_time sleep_increase_factor tr)))%nat
     /\ (executions cmd
           (snd (run_command_with_retries h cmd retries retry_check final_check
                   check_error log_cmd initial_sleep_time sleep_increase_factor tr))
         <= executions cmd tr + Z.to_nat (retries + 1))%nat).
Proof.
  intros h cmd retries rc fc ce lc ist sif tr Hframe Hfinal. split.
  - intros Hneg. unfold run_command_with_retries.
    replace (Z.to_nat (retries + 1)) with O by lia. reflexivity.
  - intros Hpos. unfold run_command_with_retries. rewrite bind_unfold.
    destruct (retry_loop_bounds h cmd rc ce lc sif Hframe (Z.to_nat (retries + 1))
                ist None tr) as [Hle Hge].
    assert (Hnz : Z.to_nat (retries + 1) <> O) by lia.
    specialize (Hge Hnz).
    destruct (retry_loop h cmd rc ce lc sif (Z.to_nat (retries + 1)) ist None tr)
      as [[[[c o] |] | e | c] tr1]; cbn [snd] in Hle, Hge |- *.
    + destruct fc as [f |].
      * rewrite (Hfinal f eq_refl c o tr1). lia.
      * unfold ret. cbn [snd]. lia.
    + unfold raise. cbn [snd]. lia.
    + lia.
    + lia.
Qed.

Lemma executions_exec_other (cmd cmd' : string) (tr : history) :
  cmd' <> cmd -> executions cmd (tr ++ [EvExec cmd'])%list = executions cmd tr.
Proof.
  intros Hne. rewrite executions_app. unfold executions at 2. simpl.
  destruct (String.eqb_spec cmd' cmd) as [E | _]; [contradiction | simpl; lia].
Qed.

Lemma run_get_output_other (h : host) cmd cmd' ce lc tr :
  cmd' <> cmd ->
  executions cmd (snd (run_get_output h cmd' ce lc tr)) = executions cmd tr.
Proof.
  intros Hne. rewrite run_get_output_history. apply executions_exec_other. exact Hne.
Qed.

Lemma run_command_and_log_other (h : host) cmd cmd' ce lc tr :
  cmd' <> cmd ->
  executions cmd (snd (run_command_and_log h cmd' ce lc tr)) = executions cmd tr.
Proof.
  intros Hne. unfold run_command_and_log. rewrite bind_unfold.
  pose proof (run_get_output_other h cmd cmd' ce lc tr Hne) as Hh.
  destruct (run_get_output h cmd' ce lc tr) as [[[code out] | e | c] tr1];
    cbn [snd] in Hh |- *; try exact Hh.
  destruct lc; unfold bind, hutil_log_info, emit, ret; cbn [snd];
    rewrite executions_log; exact Hh.
Qed.

(** The dpkg policy runs two commands of its own and no other. *)
Lemma retry_if_dpkg_locked_does_not_run (h : host) (cmd : string) :
  cmd <> "which apt-get" -> cmd <> "apt-get update" ->
  forall c o, does_not_run cmd (retry_if_dpkg_locked_or_curl_is_not_found h c o).
Proof.
  intros H1 H2 c o tr. unfold retry_if_dpkg_locked_or_curl_is_not_found.
  rewrite bind_unfold.
  pose proof (run_get_output_other h cmd "which apt-get" false false tr
                (fun E => H1 (eq_sym E))) as Hw.
  destruct (run_get_output h "which apt-get" false false tr)
    as [[[ca oa] | e | x] tr1]; cbn [snd] in Hw |- *; try exact Hw.
  destruct (is_dpkg_locked c o); [exact Hw |].
  destruct (negb (is_curl_found c o) && (ca =? 0)); [| exact Hw].
  unfold bind at 1. unfold hutil_log_info at 1. unfold emit at 1.
  rewrite bind_unfold.
  pose proof (run_command_and_log_other h cmd "apt-get update" true true
                (tr1 ++ [EvLog Hutil Info "Updating package lists to make curl available"])%list
                (fun E => H2 (eq_sym E))) as Hu.
  rewrite executions_log in Hu.
  destruct (run_command_and_log h "apt-get update" true true
              (tr1 ++ [EvLog Hutil Info "Updating package lists to make curl available"])%list)
    as [[r | e | x] tr2]; cbn [snd] in Hu |- *; cbv beta; unfold ret; cbn [snd]; lia.
Qed.

Lemma run_command_with_retries_bounds_witness :
  run_command_with_retries locked_host dpkg_cmd (-1) retry_always None true true 30 1 []
  = (Raise UnboundLocalError, [])
  /\ (1 <= executions dpkg_cmd
             (snd (run_command_with_retries locked_host dpkg_cmd 3
                     (retry_if_dpkg_locked_or_curl_is_not_found locked_host)
                     (Some (pure_policy final_check_if_dpkg_locked)) true true 30 1 []))
       <= 4)%nat.
Proof.
  split.
  - apply (run_command_with_retries_bounds locked_host dpkg_cmd (-1) retry_always None
             true true 30 1 []).
    + intros c o tr. reflexivity.
    + intros f Hf. discriminate Hf.
    + lia.
  - destruct (run_command_with_retries_bounds locked_host dpkg_cmd 3
                (retry_if_dpkg_locked_or_curl_is_not_found locked_host)
                (Some (pure_policy final_check_if_dpkg_locked)) true true 30 1 [])
      as [_ Hb].
    + apply retry_if_dpkg_locked_does_not_run; intros H; discriminate H.
    + intros f Hf c o tr. inversion Hf; subst. reflexivity.
    + destruct Hb as [H1 H2]; [lia |]. cbn [executions filter List.length] in H1, H2.
      split; [exact H1 | exact H2].
Defined.

Lemma sleep_durations_app (a b : history) :
  sleep_durations (a ++ b)%list = (sleep_durations a ++ sleep_durations b)%list.
Proof. unfold sleep_durations. apply flat_map_app. Qed.

Lemma sleep_durations_sleep (tr : history) s :
  sleep_durations (tr ++ [EvSleep s])%list = (sleep_durations tr ++ [s])%list.
Proof. rewrite sleep_durations_app. reflexivity. Qed.

Lemma sleep_durations_log (tr : history) who lvl msg :
  sleep_durations (tr ++ [EvLog who lvl msg])%list = sleep_durations tr.
Proof. rewrite sleep_durations_app. simpl. apply app_nil_r. Qed.

Lemma sleep_durations_exec (tr : history) cmd :
  sleep_durations (tr ++ [EvExec cmd])%list = sleep_durations tr.
Proof. rewrite sleep_durations_app. simpl. apply app_nil_r. Qed.

Lemma run_get_output_no_sleep (h : host) cmd ce lc :
  does_not_sleep (run_get_output h cmd ce lc).
Proof. intros tr. rewrite run_get_output_history. apply sleep_durations_exec. Qed.

Lemma run_command_and_log_no_sleep (h : host) cmd ce lc :
  does_not_sleep (run_command_and_log h cmd ce lc).
Proof.
  intros tr. unfold run_command_and_log. rewrite bind_unfold.
  pose proof (run_get_output_no_sleep h cmd ce lc tr) as Hh.
  destruct (run_get_output h cmd ce lc tr) as [[[code out] | e | c] tr1];
    cbn [snd] in Hh |- *; try exact Hh.
  destruct lc; unfold bind, hutil_log_info, emit, ret; cbn [snd];
    rewrite sleep_durations_log; exact Hh.
Qed.

Lemma sleep_schedule_succ (st sif : Z) (j : nat) :
  sleep_schedule st sif (S j) = st :: sleep_schedule (st * sif) sif j.
Proof.
  unfold sleep_schedule. rewrite <- cons_seq. rewrite <- seq_shift.
  simpl. rewrite Z.mul_1_r. f_equal. rewrite map_map.
  apply map_ext. intros k. rewrite Nat2Z.inj_succ, Z.pow_succ_r by lia. ring.
Qed.

Lemma retry_loop_sleeps (h : host) cmd (retry_check : retry_policy) ce lc sif :
  (forall c o, does_not_sleep (retry_check c o)) ->
  forall (remaining : nat) sleep_time last tr,
  exists j, (j <= remaining)%nat
    /\ sleep_durations
         (snd (retry_loop h cmd retry_check ce lc sif remaining sleep_time last tr))
       = (sleep_durations tr ++ sleep_schedule sleep_time sif j)%list.
Proof.
  intros Hframe. induction remaining as [| k IH]; intros st last tr.
  - exists O. split; [lia |]. simpl. rewrite app_nil_r. reflexivity.
  - rewrite retry_loop_unfold.
    pose proof (run_command_and_log_no_sleep h cmd ce lc tr) as Hrun.
    destruct (run_command_and_log h cmd ce lc tr) as [[[code out] | e | c] tr1];
      cbn [snd] in Hrun |- *;
      try (exists O; split; [lia | rewrite Hrun; simpl; rewrite app_nil_r; reflexivity]).
    pose proof (Hframe code out tr1) as Hp.
    destruct (retry_check code out tr1) as [[[[|] msg] | e | c] tr2];
      cbn [snd] in Hp |- *;
      try (exists O; split;
           [lia | rewrite Hp, Hrun; simpl; rewrite app_nil_r; reflexivity]).
    destruct (IH (st * sif) (Some (code, out))
                 ((tr2 ++ [EvLog Hutil Info msg]) ++ [EvSleep st])%list)
      as (j & Hj & Heq).
    exists (S j). split; [lia |]. rewrite Heq.
    rewrite sleep_durations_sleep, sleep_durations_log, Hp, Hrun.
    rewrite sleep_schedule_succ. rewrite <- app_assoc. reflexivity.
Qed.

Lemma retry_loop_always_sleeps (h : host) cmd (retry_check : retry_policy) ce lc sif :
  facility_answers h cmd ce lc ->
  always_retries retry_check ->
  (forall c o, does_not_sleep (retry_check c o)) ->
  forall (remaining : nat) sleep_time last tr,
    sleep_durations
      (snd (retry_loop h cmd retry_check ce lc sif remaining sleep_time last tr))
    = (sleep_durations tr ++ sleep_schedule sleep_time sif remaining)%list.
Proof.
  intros Hans Halw Hframe. induction remaining as [| k IH]; intros st last tr.
  - simpl. rewrite app_nil_r. reflexivity.
  - destruct (run_get_output_answers h cmd ce lc Hans tr) as (code & out & Hrun).
    destruct (Halw code out (tr ++ [EvExec cmd] ++ [output_log cmd lc out])%list)
      as (msg & tr2 & Hpol).
    rewrite (retry_loop_step h cmd retry_check ce lc sif k st last tr code out msg tr2
               Hrun Hpol).
    rewrite IH. rewrite sleep_durations_sleep, sleep_durations_log.
    pose proof (Hframe code out (tr ++ [EvExec cmd] ++ [output_log cmd lc out])%list) as Hp.
    rewrite Hpol in Hp. cbn [snd] in Hp. rewrite Hp.
    rewrite app_assoc. unfold output_log.
    rewrite sleep_durations_log, sleep_durations_exec.
    rewrite sleep_schedule_succ. rewrite <- app_assoc. reflexivity.
Qed.

(** X2. The sleeps of [run_command_with_retries] follow one schedule:
    the sleep after attempt k lasts
    [initial_sleep_time * sleep_increase_factor ^ k].  Whatever the retry
    policy answers, the sleeps of a run are the first j entries of that
    schedule for some j <= retries + 1; when the policy always asks for
    a retry (and the facility returns) they are the first retries + 1
    entries.  (The policies are taken not to sleep themselves.) *)
Theorem run_command_with_retries_sleep_schedule :
  forall (h : host) (cmd : string) (retries : Z) (retry_check : retry_policy)
         (final_check : option final_policy) (check_error log_cmd : bool)
         (initial_sleep_time sleep_increase_factor : Z) (tr : history),
    (forall c o, does_not_sleep (retry_check c o)) ->
    (forall f, final_check = Some f -> forall c o, does_not_sleep (f c o)) ->
    (exists j, (j <= Z.to_nat (retries + 1))%nat
       /\ sleep_durations
            (snd (run_command_with_retries h cmd retries retry_check final_check
                    check_error log_cmd initial_sleep_time sleep_increase_factor tr))
          = (sleep_durations tr
             ++ sleep_schedule initial_sleep_time sleep_increase_factor j)%list)
    /\
    (0 <= retries ->
     facility_answers h cmd check_error log_cmd ->
     always_retries retry_check ->
     sleep_durations
       (snd (run_command_with_retries h cmd retries retry_check final_check
               check_error log_cmd initial_sleep_time sleep_increase_factor tr))
     = (sleep_durations tr
        ++ sleep_schedule initial_sleep_time sleep_increase_factor
             (Z.to_nat retries + 1))%list).
Proof.
  intros h cmd retries rc fc ce lc ist sif tr Hframe Hfinal.
  assert (Hrest :
    forall r tr1,
      retry_loop h cmd rc ce lc sif (Z.to_nat (retries + 1)) ist None tr = (r, tr1) ->
      sleep_durations
        (snd (run_command_with_retries h cmd retries rc fc ce lc ist sif tr))
      = sleep_durations tr1).
  { intros r tr1 Hl. unfold run_command_with_retries. rewrite bind_unfold, Hl.
    destruct r as [[[c o] |] | e | c]; try reflexivity.
    destruct fc as [f |]; [| reflexivity].
    apply (Hfinal f eq_refl c o tr1). }
  split.
  - destruct (retry_loop_sleeps h cmd rc ce lc sif Hframe (Z.to_nat (retries + 1))
                ist None tr) as (j & Hj & Heq).
    exists j. split; [exact Hj |].
    destruct (retry_loop h cmd rc ce lc sif (Z.to_nat (retries + 1)) ist None tr)
      as [r tr1] eqn:Hl.
    rewrite (Hrest r tr1 eq_refl). exact Heq.
  - intros Hpos Hans Halw.
    pose proof (retry_loop_always_sleeps h cmd rc ce lc sif Hans Halw Hframe
                  (Z.to_nat (retries + 1)) ist None tr) as Heq.
    destruct (retry_loop h cmd rc ce lc sif (Z.to_nat (retries + 1)) ist None tr)
      as [r tr1] eqn:Hl.
    rewrite (Hrest r tr1 eq_refl).
    replace (Z.to_nat retries + 1)%nat with (Z.to_nat (retries + 1)) by lia.
    exact Heq.
Qed.

Lemma run_command_with_retries_sleep_schedule_witness :
  sleep_durations
    (snd (run_command_with_retries locked_host dpkg_cmd 3 retry_always
            (Some (pure_policy final_check_if_dpkg_locked)) true true 30 2 []))
  = [30; 60; 120; 240].
Proof.
  destruct (run_command_with_retries_sleep_schedule locked_host dpkg_cmd 3 retry_always
              (Some (pure_policy final_check_if_dpkg_locked)) true true 30 2 [])
    as [_ Hfull].
  - intros c o tr. reflexivity.
  - intros f Hf c o tr. inversion Hf; subst. reflexivity.
  - rewrite Hfull.
    + reflexivity.
    + lia.
    + intros tr. exists 2, (PyStr dpkg_locked_output). split; reflexivity.
    + intros c o tr. exists "Retrying.", tr. reflexivity.
Defined.

(* ------------------------------------------------------------------ *)
(** ** The package-manager policies *)

Section RetryWhile.

Variable h : host.
Variable cmd : string.
Variable retry_check : retry_policy.
Variables check_error log_cmd : bool.
Variable sleep_increase_factor : Z.

(** What every attempt returns. *)
Variable P : Z -> string -> Prop.

Hypothesis Hattempt :
  forall tr, exists exit_code output,
    run_get_output h cmd check_error log_cmd tr
      = (Ok (exit_code, output), (tr ++ [EvExec cmd])%list)
    /\ P exit_code output.

Hypothesis Hretry :
  forall exit_code output tr,
    P exit_code output ->
    exists msg tr',
      retry_check exit_code output tr = (Ok (true, msg), tr')
      /\ executions cmd tr' = executions cmd tr
      /\ sleep_durations tr' = sleep_durations tr.

(** As long as every attempt ends in a way the policy wants retried, the
    loop uses every turn, sleeps after each one and ends with the values
    of such an attempt. *)
Lemma retry_loop_while (remaining : nat) :
  forall sleep_time last tr,
    remaining <> O ->
    exists c o tr',
      retry_loop h cmd retry_check check_error log_cmd sleep_increase_factor
                 remaining sleep_time last tr = (Ok (Some (c, o)), tr')
      /\ P c o
      /\ executions cmd tr' = (executions cmd tr + remaining)%nat
      /\ sleep_durations tr'
         = (sleep_durations tr
            ++ sleep_schedule sleep_time sleep_increase_factor remaining)%list.
Proof.
  induction remaining as [| k IH]; intros st last tr Hk; [congruence |].
  destruct (Hattempt tr) as (code & out & Hrun & HP).
  destruct (Hretry code out (tr ++ [EvExec cmd] ++ [output_log cmd log_cmd out])%list HP)
    as (msg & tr2 & Hpol & Hex & Hsl).
  rewrite (retry_loop_step h cmd retry_check check_error log_cmd sleep_increase_factor
             k st last tr code out msg tr2 Hrun Hpol).
  assert (Hex2 : executions cmd ((tr2 ++ [EvLog Hutil Info msg]) ++ [EvSleep st])%list
                 = S (executions cmd tr)).
  { rewrite executions_sleep, executions_log, Hex, app_assoc. unfold output_log.
    rewrite executions_log, executions_exec. reflexivity. }
  assert (Hsl2 : sleep_durations ((tr2 ++ [EvLog Hutil Info msg]) ++ [EvSleep st])%list
                 = (sleep_durations tr ++ [st])%list).
  { rewrite sleep_durations_sleep, sleep_durations_log, Hsl, app_assoc. unfold output_log.
    rewrite sleep_durations_log, sleep_durations_exec. reflexivity. }
  destruct k as [| k'].
  - simpl. exists code, out, ((tr2 ++ [EvLog Hutil Info msg]) ++ [EvSleep st])%list.
    split; [reflexivity |]. split; [exact HP |]. split.
    + rewrite Hex2. lia.
    + rewrite Hsl2. unfold sleep_schedule. simpl. rewrite Z.mul_1_r. reflexivity.
  - destruct (IH (st * sleep_increase_factor) (Some (code, out))
                 ((tr2 ++ [EvLog Hutil Info msg]) ++ [EvSleep st])%list)
      as (c & o & tr' & Hl & HP' & Hex' & Hsl'); [discriminate |].
    exists c, o, tr'. split; [exact Hl |]. split; [exact HP' |]. split.
    + rewrite Hex', Hex2. lia.
    + rewrite Hsl', Hsl2. rewrite (sleep_schedule_succ st). rewrite <- app_assoc.
      reflexivity.
Qed.

(** A command the policy leaves alone on such attempts, other than the
    command of the loop, is never run by the loop. *)
Variable other : string.
Hypothesis Hother : other <> cmd.
Hypothesis Hretry_other :
  forall exit_code output tr,
    P exit_code output ->
    executions other (snd (retry_check exit_code output tr)) = executions other tr.

Lemma retry_loop_while_other (remaining : nat) :
  forall sleep_time last tr,
    executions other
      (snd (retry_loop h cmd retry_check check_error log_cmd sleep_increase_factor
                       remaining sleep_time last tr))
    = executions other tr.
Proof.
  induction remaining as [| k IH]; intros st last tr; [reflexivity |].
  destruct (Hattempt tr) as (code & out & Hrun & HP).
  destruct (Hretry code out (tr ++ [EvExec cmd] ++ [output_log cmd log_cmd out])%list HP)
    as (msg & tr2 & Hpol & _ & _).
  rewrite (retry_loop_step h cmd retry_check check_error log_cmd sleep_increase_factor
             k st last tr code out msg tr2 Hrun Hpol).
  rewrite IH. rewrite executions_sleep, executions_log.
  pose proof (Hretry_other code out
                (tr ++ [EvExec cmd] ++ [output_log cmd log_cmd out])%list HP) as Ho.
  rewrite Hpol in Ho. cbn [snd] in Ho. rewrite Ho.
  rewrite app_assoc. unfold output_log. rewrite executions_log.
  apply executions_exec_other. intros E. apply Hother. symmetry. exact E.
Qed.

End RetryWhile.

Lemma locked_policy_retries (h : host) (cmd : string) :
  cmd <> "which apt-get" ->
  command_returns h "which apt-get" false false ->
  forall exit_code output tr,
    is_dpkg_locked exit_code output = true ->
    exists msg tr',
      retry_if_dpkg_locked_or_curl_is_not_found h exit_code output tr
        = (Ok (true, msg), tr')
      /\ executions cmd tr' = executions cmd tr
      /\ sleep_durations tr' = sleep_durations tr.
Proof.
  intros Hne Hwhich c o tr Hlock.
  destruct (Hwhich tr) as (ca & oa & Hw).
  exists "Retrying command because package manager is locked.",
    (tr ++ [EvExec "which apt-get"])%list.
  unfold retry_if_dpkg_locked_or_curl_is_not_found.
  rewrite (bind_ok _ _ _ _ _ Hw). rewrite Hlock.
  split; [reflexivity |]. split.
  - apply executions_exec_other. intros E. apply Hne. symmetry. exact E.
  - apply sleep_durations_exec.
Qed.

Ltac append_differs H :=
  repeat match type of H with
         | (?p ++ _)%string = _ =>
             destruct p as [| ? p]; simpl in H;
             [discriminate H | first [discriminate H | injection H as _ H]]
         end.

Lemma uninstall_cmd_not_apt (p : string) :
  UninstallCommandTemplate p <> "which apt-get"
  /\ UninstallCommandTemplate p <> "apt-get update".
Proof.
  unfold UninstallCommandTemplate. split; intros H; append_differs H.
Qed.

Lemma locked_policy_no_update (h : host) :
  command_returns h "which apt-get" false false ->
  forall exit_code output tr,
    is_dpkg_locked exit_code output = true ->
    executions "apt-get update"
      (snd (retry_if_dpkg_locked_or_curl_is_not_found h exit_code output tr))
    = executions "apt-get update" tr.
Proof.
  intros Hwhich c o tr Hlock.
  destruct (Hwhich tr) as (ca & oa & Hw).
  unfold retry_if_dpkg_locked_or_curl_is_not_found.
  rewrite (bind_ok _ _ _ _ _ Hw). rewrite Hlock. cbn [snd].
  apply executions_exec_other. intros E. discriminate E.
Qed.

(** X3. On a machine where the command keeps failing on the
    package-manager lock (and `which apt-get` returns), the engine with
    the shipped package-manager policies makes all [retries + 1]
    attempts, sleeping after each one, never runs `apt-get update`, and
    returns the lock code 12 whatever the command's own exit code was.
    So [uninstall], once the bundle has been made executable, gives 12
    after 6 attempts and 6 sleeps of 30 seconds; when the mode of the
    bundle cannot be changed it raises OSError before anything is logged
    or run. *)
Theorem persistent_lock_gives_lock_code :
  forall (h : host) (cmd : string) (retries : Z) (check_error log_cmd : bool)
         (initial_sleep_time sleep_increase_factor : Z) (tr : history),
    0 <= retries ->
    cmd <> "which apt-get" ->
    cmd <> "apt-get update" ->
    stays_locked h cmd check_error log_cmd ->
    command_returns h "which apt-get" false false ->
    (exists tr',
        run_command_with_retries h cmd retries
          (retry_if_dpkg_locked_or_curl_is_not_found h)
          (Some (pure_policy final_check_if_dpkg_locked))
          check_error log_cmd initial_sleep_time sleep_increase_factor tr
        = (Ok DPKGLockedErrorCode, tr')
        /\ executions cmd tr' = (executions cmd tr + (Z.to_nat retries + 1))%nat
        /\ executions "apt-get update" tr' = executions "apt-get update" tr
        /\ sleep_durations tr'
           = (sleep_durations tr
              ++ sleep_schedule initial_sleep_time sleep_increase_factor
                   (Z.to_nat retries + 1))%list)
    /\
    (forall cwd,
        cmd = UninstallCommandTemplate (bundle_path cwd) ->
        check_error = true -> log_cmd = true ->
        os_chmod h tr (bundle_path cwd) 100 = true ->
        fst (uninstall h cwd tr) = Ok DPKGLockedErrorCode
        /\ executions cmd (snd (uninstall h cwd tr)) = (executions cmd tr + 6)%nat
        /\ executions "apt-get update" (snd (uninstall h cwd tr))
           = executions "apt-get update" tr
        /\ sleep_durations (snd (uninstall h cwd tr))
           = (sleep_durations tr ++ [30; 30; 30; 30; 30; 30])%list)
    /\
    (forall cwd,
        os_chmod h tr (bundle_path cwd) 100 = false ->
        uninstall h cwd tr = (Raise OSError, tr)).
Proof.
  intros h cmd retries ce lc ist sif tr Hr Hne Hne2 Hlocked Hwhich.
  assert (Hengine :
    forall n ist' sif' t, 0 <= n ->
    exists tr',
      run_command_with_retries h cmd n
        (retry_if_dpkg_locked_or_curl_is_not_found h)
        (Some (pure_policy final_check_if_dpkg_locked)) ce lc ist' sif' t
      = (Ok DPKGLockedErrorCode, tr')
      /\ executions cmd tr' = (executions cmd t + (Z.to_nat n + 1))%nat
      /\ executions "apt-get update" tr' = executions "apt-get update" t
      /\ sleep_durations tr'
         = (sleep_durations t ++ sleep_schedule ist' sif' (Z.to_nat n + 1))%list).
  { intros n ist' sif' t Hn.
    destruct (retry_loop_while h cmd (retry_if_dpkg_locked_or_curl_is_not_found h)
                ce lc sif' (fun c o => is_dpkg_locked c o = true) Hlocked
                (locked_policy_retries h cmd Hne Hwhich)
                (Z.to_nat (n + 1)) ist' None t)
      as (c & o & tr' & Hl & HP & Hex & Hsl); [lia |].
    pose proof (retry_loop_while_other h cmd (retry_if_dpkg_locked_or_curl_is_not_found h)
                  ce lc sif' (fun c o => is_dpkg_locked c o = true) Hlocked
                  (locked_policy_retries h cmd Hne Hwhich)
                  "apt-get update" (fun E => Hne2 (eq_sym E))
                  (locked_policy_no_update h Hwhich)
                  (Z.to_nat (n + 1)) ist' None t) as Hup.
    rewrite Hl in Hup. cbn [snd] in Hup.
    exists tr'. unfold run_command_with_retries. rewrite (bind_ok _ _ _ _ _ Hl).
    unfold pure_policy, final_check_if_dpkg_locked. rewrite HP.
    replace (Z.to_nat n + 1)%nat with (Z.to_nat (n + 1)) by lia.
    split; [reflexivity |]. split; [assumption |]. split; assumption. }
  split; [| split].
  - apply Hengine. exact Hr.
  - intros cwd Hcmd Hce Hlc Hchmod. subst ce lc cmd.
    destruct (Hengine 5 30 1
                (tr ++ [EvLog Hutil Info
                          ("Running command " ++ dquote
                           ++ UninstallCommandTemplate (bundle_path cwd) ++ dquote)])%list)
      as (tr' & Hrun & Hex & Hup & Hsl); [lia |].
    assert (Hun : uninstall h cwd tr = (Ok DPKGLockedErrorCode, tr')).
    { unfold uninstall. unfold bind at 1. unfold chmod at 1. rewrite Hchmod. cbv zeta.
      unfold bind at 1. unfold hutil_log_info at 1. unfold emit at 1.
      exact Hrun. }
    rewrite Hun. cbn [fst snd].
    rewrite executions_log in Hex, Hup. rewrite sleep_durations_log in Hsl.
    split; [reflexivity |]. split; [rewrite Hex; reflexivity |].
    split; [exact Hup | rewrite Hsl; reflexivity].
  - intros cwd Hchmod. unfold uninstall. unfold bind at 1. unfold chmod at 1.
    rewrite Hchmod. reflexivity.
Qed.

Lemma persistent_lock_gives_lock_code_witness :
  fst (uninstall locked_uninstall_host sample_cwd []) = Ok DPKGLockedErrorCode
  /\ executions uninstall_cmd (snd (uninstall locked_uninstall_host sample_cwd [])) = 6%nat
  /\ executions "apt-get update" (snd (uninstall locked_uninstall_host sample_cwd []))
     = 0%nat
  /\ sleep_durations (snd (uninstall locked_uninstall_host sample_cwd []))
     = [30; 30; 30; 30; 30; 30]
  /\ uninstall (with_chmod_failure locked_uninstall_host) sample_cwd []
     = (Raise OSError, []).
Proof.
  destruct (persistent_lock_gives_lock_code locked_uninstall_host uninstall_cmd 5
              true true 30 1 []) as (_ & Hun & _).
  - lia.
  - intros H. discriminate H.
  - intros H. discriminate H.
  - intros tr. exists 2, dpkg_locked_output. split; reflexivity.
  - intros tr. exists 0, apt_get_path_output. reflexivity.
  - destruct (Hun sample_cwd eq_refl eq_refl eq_refl eq_refl) as (H1 & H2 & H3 & H4).
    split; [exact H1 |]. split; [exact H2 |]. split; [exact H3 |].
    split; [exact H4 |].
    destruct (persistent_lock_gives_lock_code
                (with_chmod_failure locked_uninstall_host) uninstall_cmd 5
                true true 30 1 []) as (_ & _ & Hfail).
    + lia.
    + intros H. discriminate H.
    + intros H. discriminate H.
    + intros tr. exists 2, dpkg_locked_output. split; reflexivity.
    + intros tr. exists 0, apt_get_path_output. reflexivity.
    + apply (Hfail sample_cwd). reflexivity.
Defined.

(** X4. The package-manager retry policy, given that `which apt-get`
    returns: it looks for apt-get once on every call; it updates the
    package lists exactly when the exit code is 64 (curl not installed),
    the output is not a lock message and apt-get was found; a lock
    message (with a non-zero exit code) always gives a retry, without an
    update; and a command that succeeded (exit code 0), or failed for any
    other reason, is not retried. *)
Theorem retry_if_dpkg_locked_or_curl_is_not_found_cases :
  forall (h : host) (exit_code : Z) (output : string) (tr : history)
         (apt_get_exit_code : Z) (apt_get_output : string),
    run_get_output h "which apt-get" false false tr
      = (Ok (apt_get_exit_code, apt_get_output), (tr ++ [EvExec "which apt-get"])%list) ->
    executions "which apt-get"
      (snd (retry_if_dpkg_locked_or_curl_is_not_found h exit_code output tr))
    = S (executions "which apt-get" tr)
    /\ executions "apt-get update"
         (snd (retry_if_dpkg_locked_or_curl_is_not_found h exit_code output tr))
       = (executions "apt-get update" tr
          + (if (negb (is_dpkg_locked exit_code output)
                 && (exit_code =? InstallErrorCurlNotInstalled)%Z
                 && (apt_get_exit_code =? 0)%Z)%bool
             then 1 else 0))%nat
    /\ (is_dpkg_locked exit_code output = true ->
        retry_if_dpkg_locked_or_curl_is_not_found h exit_code output tr
        = (Ok (true, "Retrying command because package manager is locked."),
           (tr ++ [EvExec "which apt-get"])%list))
    /\ (is_dpkg_locked exit_code output = false ->
        exit_code <> InstallErrorCurlNotInstalled \/ apt_get_exit_code <> 0 ->
        retry_if_dpkg_locked_or_curl_is_not_found h exit_code output tr
        = (Ok (false, EmptyString), (tr ++ [EvExec "which apt-get"])%list))
    /\ (exit_code = 0 ->
        retry_if_dpkg_locked_or_curl_is_not_found h exit_code output tr
        = (Ok (false, EmptyString), (tr ++ [EvExec "which apt-get"])%list)).
Proof.
  intros h c o tr ca oa Hw.
  assert (Hcf : negb (is_curl_found c o) = (c =? InstallErrorCurlNotInstalled)).
  { unfold is_curl_found. destruct (c =? InstallErrorCurlNotInstalled); reflexivity. }
  unfold retry_if_dpkg_locked_or_curl_is_not_found.
  rewrite (bind_ok _ _ _ _ _ Hw). rewrite Hcf.
  destruct (is_dpkg_locked c o) eqn:Hlock; cbn [negb andb].
  - unfold ret. cbn [snd].
    rewrite executions_exec.
    rewrite executions_exec_other by (intros H; discriminate H).
    repeat split; try reflexivity; try lia; try (intros H; discriminate H).
    intros ->. unfold is_dpkg_locked in Hlock. discriminate Hlock.
  - destruct ((c =? InstallErrorCurlNotInstalled) && (ca =? 0)) eqn:Hupd.
    + assert (Hsnd :
        executions "apt-get update"
          (snd ((hutil_log_info "Updating package lists to make curl available" ;;
                 run_command_and_log h "apt-get update" true true ;;
                 ret (true, "Retrying command because package lists needed to be updated"))%py
                  (tr ++ [EvExec "which apt-get"])%list))
        = S (executions "apt-get update" tr)
        /\ executions "which apt-get"
             (snd ((hutil_log_info "Updating package lists to make curl available" ;;
                    run_command_and_log h "apt-get update" true true ;;
                    ret (true, "Retrying command because package lists needed to be updated"))%py
                     (tr ++ [EvExec "which apt-get"])%list))
           = S (executions "which apt-get" tr)).
      { pose proof (run_command_and_log_executions h "apt-get update" true true
                      ((tr ++ [EvExec "which apt-get"])
                       ++ [EvLog Hutil Info "Updating package lists to make curl available"])%list)
          as H1.
        pose proof (run_command_and_log_other h "which apt-get" "apt-get update" true true
                      ((tr ++ [EvExec "which apt-get"])
                       ++ [EvLog Hutil Info "Updating package lists to make curl available"])%list)
          as H2.
        rewrite executions_log in H1, H2.
        rewrite executions_exec_other in H1 by (intros H; discriminate H).
        rewrite executions_exec in H2.
        assert (H2' := H2 ltac:(intros H; discriminate H)). clear H2.
        unfold bind, hutil_log_info, emit. 
        destruct (run_command_and_log h "apt-get update" true true
                    ((tr ++ [EvExec "which apt-get"])
                     ++ [EvLog Hutil Info "Updating package lists to make curl available"])%list)
          as [[r | e | x] t2]; cbn [snd] in H1, H2' |- *; unfold ret; cbn [snd];
          (split; [exact H1 | exact H2']). }
      destruct Hsnd as [Hs1 Hs2].
      apply andb_true_iff in Hupd. destruct Hupd as [Hcurl Hapt].
      apply Z.eqb_eq in Hcurl. apply Z.eqb_eq in Hapt.
      split; [exact Hs2 |]. split; [rewrite Hs1; lia |].
      split; [intros H; discriminate H |].
      split.
      * intros _ [Hc | Ha]; contradiction.
      * intros ->. discriminate Hcurl.
    + unfold ret. cbn [snd]. rewrite executions_exec.
      rewrite executions_exec_other by (intros H; discriminate H).
      repeat split; try reflexivity; try lia; try (intros H; discriminate H).
Qed.

Lemma retry_if_dpkg_locked_or_curl_is_not_found_cases_witness :
  executions "apt-get update"
    (snd (retry_if_dpkg_locked_or_curl_is_not_found locked_uninstall_host
            InstallErrorCurlNotInstalled "curl: command not found" []))
  = 1%nat
  /\ retry_if_dpkg_locked_or_curl_is_not_found locked_uninstall_host 0 EmptyString []
     = (Ok (false, EmptyString), [EvExec "which apt-get"]).
Proof.
  destruct (retry_if_dpkg_locked_or_curl_is_not_found_cases locked_uninstall_host
              InstallErrorCurlNotInstalled "curl: command not found" []
              0 apt_get_path_output eq_refl) as (_ & Hupd & _).
  destruct (retry_if_dpkg_locked_or_curl_is_not_found_cases locked_uninstall_host
              0 EmptyString [] 0 apt_get_path_output eq_refl) as (_ & _ & _ & _ & Hok).
  split.
  - rewrite Hupd. reflexivity.
  - apply Hok. reflexivity.
Defined.

(* ------------------------------------------------------------------ *)
(** ** Onboarding *)

(** After a first onboarding attempt that ends with a code other than 5
    and 6 the engine is done. *)
Lemma onboarding_engine_first_attempt (h : host) cmd retries ce lc ist sif tr c o :
  0 <= retries ->
  run_get_output h cmd ce lc tr = (Ok (c, o), (tr ++ [EvExec cmd])%list) ->
  c <> EnableErrorOMSReturned403 ->
  c <> EnableErrorOMSReturnedNon200 ->
  run_command_with_retries h cmd retries (pure_policy retry_onboarding)
    (Some raise_if_no_internet) ce lc ist sif tr
  = (if c =? EnableErrorResolvingHost
     then Raise OMSAgentCannotConnectToOMSException
     else Ok c,
     (tr ++ [EvExec cmd] ++ [output_log cmd lc o])%list).
Proof.
  intros Hr Hrun H5 H6.
  unfold run_command_with_retries.
  replace (Z.to_nat (retries + 1)) with (S (Z.to_nat retries)) by lia.
  assert (Hpol : pure_policy retry_onboarding c o
                   (tr ++ [EvExec cmd] ++ [output_log cmd lc o])%list
                 = (Ok (false, EmptyString),
                    (tr ++ [EvExec cmd] ++ [output_log cmd lc o])%list)).
  { unfold pure_policy, retry_onboarding, ret.
    destruct (Z.eqb_spec c EnableErrorOMSReturned403); [contradiction |].
    destruct (Z.eqb_spec c EnableErrorOMSReturnedNon200); [contradiction |].
    reflexivity. }
  rewrite (bind_ok _ _ _ _ _
             (retry_loop_stop h cmd (pure_policy retry_onboarding) ce lc sif _ ist None
                tr c o EmptyString _ Hrun Hpol)).
  unfold raise_if_no_internet. destruct (c =? EnableErrorResolvingHost); reflexivity.
Qed.

(** X5. The engine with the onboarding policies, as [enable] calls it.
    An attempt that ends with an exit code other than 5 (403) and 6
    (non-200) is the last one: after a first such attempt the engine has
    run the command once, without sleeping, and returns that code, or
    raises OMSAgentCannotConnectToOMSException when the code is 7.  On a
    machine where every attempt ends with 5 or 6 the engine makes all
    [retries + 1] attempts and then returns 5 or 6: repeated refusals
    are reported through the exit code, not through an exception. *)
Theorem onboarding_retries :
  forall (h : host) (cmd : string) (retries : Z) (check_error log_cmd : bool)
         (initial_sleep_time sleep_increase_factor : Z) (tr : history),
    0 <= retries ->
    (forall exit_code output,
        run_get_output h cmd check_error log_cmd tr
          = (Ok (exit_code, output), (tr ++ [EvExec cmd])%list) ->
        exit_code <> EnableErrorOMSReturned403 ->
        exit_code <> EnableErrorOMSReturnedNon200 ->
        run_command_with_retries h cmd retries (pure_policy retry_onboarding)
          (Some raise_if_no_internet) check_error log_cmd
          initial_sleep_time sleep_increase_factor tr
        = (if exit_code =? EnableErrorResolvingHost
           then Raise OMSAgentCannotConnectToOMSException
           else Ok exit_code,
           (tr ++ [EvExec cmd] ++ [output_log cmd log_cmd output])%list))
    /\
    ((forall t, exists exit_code output,
         run_get_output h cmd check_error log_cmd t
           = (Ok (exit_code, output), (t ++ [EvExec cmd])%list)
         /\ (exit_code = EnableErrorOMSReturned403
             \/ exit_code = EnableErrorOMSReturnedNon200)) ->
     exists exit_code tr',
       run_command_with_retries h cmd retries (pure_policy retry_onboarding)
         (Some raise_if_no_internet) check_error log_cmd
         initial_sleep_time sleep_increase_factor tr
       = (Ok exit_code, tr')
       /\ (exit_code = EnableErrorOMSReturned403
           \/ exit_code = EnableErrorOMSReturnedNon200)
       /\ executions cmd tr' = (executions cmd tr + (Z.to_nat retries + 1))%nat
       /\ sleep_durations tr'
          = (sleep_durations tr
             ++ sleep_schedule initial_sleep_time sleep_increase_factor
                  (Z.to_nat retries + 1))%list).
Proof.
  intros h cmd retries ce lc ist sif tr Hr. split.
  - intros c o Hrun H5 H6.
    apply onboarding_engine_first_attempt; assumption.
  - intros Hall.
    destruct (retry_loop_while h cmd (pure_policy retry_onboarding) ce lc sif
                (fun c _ => c = EnableErrorOMSReturned403
                            \/ c = EnableErrorOMSReturnedNon200)
                Hall) with (remaining := Z.to_nat (retries + 1)) (sleep_time := ist)
                           (last := @None (Z * string)) (tr := tr)
      as (c & o & tr' & Hl & HP & Hex & Hsl).
    + intros c o t [-> | ->]; eexists; exists t; (split; [reflexivity | split; reflexivity]).
    + lia.
    + exists c, tr'. unfold run_command_with_retries. rewrite (bind_ok _ _ _ _ _ Hl).
      replace (Z.to_nat retries + 1)%nat with (Z.to_nat (retries + 1)) by lia.
      split; [| split; [exact HP | split; assumption]].
      unfold raise_if_no_internet. destruct HP as [-> | ->]; reflexivity.
Qed.

Lemma onboarding_retries_witness :
  (exists tr',
      run_command_with_retries unresolvable_host
        (onboard_cmd sample_workspace_id sample_workspace_key None None) 5
        (pure_policy retry_onboarding) (Some raise_if_no_internet) true false 30 1 []
      = (Raise OMSAgentCannotConnectToOMSException, tr')
      /\ executions (onboard_cmd sample_workspace_id sample_workspace_key None None) tr'
         = 1%nat)
  /\ (exists tr',
         run_command_with_retries forbidden_host
           (onboard_cmd sample_workspace_id sample_workspace_key None None) 5
           (pure_policy retry_onboarding) (Some raise_if_no_internet) true false 30 1 []
         = (Ok 5, tr')
         /\ executions (onboard_cmd sample_workspace_id sample_workspace_key None None) tr'
            = 6%nat).
Proof.
  split.
  - destruct (onboarding_retries unresolvable_host
                (onboard_cmd sample_workspace_id sample_workspace_key None None) 5
                true false 30 1 []) as [Hone _]; [lia |].
    eexists. split.
    + apply (Hone 7 "Error resolving host during the onboarding request").
      * reflexivity.
      * intros H; discriminate H.
      * intros H; discriminate H.
    + reflexivity.
  - destruct (onboarding_retries forbidden_host
                (onboard_cmd sample_workspace_id sample_workspace_key None None) 5
                true false 30 1 []) as [_ Hall]; [lia |].
    destruct Hall as (c & tr' & Hrun & Hc & Hex & _).
    + intros t. exists 5, "Error 403". split; [reflexivity | left; reflexivity].
    + exists tr'. split; [| exact Hex].
      rewrite Hrun. f_equal. f_equal.
      assert (Hv : fst (run_command_with_retries forbidden_host
                          (onboard_cmd sample_workspace_id sample_workspace_key None None) 5
                          (pure_policy retry_onboarding) (Some raise_if_no_internet)
                          true false 30 1 []) = Ok 5) by (vm_compute; reflexivity).
      rewrite Hrun in Hv. cbn [fst] in Hv. injection Hv as Hv. exact Hv.
Defined.








(* ------------------------------------------------------------------ *)
(** ** What the operations run *)

Lemma does_not_run_bind {A B} cmd (m : M A) (k : A -> M B) :
  does_not_run cmd m -> (forall a, does_not_run cmd (k a)) -> does_not_run cmd (bind m k).
Proof.
  intros Hm Hk tr. rewrite bind_unfold. specialize (Hm tr).
  destruct (m tr) as [[a | e | c] tr1]; cbn [snd] in Hm |- *; try exact Hm.
  rewrite (Hk a tr1). exact Hm.
Qed.

Lemma does_not_run_ret {A} cmd (a : A) : does_not_run cmd (ret a).
Proof. intros tr. reflexivity. Qed.

Lemma does_not_run_raise {A} cmd (e : exn) : does_not_run cmd (@raise A e).
Proof. intros tr. reflexivity. Qed.

Lemma does_not_run_ask {A} cmd (q : history -> A) : does_not_run cmd (ask q).
Proof. intros tr. reflexivity. Qed.

Lemma does_not_run_log cmd who lvl msg : does_not_run cmd (emit (EvLog who lvl msg)).
Proof. intros tr. unfold emit. cbn [snd]. apply executions_log. Qed.

Lemma does_not_run_sleep cmd s : does_not_run cmd (emit (EvSleep s)).
Proof. intros tr. unfold emit. cbn [snd]. apply executions_sleep. Qed.

Lemma does_not_run_log_and_exit {A} (h : host) cmd operation code msg :
  does_not_run cmd (@log_and_exit h A operation code msg).
Proof.
  intros tr. rewrite log_and_exit_unfold. cbn [snd].
  unfold exit_logs. destruct (code =? 0);
    change (tr ++ [?a; ?b])%list with (tr ++ [a] ++ [b])%list;
    rewrite app_assoc, !executions_log; reflexivity.
Qed.

Lemma does_not_run_run_get_output (h : host) cmd cmd' ce lc :
  cmd <> cmd' -> does_not_run cmd (run_get_output h cmd' ce lc).
Proof.
  intros Hne tr. apply run_get_output_other. intros E. apply Hne. symmetry. exact E.
Qed.

Ltac frame_step :=
  first
    [ apply does_not_run_ret
    | apply does_not_run_raise
    | apply does_not_run_ask
    | apply does_not_run_log
    | apply does_not_run_sleep
    | apply does_not_run_log_and_exit
    | apply does_not_run_run_get_output; assumption
    | apply does_not_run_bind; [| intros ?]
    | match goal with
      | |- does_not_run _ (if ?b then _ else _) => destruct b
      | |- does_not_run _ (match ?x with _ => _ end) => destruct x
      end ].

Lemma detect_scom_connection_probes_only (h : host) (cmd : string) :
  cmd <> omsadmin_port_cmd -> cmd <> omiconfigeditor_cmd ->
  cmd <> "which openssl" -> cmd <> scom_cert_cmd ->
  does_not_run cmd (detect_scom_connection h).
Proof.
  intros H1 H2 H3 H4.
  unfold detect_scom_connection, scom_port_open_probe, scom_cert_signed,
    detect_scom_using_omsadmin, detect_scom_using_omiconfigeditor,
    detect_scom_using_omiserver_conf, exit_if_openssl_unavailable,
    hutil_log_info, hutil_log_error.
  change (OMSAdminPath ++ " -o")%string with omsadmin_port_cmd.
  change (OMIConfigEditorPath ++ " httpsport -q " ++ str_of_Z SCOMPort
          ++ " < " ++ OMIServerConfPath)%string with omiconfigeditor_cmd.
  change ("openssl x509 -in " ++ SCOMCertPath ++ " -noout -text")%string
    with scom_cert_cmd.
  repeat frame_step.
  all: intros tr; destruct (read_file h tr OMIServerConfPath); reflexivity.
Qed.

Lemma detect_multiple_connections_probes_only (h : host) (workspace_id cmd : string) :
  ~ In cmd probe_commands ->
  does_not_run cmd (detect_multiple_connections h workspace_id).
Proof.
  intros Hnot.
  assert (H0 : cmd <> WorkspaceCheckCommand) by (intros E; apply Hnot; left; auto).
  assert (H1 : cmd <> omsadmin_port_cmd)
    by (intros E; apply Hnot; right; left; auto).
  assert (H2 : cmd <> omiconfigeditor_cmd)
    by (intros E; apply Hnot; right; right; left; auto).
  assert (H3 : cmd <> "which openssl")
    by (intros E; apply Hnot; right; right; right; left; auto).
  assert (H4 : cmd <> scom_cert_cmd)
    by (intros E; apply Hnot; right; right; right; right; left; auto).
  unfold detect_multiple_connections.
  apply does_not_run_bind; [apply does_not_run_ask | intros e1].
  apply does_not_run_bind.
  - destruct e1.
    + apply does_not_run_bind; [apply does_not_run_run_get_output; exact H0 |].
      intros [code out].
      destruct (negb (lower (strip out) =? "no workspace")%string);
        [| apply does_not_run_ret].
      intros tr. rewrite scan_lines_history. reflexivity.
    + apply does_not_run_bind; [apply does_not_run_ask | intros; apply does_not_run_ret].
  - intros [| [|]].
    + apply does_not_run_bind; [apply does_not_run_log | intros; apply does_not_run_ret].
    + apply does_not_run_raise.
    + apply detect_scom_connection_probes_only; assumption.
Qed.

Lemma only_io_outcomes_bind {A B} (m : M A) (k : A -> M B) :
  only_io_outcomes m -> (forall a, only_io_outcomes (k a)) -> only_io_outcomes (bind m k).
Proof.
  intros Hm Hk tr. rewrite bind_unfold. specialize (Hm tr).
  destruct (m tr) as [[a | e | c] tr1]; cbn [fst] in Hm |- *; try exact Hm.
  apply Hk.
Qed.

Lemma only_io_outcomes_ret {A} (a : A) : only_io_outcomes (ret a).
Proof. intros tr. exact I. Qed.

Lemma only_io_outcomes_emit (ev : event) : only_io_outcomes (emit ev).
Proof. intros tr. exact I. Qed.

Lemma only_io_outcomes_run_get_output (h : host) cmd ce lc :
  only_io_outcomes (run_get_output h cmd ce lc).
Proof.
  unfold run_get_output. apply only_io_outcomes_bind.
  - intros tr. unfold execution_facility.
    destruct (waagent_loaded h).
    + destruct (3 <=? waagent_params h)%nat; exact I.
    + destruct (check_output h tr cmd); cbn; auto.
  - intros [code raw]. apply only_io_outcomes_bind.
    + intros tr. destruct raw as [b | cps]; cbn; [| exact I].
      destruct (all_chars is_ascii7 b); cbn; auto.
    + intros s. apply only_io_outcomes_ret.
Qed.

Lemma only_io_outcomes_run_command_and_log (h : host) cmd ce lc :
  only_io_outcomes (run_command_and_log h cmd ce lc).
Proof.
  unfold run_command_and_log.
  apply only_io_outcomes_bind; [apply only_io_outcomes_run_get_output |].
  intros [code out]. apply only_io_outcomes_bind.
  - destruct lc; apply only_io_outcomes_emit.
  - intros _. apply only_io_outcomes_ret.
Qed.

Lemma only_io_outcomes_dpkg_policy (h : host) c o :
  only_io_outcomes (retry_if_dpkg_locked_or_curl_is_not_found h c o).
Proof.
  unfold retry_if_dpkg_locked_or_curl_is_not_found.
  apply only_io_outcomes_bind; [apply only_io_outcomes_run_get_output |].
  intros [ca oa]. destruct (is_dpkg_locked c o); [apply only_io_outcomes_ret |].
  destruct (negb (is_curl_found c o) && (ca =? 0)); [| apply only_io_outcomes_ret].
  apply only_io_outcomes_bind; [apply only_io_outcomes_emit |]. intros _.
  apply only_io_outcomes_bind; [apply only_io_outcomes_run_command_and_log |].
  intros _. apply only_io_outcomes_ret.
Qed.

Lemma only_io_outcomes_retry_loop (h : host) cmd (retry_check : retry_policy) ce lc sif :
  (forall c o, only_io_outcomes (retry_check c o)) ->
  forall remaining st last,
    only_io_outcomes (retry_loop h cmd retry_check ce lc sif remaining st last).
Proof.
  intros Hpol. induction remaining as [| k IH]; intros st last tr.
  - exact I.
  - rewrite retry_loop_unfold.
    pose proof (only_io_outcomes_run_command_and_log h cmd ce lc tr) as Hrun.
    destruct (run_command_and_log h cmd ce lc tr) as [[[c o] | e | x] tr1];
      cbn [fst] in Hrun |- *; try exact Hrun.
    pose proof (Hpol c o tr1) as Hp.
    destruct (retry_check c o tr1) as [[[[|] msg] | e | x] tr2];
      cbn [fst] in Hp |- *; try exact Hp.
    apply IH.
Qed.

Lemma only_io_outcomes_engine (h : host) cmd retries (retry_check : retry_policy)
      (final_check : option final_policy) ce lc ist sif :
  (forall c o, only_io_outcomes (retry_check c o)) ->
  (forall f, final_check = Some f -> forall c o, only_io_outcomes (f c o)) ->
  only_io_outcomes
    (run_command_with_retries h cmd retries retry_check final_check ce lc ist sif).
Proof.
  intros Hpol Hfin. unfold run_command_with_retries.
  apply only_io_outcomes_bind; [apply only_io_outcomes_retry_loop; exact Hpol |].
  intros [[c o] |].
  - destruct final_check as [f |]; [apply (Hfin f eq_refl) | apply only_io_outcomes_ret].
  - intros tr. reflexivity.
Qed.

Lemma aborted_not_io {A} (r : outcome A) : aborted r -> io_outcome r -> False.
Proof.
  destruct r as [a | e | c]; cbn; auto. intros H1 H2. congruence.
Qed.

(** An operation that aborts in its first part has not run what its
    second part runs. *)
Lemma aborted_bind {A B} cmd (m : M A) (k : A -> M B) tr :
  does_not_run cmd m ->
  (forall a t, aborted (fst (k a t)) -> executions cmd (snd (k a t)) = executions cmd t) ->
  aborted (fst (bind m k tr)) ->
  executions cmd (snd (bind m k tr)) = executions cmd tr.
Proof.
  intros Hm Hk. rewrite bind_unfold. specialize (Hm tr).
  destruct (m tr) as [[a | e | c] tr1]; cbn [snd] in Hm |- *; intros Hab;
    try exact Hm.
  rewrite (Hk a tr1 Hab). exact Hm.
Qed.

Lemma does_not_run_chmod (h : host) cmd path mode : does_not_run cmd (chmod h path mode).
Proof. intros tr. unfold chmod. destruct (os_chmod h tr path mode); reflexivity. Qed.

Lemma install_cmd_not_probe (p : string) :
  ~ In (InstallCommandTemplate p) probe_commands.
Proof.
  unfold InstallCommandTemplate, probe_commands.
  change WorkspaceCheckCommand with "/opt/microsoft/omsagent/bin/omsadmin.sh -l".
  change omsadmin_port_cmd with "/opt/microsoft/omsagent/bin/omsadmin.sh -o".
  change omiconfigeditor_cmd
    with "/opt/omi/bin/omiconfigeditor httpsport -q 1270 < /etc/opt/omi/conf/omiserver.conf".
  change scom_cert_cmd
    with "openssl x509 -in /etc/opt/microsoft/scx/ssl/scx.pem -noout -text".
  intros [H | [H | [H | [H | [H | []]]]]]; symmetry in H; append_differs H.
Qed.

(** X8. Conflict detection runs nothing but its five probe commands, so
    never the bundle; and when [install] aborts (the process exits, or a
    parameter or multiple-connections exception is raised) the bundle
    has not been run: every check of [install] comes before any change
    to the machine. *)
Theorem install_aborts_before_bundle :
  forall (h : host) (cwd : string) (tr : history),
    (forall workspace_id cmd,
        ~ In cmd probe_commands ->
        does_not_run cmd (detect_multiple_connections h workspace_id))
    /\ ~ In (InstallCommandTemplate (bundle_path cwd)) probe_commands
    /\ (aborted (fst (install h cwd tr)) ->
        executions (InstallCommandTemplate (bundle_path cwd)) (snd (install h cwd tr))
        = executions (InstallCommandTemplate (bundle_path cwd)) tr).
Proof.
  intros h cwd tr.
  split; [intros wid cmd; apply detect_multiple_connections_probes_only |].
  split; [apply install_cmd_not_probe |].
  set (cmd := InstallCommandTemplate (bundle_path cwd)).
  assert (Hengine :
    forall t, aborted (fst (run_command_with_retries h cmd 15
                              (retry_if_dpkg_locked_or_curl_is_not_found h)
                              (Some (pure_policy final_check_if_dpkg_locked))
                              true true 30 1 t)) -> False).
  { intros t Hab. apply (aborted_not_io _ Hab).
    apply only_io_outcomes_engine.
    - apply only_io_outcomes_dpkg_policy.
    - intros f Hf c o. inversion Hf; subst. intros t'. exact I. }
  unfold install.
  apply aborted_bind.
  { unfold exit_if_vm_not_supported. destruct (vm_support h) as [[s d] v].
    destruct (negb s); [apply does_not_run_log_and_exit | apply does_not_run_ret]. }
  intros _ t0.
  destruct (settings h) as [[pub |] prot]; [| intros _; reflexivity].
  destruct (pub_workspaceId pub) as [wid |]; [| intros _; reflexivity].
  apply aborted_bind.
  { unfold check_workspace_id.
    destruct (negb (GUIDOnly_match wid)); [apply does_not_run_raise | apply does_not_run_ret]. }
  intros _ t1.
  apply aborted_bind.
  { destruct (pub_stopOnMultipleConnections pub) as [[|] |];
      try apply does_not_run_ret.
    apply detect_multiple_connections_probes_only. apply install_cmd_not_probe. }
  intros _ t2.
  apply aborted_bind; [apply does_not_run_chmod |].
  intros _ t3. cbv zeta.
  apply aborted_bind; [apply does_not_run_log |].
  intros _ t4 Hab. exfalso. apply (Hengine t4). exact Hab.
Qed.

Lemma install_aborts_before_bundle_witness :
  (exists msg,
      fst (install conflicting_host sample_cwd [])
      = Raise (OMSAgentUnwantedMultipleConnectionsException msg))
  /\ executions (InstallCommandTemplate (bundle_path sample_cwd))
       (snd (install conflicting_host sample_cwd [])) = 0%nat.
Proof.
  destruct (install_aborts_before_bundle conflicting_host sample_cwd [])
    as (_ & _ & Hab).
  split.
  - eexists. vm_compute. reflexivity.
  - rewrite Hab; [reflexivity |]. vm_compute. reflexivity.
Defined.

(* ------------------------------------------------------------------ *)
(** ** The top level, in general *)



(* ------------------------------------------------------------------ *)
(** ** The operation named on the command line *)

Lemma startswith_app (p r : string) : startswith p (p ++ r) = true.
Proof.
  induction p as [| a p IH]; [reflexivity |].
  simpl. rewrite Ascii.eqb_refl. exact IH.
Qed.

Lemma startswith_cons_inv (x a : ascii) (p r : string) :
  startswith (String x p) (String a r) = true -> a = x /\ startswith p r = true.
Proof.
  simpl. intros H. apply andb_true_iff in H. destruct H as [E H].
  apply Ascii.eqb_eq in E. auto.
Qed.

Lemma skip_dashes_app (pre s : string) :
  all_chars is_dash_or_slash pre = true -> skip_dashes (pre ++ s) = skip_dashes s.
Proof.
  induction pre as [| c pre IH]; intros H; [reflexivity |].
  simpl in H. apply andb_true_iff in H. destruct H as [Hc Hp].
  simpl. rewrite Hc. apply IH. exact Hp.
Qed.

Lemma option_matches_exclusive (n1 n2 o1 o2 opt : string) :
  In (n1, o1) operation_names -> In (n2, o2) operation_names ->
  option_matches n1 opt = true -> option_matches n2 opt = true ->
  n1 = n2.
Proof.
  unfold option_matches. generalize (skip_dashes opt) as s. intros s Hin1 Hin2 H1 H2.
  destruct s as [| a [| b s]].
  - simpl in Hin1. repeat (destruct Hin1 as [Hin1 | Hin1];
      [injection Hin1 as <- <-; discriminate H1 |]). destruct Hin1.
  - simpl in Hin1. repeat (destruct Hin1 as [Hin1 | Hin1];
      [injection Hin1 as <- <-; apply startswith_cons_inv in H1;
       destruct H1 as [_ H1]; discriminate H1 |]). destruct Hin1.
  - simpl in Hin1, Hin2.
    repeat (destruct Hin1 as [Hin1 | Hin1]; [injection Hin1 as <- <- |]);
      try (destruct Hin1);
      repeat (destruct Hin2 as [Hin2 | Hin2]; [injection Hin2 as <- <- |]);
      try (destruct Hin2);
      try reflexivity;
      apply startswith_cons_inv in H1; destruct H1 as [E1 H1];
      apply startswith_cons_inv in H2; destruct H2 as [E2 H2];
      try congruence;
      apply startswith_cons_inv in H1; destruct H1 as [E3 H1];
      apply startswith_cons_inv in H2; destruct H2 as [E4 H2];
      congruence.
Qed.

Ltac in_names := simpl; repeat (first [left; reflexivity | right]).

(** X10. How [main] reads the operation off its first argument.  Any
    run of dashes and slashes in front of an operation name, and any text
    behind it, give that operation ('-install', '//enable', 'disabled');
    no argument matches the patterns of two operations, so the order of
    the tests does not matter; and an operation is only ever chosen
    because its pattern matched. *)
Theorem operation_of_option_spec :
  (forall pre name op suffix,
      In (name, op) operation_names ->
      all_chars is_dash_or_slash pre = true ->
      operation_of_option (pre ++ name ++ suffix) = Some op)
  /\ (forall opt n1 o1 n2 o2,
         In (n1, o1) operation_names -> In (n2, o2) operation_names ->
         option_matches n1 opt = true -> option_matches n2 opt = true ->
         n1 = n2)
  /\ (forall opt op,
         operation_of_option opt = Some op ->
         exists name, In (name, op) operation_names /\ option_matches name opt = true)
  /\ (forall opt,
         operation_of_option opt = None ->
         forall name op, In (name, op) operation_names -> option_matches name opt = false).
Proof.
  split; [| split; [| split]].
  - intros pre name op suffix Hin Hpre.
    unfold operation_of_option, option_matches.
    rewrite !(skip_dashes_app pre _ Hpre).
    simpl in Hin.
    repeat (destruct Hin as [Hin | Hin]; [injection Hin as <- <-; reflexivity |]).
    destruct Hin.
  - intros opt n1 o1 n2 o2. apply option_matches_exclusive.
  - intros opt op H. unfold operation_of_option in H.
    destruct (option_matches "disable" opt) eqn:E1;
      [injection H as <-; exists "disable"; (split; [in_names | assumption]) |].
    destruct (option_matches "uninstall" opt) eqn:E2;
      [injection H as <-; exists "uninstall"; (split; [in_names | assumption]) |].
    destruct (option_matches "install" opt) eqn:E3;
      [injection H as <-; exists "install"; (split; [in_names | assumption]) |].
    destruct (option_matches "enable" opt) eqn:E4;
      [injection H as <-; exists "enable"; (split; [in_names | assumption]) |].
    destruct (option_matches "update" opt) eqn:E5;
      [injection H as <-; exists "update"; (split; [in_names | assumption]) | discriminate H].
  - intros opt H name op Hin. unfold operation_of_option in H.
    destruct (option_matches "disable" opt) eqn:E1; [discriminate H |].
    destruct (option_matches "uninstall" opt) eqn:E2; [discriminate H |].
    destruct (option_matches "install" opt) eqn:E3; [discriminate H |].
    destruct (option_matches "enable" opt) eqn:E4; [discriminate H |].
    destruct (option_matches "update" opt) eqn:E5; [discriminate H |].
    simpl in Hin.
    repeat (destruct Hin as [Hin | Hin]; [injection Hin as <- <-; assumption |]).
    destruct Hin.
Qed.

Lemma operation_of_option_spec_witness :
  operation_of_option "-install" = Some "Install"
  /\ operation_of_option "--/uninstall-now" = Some "Uninstall"
  /\ operation_of_option "-Install" = None.
Proof.
  destruct operation_of_option_spec as (Hpre & _ & _ & _).
  split; [| split].
  - apply (Hpre "-" "install" "Install" EmptyString); [simpl; auto | reflexivity].
  - apply (Hpre "--/" "uninstall" "Uninstall" "-now"); [simpl; auto | reflexivity].
  - reflexivity.
Defined.

(* ------------------------------------------------------------------ *)
(** ** What the patterns accept *)

Lemma string_app_assoc (a b c : string) : ((a ++ b) ++ c = a ++ (b ++ c))%string.
Proof. induction a as [| x a IH]; simpl; [reflexivity | rewrite IH; reflexivity]. Qed.

Lemma string_app_nil_r (a : string) : (a ++ EmptyString = a)%string.
Proof. induction a as [| x a IH]; simpl; [reflexivity | rewrite IH; reflexivity]. Qed.

Lemma string_length_app (a b : string) :
  String.length (a ++ b) = (String.length a + String.length b)%nat.
Proof. induction a as [| x a IH]; simpl; [reflexivity | rewrite IH; reflexivity]. Qed.

Lemma startswith_iff (p s : string) :
  startswith p s = true <-> exists r, s = (p ++ r)%string.
Proof.
  split.
  - revert s. induction p as [| a p IH]; intros s H.
    + exists s. reflexivity.
    + destruct s as [| b s]; simpl in H; [discriminate |].
      apply andb_true_iff in H. destruct H as [E H]. apply Ascii.eqb_eq in E. subst b.
      destruct (IH s H) as (r & ->). exists r. reflexivity.
  - intros (r & ->). apply startswith_app.
Qed.

Lemma contains_iff (sub s : string) :
  contains sub s = true <-> exists a b, s = (a ++ sub ++ b)%string.
Proof.
  split.
  - induction s as [| c s IH]; intros H; simpl in H.
    + apply orb_true_iff in H. destruct H as [H | H]; [| discriminate].
      apply startswith_iff in H. destruct H as (r & Hr). exists EmptyString, r. exact Hr.
    + apply orb_true_iff in H. destruct H as [H | H].
      * apply startswith_iff in H. destruct H as (r & Hr). exists EmptyString, r. exact Hr.
      * destruct (IH H) as (a & b & ->). exists (String c a), b. reflexivity.
  - intros (a & b & ->). induction a as [| c a IH].
    + simpl ((EmptyString ++ sub ++ b)%string).
      destruct (sub ++ b)%string eqn:E; simpl.
      * destruct sub; [reflexivity | discriminate E].
      * rewrite <- E. rewrite startswith_app. reflexivity.
    + simpl. rewrite IH. apply orb_true_r.
Qed.

Lemma match_classes_iff (cls : list (ascii -> bool)) :
  forall s rest,
    match_classes cls s = Some rest
    <-> exists g, s = (g ++ rest)%string /\ match_classes cls g = Some EmptyString.
Proof.
  induction cls as [| p ps IH]; intros s rest.
  - simpl. split.
    + intros H. injection H as <-. exists EmptyString. auto.
    + intros (g & -> & Hg). injection Hg as ->. reflexivity.
  - split.
    + intros H. destruct s as [| c s]; simpl in H; [discriminate |].
      destruct (p c) eqn:Hp; [| discriminate].
      apply IH in H. destruct H as (g & -> & Hg).
      exists (String c g). split; [reflexivity |]. simpl. rewrite Hp. exact Hg.
    + intros (g & -> & Hg). destruct g as [| c g]; simpl in Hg; [discriminate |].
      simpl. destruct (p c); [| discriminate].
      apply IH. exists g. auto.
Qed.

Lemma match_classes_length (cls : list (ascii -> bool)) :
  forall g, match_classes cls g = Some EmptyString -> String.length g = List.length cls.
Proof.
  induction cls as [| p ps IH]; intros g H.
  - simpl in H. injection H as ->. reflexivity.
  - destruct g as [| c g]; simpl in H; [discriminate |].
    destruct (p c); [| discriminate]. simpl. f_equal. apply IH. exact H.
Qed.

(** X11. What [check_workspace_id] lets through.  Because the pattern is
    compiled with [re.M], its [$] also stands before a newline: the id is
    accepted exactly when it starts with a GUID of 36 characters that is
    followed by nothing or by a newline, after which anything may come;
    every other id raises OMSAgentInvalidParameterError.  So a GUID
    followed by a newline and any text is a valid workspace id. *)
Theorem check_workspace_id_accepts :
  forall (workspace_id : string) (tr : history),
    (check_workspace_id workspace_id tr = (Ok tt, tr)
     <-> exists guid rest,
         workspace_id = (guid ++ rest)%string
         /\ match_classes GUIDRegex guid = Some EmptyString
         /\ String.length guid = 36%nat
         /\ (rest = EmptyString \/ exists text, rest = String newline text))
    /\ (check_workspace_id workspace_id tr = (Ok tt, tr)
        \/ check_workspace_id workspace_id tr
           = (Raise (OMSAgentInvalidParameterError "Workspace ID is invalid"), tr))
    /\ (forall text,
           check_workspace_id workspace_id tr = (Ok tt, tr) ->
           String.length workspace_id = 36%nat ->
           check_workspace_id (workspace_id ++ String newline text) tr = (Ok tt, tr)).
Proof.
  intros s tr.
  assert (Hiff : forall s',
    GUIDOnly_match s' = true
    <-> exists guid rest,
        s' = (guid ++ rest)%string
        /\ match_classes GUIDRegex guid = Some EmptyString
        /\ String.length guid = 36%nat
        /\ (rest = EmptyString \/ exists text, rest = String newline text)).
  { intros s'. unfold GUIDOnly_match. split.
    - destruct (match_classes GUIDRegex s') as [rest |] eqn:E; [| discriminate].
      intros Heol. apply match_classes_iff in E. destruct E as (g & -> & Hg).
      exists g, rest. split; [reflexivity |]. split; [exact Hg |].
      split; [apply (match_classes_length _ _ Hg) |].
      destruct rest as [| c r]; [left; reflexivity |].
      simpl in Heol. apply Ascii.eqb_eq in Heol. subst c. right. exists r. reflexivity.
    - intros (g & rest & -> & Hg & _ & Hrest).
      assert (E : match_classes GUIDRegex (g ++ rest) = Some rest)
        by (apply match_classes_iff; exists g; auto).
      rewrite E. destruct Hrest as [-> | (text & ->)]; reflexivity. }
  assert (Hcheck : forall s',
    check_workspace_id s' tr = (Ok tt, tr) <-> GUIDOnly_match s' = true).
  { intros s'. unfold check_workspace_id.
    destruct (GUIDOnly_match s'); simpl; split; intros H;
      try reflexivity; discriminate H. }
  split; [| split].
  - rewrite Hcheck. apply Hiff.
  - unfold check_workspace_id. destruct (GUIDOnly_match s); simpl; auto.
  - intros text Hok Hlen. apply Hcheck. apply Hiff.
    apply Hcheck in Hok. apply Hiff in Hok.
    destruct Hok as (g & rest & Hs & Hg & Hg36 & Hrest).
    assert (rest = EmptyString).
    { destruct Hrest as [-> | (t & ->)]; [reflexivity |].
      rewrite Hs in Hlen. rewrite string_length_app in Hlen. simpl in Hlen. lia. }
    subst rest. exists g, (String newline text).
    split; [| split; [exact Hg | split; [exact Hg36 | right; exists text; reflexivity]]].
    rewrite Hs. rewrite string_app_nil_r. reflexivity.
Qed.

Lemma check_workspace_id_accepts_witness :
  check_workspace_id (sample_workspace_id ++ String newline "; touch /tmp/x") []
  = (Ok tt, []).
Proof.
  destruct (check_workspace_id_accepts sample_workspace_id []) as (_ & _ & Hnl).
  apply Hnl; reflexivity.
Defined.

Lemma dpkg_lock_in_line_cons (x : ascii) (l : string) :
  dpkg_lock_in_line (String x l)
  = (startswith "dpkg" (String x l)
     && match l with
        | String _ (String _ (String _ (String _ r))) => contains "lock" r
        | _ => false
        end)
    || dpkg_lock_in_line l.
Proof. reflexivity. Qed.

Lemma dpkg_lock_in_line_iff (line : string) :
  dpkg_lock_in_line line = true <-> dpkg_lock_line line.
Proof.
  split.
  - induction line as [| x l IH]; intros H.
    + simpl in H. discriminate H.
    + rewrite dpkg_lock_in_line_cons in H.
      apply orb_true_iff in H. destruct H as [H | H].
      * apply andb_true_iff in H. destruct H as [Hp Hc].
        apply startswith_iff in Hp. destruct Hp as (r & Hr).
        simpl in Hr. injection Hr as -> ->. cbn [append] in Hc.
        destruct r as [| c5 r]; [discriminate Hc |].
        apply contains_iff in Hc. destruct Hc as (a & b & ->).
        exists EmptyString, (String c5 a), b. split; [| discriminate].
        reflexivity.
      * destruct (IH H) as (a & b & c & -> & Hb).
        exists (String x a), b, c. split; [reflexivity | exact Hb].
  - intros (a & b & c & -> & Hb). induction a as [| x a IH].
    + destruct b as [| c5 b]; [congruence |].
      change (EmptyString ++ "dpkg" ++ String c5 b ++ "lock" ++ c)%string
        with (String "d" ("pkg" ++ String c5 (b ++ "lock" ++ c)))%string.
      rewrite dpkg_lock_in_line_cons. apply orb_true_iff. left.
      apply andb_true_iff. split; [reflexivity |].
      cbn [append]. apply contains_iff. exists b, c. reflexivity.
    + change ((String x a ++ "dpkg" ++ b ++ "lock" ++ c)%string)
        with (String x (a ++ "dpkg" ++ b ++ "lock" ++ c)%string).
      rewrite dpkg_lock_in_line_cons. rewrite IH. apply orb_true_r.
Qed.

(** X12. What counts as a locked package manager: [is_dpkg_locked]
    answers True exactly when the exit code is not 0 and some line of the
    output has "dpkg", then at least one character, then "lock" (so
    "/var/lib/dpkg/lock" counts and "dpkglock" does not).  The final
    check then gives 12; it gives 12 in no other case but that of a
    command that itself exited with 12. *)
Theorem is_dpkg_locked_iff :
  forall (exit_code : Z) (output : string),
    (is_dpkg_locked exit_code output = true
     <-> exit_code <> 0
         /\ exists line, In line (split_on newline output) /\ dpkg_lock_line line)
    /\ (final_check_if_dpkg_locked exit_code output = DPKGLockedErrorCode
        <-> is_dpkg_locked exit_code output = true \/ exit_code = DPKGLockedErrorCode)
    /\ (is_dpkg_locked exit_code output = false ->
        final_check_if_dpkg_locked exit_code output = exit_code).
Proof.
  intros c o.
  assert (Hsearch : dpkg_locked_search o = true
                    <-> exists line, In line (split_on newline o) /\ dpkg_lock_line line).
  { unfold dpkg_locked_search. rewrite existsb_exists.
    split; intros (line & Hin & Hl); exists line; (split; [exact Hin |]);
      apply dpkg_lock_in_line_iff; exact Hl. }
  split; [| split].
  - unfold is_dpkg_locked. destruct (Z.eqb_spec c 0) as [-> | Hne]; simpl.
    + split; [discriminate | intros [H _]; congruence].
    + rewrite <- Hsearch. destruct (dpkg_locked_search o); split; try tauto;
        try (intros H; discriminate H); try (intros [_ H]; discriminate H).
  - unfold final_check_if_dpkg_locked.
    destruct (is_dpkg_locked c o); split; try tauto;
      try (intros ->; right; reflexivity);
      try (intros [H | H]; [discriminate H | exact H]).
  - unfold final_check_if_dpkg_locked. intros ->. reflexivity.
Qed.

Lemma is_dpkg_locked_iff_witness :
  is_dpkg_locked 100 "E: Could not get lock /var/lib/dpkg/lock - open" = true
  /\ is_dpkg_locked 100 "dpkglock" = false.
Proof.
  destruct (is_dpkg_locked_iff 100 "E: Could not get lock /var/lib/dpkg/lock - open")
    as ((_ & Hyes) & _).
  split; [| reflexivity].
  apply Hyes. split; [intros H; discriminate H |].
  exists "E: Could not get lock /var/lib/dpkg/lock - open".
  split; [left; reflexivity |].
  exists "E: Could not get lock /var/lib/", "/", " - open".
  split; [reflexivity | discriminate].
Defined.

(* ------------------------------------------------------------------ *)
(** ** Splitting *)

Lemma split_on_app_sep (sep : ascii) (t : string) :
  forall l, split_on sep (l ++ String sep t) = (split_on sep l ++ split_on sep t)%list.
Proof.
  induction l as [| c l IH]; simpl.
  - rewrite Ascii.eqb_refl. reflexivity.
  - destruct (Ascii.eqb c sep).
    + rewrite IH. reflexivity.
    + rewrite IH. pose proof (split_on_not_nil sep l) as Hn.
      destruct (split_on sep l) as [| f fs]; [congruence | reflexivity].
Qed.

Lemma split_on_free (sep : ascii) :
  forall x, free_of sep x = true -> split_on sep x = [x].
Proof.
  induction x as [| c x IH]; intros H; [reflexivity |].
  simpl in H. apply andb_true_iff in H. destruct H as [Hc Hx].
  simpl. apply negb_true_iff in Hc. rewrite Hc. rewrite (IH Hx). reflexivity.
Qed.

(** The first field of a split, and what comes after it. *)
Lemma split_on_head (sep : ascii) :
  forall s, exists f fs r,
    split_on sep s = f :: fs
    /\ s = (f ++ r)%string
    /\ free_of sep f = true
    /\ ((r = EmptyString /\ fs = [])
        \/ exists r', r = String sep r' /\ fs = split_on sep r').
Proof.
  induction s as [| c s IH].
  - exists EmptyString, [], EmptyString. simpl.
    split; [reflexivity |]. split; [reflexivity |]. split; [reflexivity |].
    left. split; reflexivity.
  - destruct IH as (f & fs & r & Hsplit & Hs & Hfree & Hr).
    simpl. destruct (Ascii.eqb c sep) eqn:E.
    + apply Ascii.eqb_eq in E. subst c.
      exists EmptyString, (split_on sep s), (String sep s).
      split; [reflexivity |]. split; [reflexivity |]. split; [reflexivity |].
      right. exists s. split; reflexivity.
    + rewrite Hsplit. exists (String c f), fs, r.
      split; [reflexivity |]. split; [simpl; rewrite Hs; reflexivity |].
      split; [| exact Hr].
      unfold free_of in *. cbn [all_chars]. rewrite E. exact Hfree.
Qed.

Lemma split_on_field (sep : ascii) (x : string) :
  forall s,
    In x (split_on sep s)
    <-> free_of sep x = true
        /\ exists l r,
            s = (l ++ x ++ r)%string
            /\ (l = EmptyString \/ exists l', l = (l' ++ String sep EmptyString)%string)
            /\ (r = EmptyString \/ exists r', r = String sep r').
Proof.
  intros s. split.
  - remember (String.length s) as n eqn:Hn.
    assert (Hle : (String.length s <= n)%nat) by lia. clear Hn.
    revert s Hle. induction n as [| n IH]; intros s Hle Hin.
    + destruct s; [| simpl in Hle; lia]. simpl in Hin. destruct Hin as [<- | []].
      split; [reflexivity |]. exists EmptyString, EmptyString. auto.
    + destruct (split_on_head sep s) as (f & fs & r & Hsplit & Hs & Hfree & Hr).
      rewrite Hsplit in Hin. destruct Hin as [<- | Hin].
      * split; [exact Hfree |]. exists EmptyString, r.
        split; [exact Hs |]. split; [left; reflexivity |].
        destruct Hr as [[-> _] | (r' & -> & _)]; [left | right; exists r']; reflexivity.
      * destruct Hr as [[_ ->] | (r' & -> & ->)]; [destruct Hin |].
        assert (Hlen : (String.length r' <= n)%nat).
        { rewrite Hs in Hle. rewrite string_length_app in Hle. simpl in Hle. lia. }
        destruct (IH r' Hlen Hin) as (Hx & l2 & r2 & Hr' & Hl2 & Hr2).
        split; [exact Hx |].
        exists (f ++ String sep l2)%string, r2.
        split; [| split; [| exact Hr2]].
        -- rewrite Hs, Hr'. rewrite string_app_assoc. reflexivity.
        -- right. destruct Hl2 as [-> | (l' & ->)].
           ++ exists f. reflexivity.
           ++ exists (f ++ String sep l')%string. rewrite string_app_assoc. reflexivity.
  - intros (Hx & l & r & -> & Hl & Hr).
    assert (Htail : In x (split_on sep (x ++ r))).
    { destruct Hr as [-> | (r' & ->)].
      - rewrite string_app_nil_r. rewrite (split_on_free sep x Hx). left. reflexivity.
      - rewrite split_on_app_sep. rewrite (split_on_free sep x Hx). left. reflexivity. }
    destruct Hl as [-> | (l' & ->)]; [exact Htail |].
    rewrite string_app_assoc. simpl. rewrite split_on_app_sep.
    apply in_or_app. right. exact Htail.
Qed.

Lemma mem_In (x : string) (l : list string) : mem x l = true <-> In x l.
Proof.
  unfold mem. rewrite existsb_exists. split.
  - intros (y & Hin & Heq). apply String.eqb_eq in Heq. subst y. exact Hin.
  - intros Hin. exists x. split; [exact Hin | apply String.eqb_refl].
Qed.

Lemma replace_char_app (a b : ascii) (t : string) :
  forall s, replace_char a b (s ++ t) = (replace_char a b s ++ replace_char a b t)%string.
Proof.
  induction s as [| c s IH]; simpl; [reflexivity | rewrite IH; reflexivity].
Qed.

Lemma replace_char_app_inv (a b : ascii) :
  forall u v s, replace_char a b s = (u ++ v)%string ->
    exists s1 s2, s = (s1 ++ s2)%string
                  /\ replace_char a b s1 = u /\ replace_char a b s2 = v.
Proof.
  induction u as [| c u IH]; intros v s H.
  - exists EmptyString, s. simpl. auto.
  - destruct s as [| d s]; simpl in H; [discriminate |].
    injection H as Hc Hs.
    destruct (IH v s Hs) as (s1 & s2 & -> & H1 & H2).
    exists (String d s1), s2. simpl. rewrite H1, Hc. auto.
Qed.

Lemma replace_char_nil_inv (a b : ascii) (s : string) :
  replace_char a b s = EmptyString -> s = EmptyString.
Proof. destruct s; simpl; [reflexivity | discriminate]. Qed.

(** What the comma replacement turns into a blank was a separator. *)
Lemma replace_comma_blank (d : ascii) :
  (if Ascii.eqb d "," then " "%char else d) = " "%char <-> port_separator d.
Proof.
  unfold port_separator. destruct (Ascii.eqb_spec d ","%char) as [-> | Hne].
  - split; auto.
  - split; [auto | intros [H | H]; congruence].
Qed.

Lemma replace_comma_other (d c : ascii) :
  c <> " "%char ->
  (if Ascii.eqb d "," then " "%char else d) = c -> d = c.
Proof. destruct (Ascii.eqb d ","); congruence. Qed.

Lemma replace_comma_port (s : string) :
  replace_char "," " " s = "1270"%string -> s = "1270"%string.
Proof.
  intros H.
  destruct s as [| c1 [| c2 [| c3 [| c4 [| c5 s]]]]]; simpl in H; try discriminate.
  injection H as H1 H2 H3 H4.
  apply replace_comma_other in H1; [| discriminate].
  apply replace_comma_other in H2; [| discriminate].
  apply replace_comma_other in H3; [| discriminate].
  apply replace_comma_other in H4; [| discriminate].
  subst. reflexivity.
Qed.

(** Membership of the SCOM port in the split list of ports, in terms of
    the text of the directive. *)
Lemma scom_port_member (ports : string) :
  In "1270"%string (split_on " " (replace_char "," " " ports)) <-> scom_port_listed ports.
Proof.
  rewrite split_on_field. split.
  - intros (_ & l & r & Heq & Hl & Hr).
    apply replace_char_app_inv in Heq. destruct Heq as (p1 & p2 & -> & H1 & H2).
    apply replace_char_app_inv in H2. destruct H2 as (p2a & p2b & -> & H2a & H2b).
    apply replace_comma_port in H2a. subst p2a.
    exists p1, p2b. split; [reflexivity |]. split.
    + destruct Hl as [-> | (l' & ->)].
      * left. apply replace_char_nil_inv in H1. exact H1.
      * right. apply replace_char_app_inv in H1.
        destruct H1 as (q1 & q2 & -> & _ & Hq2).
        destruct q2 as [| d [| d' q2]]; simpl in Hq2; try discriminate.
        injection Hq2 as Hd. apply replace_comma_blank in Hd.
        exists q1, d. split; [reflexivity | exact Hd].
    + destruct Hr as [-> | (r' & ->)].
      * left. apply replace_char_nil_inv in H2b. exact H2b.
      * right. destruct p2b as [| d p2b]; simpl in H2b; [discriminate |].
        injection H2b as Hd _. apply replace_comma_blank in Hd.
        exists d, p2b. split; [reflexivity | exact Hd].
  - intros (before & after & -> & Hb & Ha).
    split; [reflexivity |].
    exists (replace_char "," " " before), (replace_char "," " " after).
    split; [rewrite !replace_char_app; reflexivity |]. split.
    + destruct Hb as [-> | (b & d & -> & Hd)]; [left; reflexivity | right].
      exists (replace_char "," " " b). rewrite replace_char_app. simpl.
      apply replace_comma_blank in Hd. rewrite Hd. reflexivity.
    + destruct Ha as [-> | (d & a & -> & Hd)]; [left; reflexivity | right].
      exists (replace_char "," " " a). simpl.
      apply replace_comma_blank in Hd. rewrite Hd. reflexivity.
Qed.

Lemma lstrip_spaces (s : string) :
  forall ws, all_chars is_space ws = true -> lstrip (ws ++ s) = lstrip s.
Proof.
  induction ws as [| c ws IH]; intros H; [reflexivity |].
  simpl in H. apply andb_true_iff in H. destruct H as [Hc Hws].
  cbn [append lstrip]. rewrite Hc. apply IH. exact Hws.
Qed.

Lemma match_literal_app (s : string) :
  forall lit, match_literal lit (lit ++ s) = Some s.
Proof.
  induction lit as [| c lit IH]; [reflexivity |].
  cbn [append match_literal]. rewrite Ascii.eqb_refl. exact IH.
Qed.

Lemma rest_of_line_app (line rest : string) :
  free_of newline line = true ->
  (rest = EmptyString \/ exists r, rest = String newline r) ->
  rest_of_line (line ++ rest) = line.
Proof.
  intros Hline Hrest. induction line as [| c line IH].
  - destruct Hrest as [-> | (r & ->)]; [reflexivity |].
    cbn [append rest_of_line]. rewrite Ascii.eqb_refl. reflexivity.
  - unfold free_of in Hline. cbn [all_chars] in Hline.
    apply andb_true_iff in Hline. destruct Hline as [Hc Hl].
    apply negb_true_iff in Hc.
    cbn [append rest_of_line]. rewrite Hc. rewrite (IH Hl). reflexivity.
Qed.

(** X13. detect_scom_using_omiserver_conf: a configuration file that
    cannot be read raises IOError; a file without an httpsport line
    gives False; with an httpsport line the answer is True exactly when
    1270 stands in the text after the equals sign as a whole element,
    between blanks or commas or the ends of that text (so 12700 or
    port=1270 do not count, and neither does 1270 next to a tab), and
    one line of the log says which.  A file whose first line is the
    directive, indented or not, has that line's text after the equals
    sign as its list of ports. *)
Theorem detect_scom_using_omiserver_conf_listed (h : host) (tr : history) :
  (read_file h tr OMIServerConfPath = None ->
   detect_scom_using_omiserver_conf h tr = (Raise IOError, tr))
  /\ (forall txt,
        read_file h tr OMIServerConfPath = Some txt ->
        httpsport_search txt = None ->
        detect_scom_using_omiserver_conf h tr
        = (Ok false,
           (tr ++ [EvLog Hutil Info ("SCOM port is not listed in " ++ OMIServerConfPath)])%list))
  /\ (forall txt ports,
        read_file h tr OMIServerConfPath = Some txt ->
        httpsport_search txt = Some ports ->
        exists b : bool,
          detect_scom_using_omiserver_conf h tr
          = (Ok b,
             (tr ++ [EvLog Hutil Info
                       ((if b then "SCOM port is listed in "
                         else "SCOM port is not listed in ") ++ OMIServerConfPath)])%list)
          /\ (b = true <-> scom_port_listed ports))
  /\ (forall indent sp ports rest,
        all_chars is_space indent = true ->
        all_chars is_space sp = true ->
        free_of newline ports = true ->
        (rest = EmptyString \/ exists r, rest = String newline r) ->
        httpsport_search (indent ++ "httpsport" ++ sp ++ "="%string ++ ports ++ rest) = Some ports).
Proof.
  split; [| split; [| split]].
  - intros Hread. unfold detect_scom_using_omiserver_conf, bind. rewrite Hread. reflexivity.
  - intros txt Hread Hnone. unfold detect_scom_using_omiserver_conf, bind.
    rewrite Hread, Hnone. reflexivity.
  - intros txt ports Hread Hsome. unfold detect_scom_using_omiserver_conf, bind.
    rewrite Hread, Hsome. cbv zeta.
    destruct (mem (str_of_Z SCOMPort) (split_on " " (replace_char "," " " ports))) eqn:Hmem.
    + exists true. split; [reflexivity |]. split; [intros _ | reflexivity].
      apply scom_port_member. apply mem_In. exact Hmem.
    + exists false. split; [reflexivity |]. split; [discriminate |].
      intros Hlisted. apply scom_port_member in Hlisted. apply mem_In in Hlisted.
      change (str_of_Z SCOMPort) with "1270"%string in Hmem. congruence.
  - intros indent sp ports rest Hindent Hsp Hports Hrest.
    unfold httpsport_search, search_bol.
    assert (Hat : httpsport_at (indent ++ "httpsport" ++ sp ++ "="%string ++ ports ++ rest)
                  = Some ports).
    { unfold httpsport_at, skip_spaces.
      rewrite (lstrip_spaces _ indent Hindent).
      change (lstrip ("httpsport" ++ sp ++ "="%string ++ ports ++ rest))
        with ("httpsport" ++ sp ++ "="%string ++ ports ++ rest)%string.
      rewrite match_literal_app.
      rewrite (lstrip_spaces _ sp Hsp).
      change (lstrip ("="%string ++ ports ++ rest)) with ("="%string ++ ports ++ rest)%string.
      rewrite match_literal_app.
      rewrite (rest_of_line_app ports rest Hports Hrest). reflexivity. }
    destruct (indent ++ "httpsport" ++ sp ++ "="%string ++ ports ++ rest)%string;
      cbn [search_from]; rewrite Hat; reflexivity.
Qed.

Lemma detect_scom_using_omiserver_conf_listed_witness :
  exists b : bool,
    detect_scom_using_omiserver_conf conf_only_host []
    = (Ok b,
       ([] ++ [EvLog Hutil Info
                 ((if b then "SCOM port is listed in "
                   else "SCOM port is not listed in ") ++ OMIServerConfPath)])%list)
    /\ (b = true <-> scom_port_listed " 1270,8080").
Proof.
  apply (proj1 (proj2 (proj2 (detect_scom_using_omiserver_conf_listed conf_only_host [])))
           "httpsport = 1270,8080"%string " 1270,8080"%string).
  - reflexivity.
  - vm_compute. reflexivity.
Defined.

(* ------------------------------------------------------------------ *)
(** ** Supported distributions *)

Lemma startswith_comparable :
  forall k1 k2 s,
    startswith k1 s = true -> startswith k2 s = true ->
    startswith k1 k2 = true \/ startswith k2 k1 = true.
Proof.
  induction k1 as [| a k1 IH]; intros k2 s H1 H2.
  - left. reflexivity.
  - destruct k2 as [| b k2]; [right; reflexivity |].
    destruct s as [| c s]; [discriminate |].
    apply startswith_cons_inv in H1. destruct H1 as [Ha H1].
    apply startswith_cons_inv in H2. destruct H2 as [Hb H2].
    subst a b. cbn [startswith]. rewrite Ascii.eqb_refl. cbn [andb].
    destruct (IH k2 s H1 H2) as [H | H]; [left | right]; exact H.
Qed.

(** The loop skips the entries whose key does not match. *)
Lemma supported_dists_loop_filter (py_int : string -> option Z) (vm_dist vm_ver : string) :
  forall l,
    supported_dists_loop py_int l vm_dist vm_ver
    = supported_dists_loop py_int (filter (dist_key_matches vm_dist) l) vm_dist vm_ver.
Proof.
  induction l as [| [k vers] l IH]; [reflexivity |].
  cbn [filter supported_dists_loop]. unfold dist_key_matches at 1. cbn [fst].
  destruct (startswith k (lower vm_dist)) eqn:E; cbn [negb].
  - cbn [supported_dists_loop]. rewrite E. cbn [negb]. rewrite IH. reflexivity.
  - exact IH.
Qed.

(** No key of the table is the start of another: at most one entry
    matches a distribution name. *)
Lemma matching_entries_short (vm_dist : string) :
  (List.length (filter (dist_key_matches vm_dist) supported_dists) <= 1)%nat.
Proof.
  unfold supported_dists, dist_key_matches. cbn [filter fst].
  repeat match goal with
         | |- context [if startswith ?k ?s then _ else _] =>
             destruct (startswith k s) eqn:?
         end;
    cbn [List.length]; try lia; exfalso;
    match goal with
    | H1 : startswith ?k1 ?s = true, H2 : startswith ?k2 ?s = true |- _ =>
        destruct (startswith_comparable _ _ _ H1 H2) as [X | X];
        vm_compute in X; discriminate X
    end.
Qed.

Lemma matching_entry (vm_dist : string) (entry : string * list string) :
  In entry supported_dists ->
  dist_key_matches vm_dist entry = true ->
  filter (dist_key_matches vm_dist) supported_dists = [entry].
Proof.
  intros Hin Hm.
  assert (Hf : In entry (filter (dist_key_matches vm_dist) supported_dists)).
  { apply filter_In. split; assumption. }
  pose proof (matching_entries_short vm_dist) as Hlen.
  destruct (filter (dist_key_matches vm_dist) supported_dists) as [| e [| e' l]].
  - destruct Hf.
  - destruct Hf as [-> | []]. reflexivity.
  - simpl in Hlen. lia.
Qed.

Lemma no_matching_entry (vm_dist : string) :
  (forall entry, In entry supported_dists -> dist_key_matches vm_dist entry = false) ->
  filter (dist_key_matches vm_dist) supported_dists = [].
Proof.
  intros Hnone.
  destruct (filter (dist_key_matches vm_dist) supported_dists) as [| e l] eqn:E; [reflexivity |].
  assert (Hin : In e (filter (dist_key_matches vm_dist) supported_dists))
    by (rewrite E; left; reflexivity).
  apply filter_In in Hin. destruct Hin as [Hin Hm].
  rewrite (Hnone e Hin) in Hm. discriminate.
Qed.

(** The order of the keys does not matter. *)
Lemma supported_dists_loop_order (py_int : string -> option Z) (vm_dist vm_ver : string)
      (keys_order : list (string * list string)) :
  Permutation keys_order supported_dists ->
  supported_dists_loop py_int keys_order vm_dist vm_ver
  = supported_dists_loop py_int supported_dists vm_dist vm_ver.
Proof.
  intros Hperm.
  rewrite (supported_dists_loop_filter py_int vm_dist vm_ver keys_order).
  rewrite (supported_dists_loop_filter py_int vm_dist vm_ver supported_dists).
  pose proof (matching_entries_short vm_dist) as Hlen.
  assert (Hp : Permutation (filter (dist_key_matches vm_dist) keys_order)
                           (filter (dist_key_matches vm_dist) supported_dists)).
  { clear Hlen. induction Hperm as [| x l l' _ IH | x y l | l l' l'' _ IH1 _ IH2].
    - constructor.
    - cbn [filter]. destruct (dist_key_matches vm_dist x); [constructor |]; exact IH.
    - cbn [filter]. destruct (dist_key_matches vm_dist x), (dist_key_matches vm_dist y);
        try apply Permutation_refl. constructor.
    - exact (Permutation_trans IH1 IH2). }
  destruct (filter (dist_key_matches vm_dist) supported_dists) as [| e [| e' l]].
  - apply Permutation_sym in Hp. apply Permutation_nil in Hp. rewrite Hp. reflexivity.
  - apply Permutation_sym in Hp. apply Permutation_length_1_inv in Hp. rewrite Hp. reflexivity.
  - simpl in Hlen. lia.
Qed.

(** X14. is_vm_supported_for_extension does not depend on the order in
    which the dictionary hands out its keys: no key of supported_dists
    is the start of another, so at most one entry is ever looked at,
    and the answer, a ValueError included, is the same for every
    order, whatever [int] does. *)
Theorem is_vm_supported_for_extension_key_order
        (py_int : string -> option Z) (keys_order : list (string * list string))
        (vm_dist vm_ver : string) :
  Permutation keys_order supported_dists ->
  is_vm_supported_for_extension_in py_int keys_order vm_dist vm_ver
  = is_vm_supported_for_extension py_int vm_dist vm_ver.
Proof.
  intros Hperm. unfold is_vm_supported_for_extension, is_vm_supported_for_extension_in.
  rewrite (supported_dists_loop_order py_int vm_dist vm_ver keys_order Hperm). reflexivity.
Qed.

Lemma is_vm_supported_for_extension_key_order_witness :
  is_vm_supported_for_extension_in decimal_int (rev supported_dists) "CentOS Linux" "7.3.1611"
  = is_vm_supported_for_extension decimal_int "CentOS Linux" "7.3.1611".
Proof.
  apply (is_vm_supported_for_extension_key_order decimal_int (rev supported_dists)).
  apply Permutation_sym. apply Permutation_rev.
Defined.

(** Whatever [int] does beyond strings of digits, an answer reached
    with digits alone stands. *)
Lemma vm_ver_match_extends (py_int : string -> option Z) (vm_ver_split : list string) :
  reads_decimals py_int ->
  forall supported_ver_split idx b,
    vm_ver_match decimal_int vm_ver_split idx supported_ver_split = Some b ->
    vm_ver_match py_int vm_ver_split idx supported_ver_split = Some b.
Proof.
  intros Hint. induction supported_ver_split as [| s ss IH]; intros idx b H.
  - exact H.
  - cbn [vm_ver_match] in *.
    destruct (decimal_int s) as [sn |] eqn:Es; [| discriminate].
    rewrite (Hint s sn Es).
    destruct (nth_error vm_ver_split idx) as [c |]; [| exact H].
    destruct (decimal_int c) as [cn |] eqn:Ec; [| discriminate].
    rewrite (Hint c cn Ec).
    destruct (negb (cn =? sn)); [exact H | apply IH; exact H].
Qed.

Lemma supported_versions_loop_extends (py_int : string -> option Z) (vm_ver_split : list string) :
  reads_decimals py_int ->
  forall supported_vers b,
    supported_versions_loop decimal_int vm_ver_split supported_vers = Some b ->
    supported_versions_loop py_int vm_ver_split supported_vers = Some b.
Proof.
  intros Hint. induction supported_vers as [| v vs IH]; intros b H.
  - exact H.
  - cbn [supported_versions_loop] in *.
    destruct (vm_ver_match decimal_int vm_ver_split 0 (split_on "." v)) as [m |] eqn:E;
      [| discriminate].
    rewrite (vm_ver_match_extends py_int vm_ver_split Hint _ _ _ E).
    destruct m; [exact H | apply IH; exact H].
Qed.

Lemma supported_dists_loop_one (py_int : string -> option Z)
      (k : string) (vers : list string) (vm_dist vm_ver : string) :
  startswith k (lower vm_dist) = true ->
  supported_dists_loop py_int [(k, vers)] vm_dist vm_ver
  = supported_versions_loop py_int (split_on "." vm_ver) vers.
Proof.
  intros Hk. cbn [supported_dists_loop]. rewrite Hk. cbn [negb].
  destruct (supported_versions_loop py_int (split_on "." vm_ver) vers) as [[|] |]; reflexivity.
Qed.

(** The answer for a distribution that has an entry in the table is
    the answer of the loop over that entry's versions. *)
Lemma supported_dists_loop_entry (py_int : string -> option Z)
      (keys_order : list (string * list string))
      (k : string) (vers : list string) (vm_dist vm_ver : string) :
  Permutation keys_order supported_dists ->
  In (k, vers) supported_dists ->
  startswith k (lower vm_dist) = true ->
  supported_dists_loop py_int keys_order vm_dist vm_ver
  = supported_versions_loop py_int (split_on "." vm_ver) vers.
Proof.
  intros Hperm Hin Hk.
  rewrite (supported_dists_loop_order py_int vm_dist vm_ver keys_order Hperm).
  rewrite supported_dists_loop_filter.
  rewrite (matching_entry vm_dist (k, vers) Hin Hk).
  apply supported_dists_loop_one. exact Hk.
Qed.

Lemma vm_ver_match_too_short (py_int : string -> option Z) (v a b : string) (n an bn : Z) :
  py_int v = Some n -> py_int a = Some an -> py_int b = Some bn ->
  vm_ver_match py_int [v] 0 [a; b] = Some false.
Proof.
  intros Hv Ha Hb. cbn [vm_ver_match nth_error]. rewrite Ha, Hv.
  destruct (negb (n =? an)); [reflexivity |]. rewrite Hb. reflexivity.
Qed.

(** X15. is_vm_supported_for_extension, the rule of its comment: a
    machine whose distribution name starts (case ignored) with a key of
    the table and whose version is a supported version, alone or
    followed by a dot and anything at all ('7.3.1611' for CentOS 7), is
    supported, whatever the order of the keys and whatever comes after
    the dot: the further components are never read.  A version less
    precise than the table's is not supported: Ubuntu with a version of
    one number (no dot) is answered False, through the IndexError the
    loop catches. *)
Theorem is_vm_supported_for_extension_more_digits
        (py_int : string -> option Z) (keys_order : list (string * list string)) :
  reads_decimals py_int ->
  Permutation keys_order supported_dists ->
  (forall k vers v more vm_dist vm_ver,
      In (k, vers) supported_dists -> In v vers ->
      startswith k (lower vm_dist) = true ->
      vm_ver = v \/ vm_ver = (v ++ "." ++ more)%string ->
      is_vm_supported_for_extension_in py_int keys_order vm_dist vm_ver
      = Some (true, vm_dist, vm_ver))
  /\ (forall vm_dist vm_ver n,
        startswith "ubuntu" (lower vm_dist) = true ->
        free_of "." vm_ver = true ->
        py_int vm_ver = Some n ->
        is_vm_supported_for_extension_in py_int keys_order vm_dist vm_ver
        = Some (false, vm_dist, vm_ver)).
Proof.
  intros Hint Hperm. split.
  - intros k vers v more vm_dist vm_ver Hentry Hv Hk Hver.
    unfold is_vm_supported_for_extension_in.
    rewrite (supported_dists_loop_entry py_int keys_order k vers vm_dist vm_ver Hperm Hentry Hk).
    rewrite (supported_versions_loop_extends py_int _ Hint vers true); [reflexivity |].
    unfold supported_dists in Hentry. cbn [In] in Hentry.
    repeat (destruct Hentry as [Hentry | Hentry];
            [injection Hentry as <- <-; cbn [In] in Hv;
             repeat (destruct Hv as [Hv | Hv];
                     [subst v; destruct Hver as [-> | ->]; vm_compute; reflexivity |]);
             destruct Hv |]).
    destruct Hentry.
  - intros vm_dist vm_ver n Hk Hfree Hn.
    unfold is_vm_supported_for_extension_in.
    assert (Hentry : In ("ubuntu"%string,
                         ["12.04"; "14.04"; "15.04"; "15.10"; "16.04"; "16.10"]%string)
                        supported_dists).
    { unfold supported_dists. cbn [In]. tauto. }
    rewrite (supported_dists_loop_entry py_int keys_order _ _ vm_dist vm_ver Hperm Hentry Hk).
    rewrite (split_on_free "." vm_ver Hfree).
    assert (Hshort : forall a b an bn,
               decimal_int a = Some an -> decimal_int b = Some bn ->
               vm_ver_match py_int [vm_ver] 0 [a; b] = Some false).
    { intros a b an bn Ha Hb.
      exact (vm_ver_match_too_short py_int vm_ver a b n an bn Hn (Hint a an Ha) (Hint b bn Hb)). }
    cbn [supported_versions_loop].
    change (split_on "." "12.04") with ["12"; "04"]%string.
    change (split_on "." "14.04") with ["14"; "04"]%string.
    change (split_on "." "15.04") with ["15"; "04"]%string.
    change (split_on "." "15.10") with ["15"; "10"]%string.
    change (split_on "." "16.04") with ["16"; "04"]%string.
    change (split_on "." "16.10") with ["16"; "10"]%string.
    rewrite (Hshort "12" "04" 12 4 eq_refl eq_refl)%string.
    rewrite (Hshort "14" "04" 14 4 eq_refl eq_refl)%string.
    rewrite (Hshort "15" "04" 15 4 eq_refl eq_refl)%string.
    rewrite (Hshort "15" "10" 15 10 eq_refl eq_refl)%string.
    rewrite (Hshort "16" "04" 16 4 eq_refl eq_refl)%string.
    rewrite (Hshort "16" "10" 16 10 eq_refl eq_refl)%string.
    reflexivity.
Qed.

Lemma is_vm_supported_for_extension_more_digits_witness :
  is_vm_supported_for_extension_in decimal_int supported_dists "CentOS Linux" "7.3.1611"
  = Some (true, "CentOS Linux", "7.3.1611")
  /\ is_vm_supported_for_extension_in decimal_int supported_dists "Ubuntu" "16"
     = Some (false, "Ubuntu", "16").
Proof.
  assert (Hint : reads_decimals decimal_int) by (intros s n H; exact H).
  pose proof (is_vm_supported_for_extension_more_digits decimal_int supported_dists
                Hint (Permutation_refl _)) as [Hmore Hshort].
  split.
  - apply (Hmore "centos" ["5"; "6"; "7"] "7" "3.1611")%string.
    + unfold supported_dists. cbn [In]. tauto.
    + cbn [In]. tauto.
    + reflexivity.
    + right. reflexivity.
  - apply (Hshort "Ubuntu" "16" 16)%string; reflexivity.
Defined.

Lemma vm_ver_match_true (py_int : string -> option Z) (vm_ver_split : list string) :
  forall supported_ver_split idx,
    vm_ver_match py_int vm_ver_split idx supported_ver_split = Some true ->
    forall i s,
      nth_error supported_ver_split i = Some s ->
      exists c n,
        nth_error vm_ver_split (idx + i) = Some c /\ py_int s = Some n /\ py_int c = Some n.
Proof.
  induction supported_ver_split as [| s0 ss IH]; intros idx H i s Hi.
  - destruct i; discriminate.
  - cbn [vm_ver_match] in H.
    destruct (py_int s0) as [sn |] eqn:Es; [| discriminate].
    destruct (nth_error vm_ver_split idx) as [c |] eqn:Ec; [| discriminate].
    destruct (py_int c) as [cn |] eqn:En; [| discriminate].
    destruct (Z.eqb_spec cn sn) as [Heq | Hne]; cbn [negb] in H; [| discriminate].
    destruct i as [| i].
    + cbn [nth_error] in Hi. injection Hi as <-.
      exists c, sn. rewrite Nat.add_0_r. subst cn. auto.
    + cbn [nth_error] in Hi. destruct (IH (S idx) H i s Hi) as (c' & n & Hc' & Hs & Hn).
      exists c', n. replace (idx + S i)%nat with (S idx + i)%nat by lia. auto.
Qed.

Lemma supported_versions_loop_true (py_int : string -> option Z) (vm_ver_split : list string) :
  forall supported_vers,
    supported_versions_loop py_int vm_ver_split supported_vers = Some true ->
    exists v, In v supported_vers
              /\ components_agree py_int vm_ver_split (split_on "." v).
Proof.
  induction supported_vers as [| v vs IH]; intros H; [discriminate |].
  cbn [supported_versions_loop] in H.
  destruct (vm_ver_match py_int vm_ver_split 0 (split_on "." v)) as [[|] |] eqn:E;
    [| | discriminate].
  - exists v. split; [left; reflexivity |].
    intros i s Hi. exact (vm_ver_match_true py_int vm_ver_split _ 0%nat E i s Hi).
  - destruct (IH H) as (v' & Hin & Hagree). exists v'. split; [right; exact Hin | exact Hagree].
Qed.

Lemma first_component_error (py_int : string -> option Z) (vm_ver_split : list string)
      (c : string) (cs : list string) (v0 : string) (vers : list string)
      (s0 : string) (ss : list string) (n : Z) :
  vm_ver_split = c :: cs -> py_int c = None ->
  split_on "." v0 = s0 :: ss -> py_int s0 = Some n ->
  supported_versions_loop py_int vm_ver_split (v0 :: vers) = None.
Proof.
  intros -> Hc Hv0 Hs0. cbn [supported_versions_loop]. rewrite Hv0.
  cbn [vm_ver_match nth_error]. rewrite Hs0, Hc. reflexivity.
Qed.

(** X16. is_vm_supported_for_extension at its edges, for every order of
    the keys.  A distribution name that starts with no key of the table
    is answered False and its version is never read, so nothing is
    raised whatever the version is.  The answer True is given only for a
    distribution with an entry in the table and a version that has, for
    some supported version of that entry, each of its components at the
    same place with the same number.  For a distribution with an entry,
    a version whose first component [int] refuses (an empty or
    non-numeric version, 'stretch/sid') gives no answer: the ValueError
    leaves the function. *)
Theorem is_vm_supported_for_extension_edges
        (py_int : string -> option Z) (keys_order : list (string * list string))
        (vm_dist vm_ver : string) :
  Permutation keys_order supported_dists ->
  ((forall entry, In entry supported_dists -> dist_key_matches vm_dist entry = false) ->
   is_vm_supported_for_extension_in py_int keys_order vm_dist vm_ver
   = Some (false, vm_dist, vm_ver))
  /\ (forall r,
        is_vm_supported_for_extension_in py_int keys_order vm_dist vm_ver = Some r ->
        fst (fst r) = true ->
        exists k vers v,
          In (k, vers) supported_dists /\ startswith k (lower vm_dist) = true
          /\ In v vers
          /\ components_agree py_int (split_on "." vm_ver) (split_on "." v))
  /\ (reads_decimals py_int ->
      forall k vers c cs,
        In (k, vers) supported_dists -> startswith k (lower vm_dist) = true ->
        split_on "." vm_ver = c :: cs -> py_int c = None ->
        is_vm_supported_for_extension_in py_int keys_order vm_dist vm_ver = None).
Proof.
  intros Hperm. unfold is_vm_supported_for_extension_in.
  split; [| split].
  - intros Hnone.
    rewrite (supported_dists_loop_order py_int vm_dist vm_ver keys_order Hperm).
    rewrite supported_dists_loop_filter. rewrite (no_matching_entry vm_dist Hnone).
    reflexivity.
  - intros r Hr Htrue.
    rewrite (supported_dists_loop_order py_int vm_dist vm_ver keys_order Hperm) in Hr.
    rewrite supported_dists_loop_filter in Hr.
    pose proof (matching_entries_short vm_dist) as Hlen.
    destruct (filter (dist_key_matches vm_dist) supported_dists) as [| [k vers] [| e' l]] eqn:Ef.
    + cbn [supported_dists_loop] in Hr. injection Hr as <-. discriminate Htrue.
    + assert (Hin : In (k, vers) (filter (dist_key_matches vm_dist) supported_dists))
        by (rewrite Ef; left; reflexivity).
      apply filter_In in Hin. destruct Hin as [Hin Hk].
      unfold dist_key_matches in Hk. cbn [fst] in Hk.
      rewrite (supported_dists_loop_one py_int k vers vm_dist vm_ver Hk) in Hr.
      destruct (supported_versions_loop py_int (split_on "." vm_ver) vers) as [b |] eqn:E;
        [| discriminate].
      injection Hr as <-. cbn [fst] in Htrue. subst b.
      destruct (supported_versions_loop_true py_int _ vers E) as (v & Hv & Hagree).
      exists k, vers, v. auto.
    + simpl in Hlen. lia.
  - intros Hint k vers c cs Hentry Hk Hsplit Hc.
    rewrite (supported_dists_loop_entry py_int keys_order k vers vm_dist vm_ver Hperm Hentry Hk).
    assert (Herr : supported_versions_loop py_int (split_on "." vm_ver) vers = None).
    { unfold supported_dists in Hentry. cbn [In] in Hentry.
      repeat (destruct Hentry as [Hentry | Hentry];
              [injection Hentry as <- <-;
               eapply (first_component_error py_int _ c cs);
               [exact Hsplit | exact Hc | reflexivity | apply Hint; reflexivity] |]).
      destruct Hentry. }
    rewrite Herr. reflexivity.
Qed.

Lemma is_vm_supported_for_extension_edges_witness :
  is_vm_supported_for_extension_in decimal_int supported_dists "Fedora" "not a version"
  = Some (false, "Fedora", "not a version")
  /\ is_vm_supported_for_extension_in decimal_int supported_dists "debian" "stretch/sid" = None.
Proof.
  assert (Hint : reads_decimals decimal_int) by (intros s n H; exact H).
  split.
  - apply (proj1 (is_vm_supported_for_extension_edges decimal_int supported_dists
                    "Fedora" "not a version" (Permutation_refl _))).
    intros entry Hin. unfold supported_dists in Hin. cbn [In] in Hin.
    repeat (destruct Hin as [<- | Hin]; [reflexivity |]). destruct Hin.
  - apply (proj2 (proj2 (is_vm_supported_for_extension_edges decimal_int supported_dists
                           "debian" "stretch/sid" (Permutation_refl _)))
             Hint "debian" ["6"; "7"; "8"] "stretch/sid" [])%string.
    + unfold supported_dists. cbn [In]. tauto.
    + reflexivity.
    + reflexivity.
    + reflexivity.
Defined.

(* ------------------------------------------------------------------ *)
(** ** The latest settings sequence number *)

Lemma match_literal_iff :
  forall lit s r, match_literal lit s = Some r <-> s = (lit ++ r)%string.
Proof.
  induction lit as [| a lit IH]; intros s r.
  - simpl. split; [intros H; injection H as ->; reflexivity | intros ->; reflexivity].
  - destruct s as [| c s]; simpl.
    + split; discriminate.
    + destruct (Ascii.eqb_spec a c) as [-> | Hne].
      * rewrite IH. split; [intros ->; reflexivity | intros H; injection H as ->; reflexivity].
      * split; [discriminate | intros H; injection H as Hc _; congruence].
Qed.

Lemma match_digits_iff :
  forall k g,
    match_classes (repeat is_digit k) g = Some EmptyString
    <-> String.length g = k /\ all_chars is_digit g = true.
Proof.
  induction k as [| k IH]; intros g.
  - simpl. destruct g; simpl.
    + split; auto.
    + split; [discriminate | intros [H _]; discriminate].
  - destruct g as [| c g]; cbn [repeat match_classes String.length all_chars].
    + split; [discriminate | intros [H _]; discriminate].
    + destruct (is_digit c); cbn [andb].
      * rewrite IH. split; intros [H1 H2]; split; auto; lia.
      * split; [discriminate | intros [_ H]; discriminate].
Qed.

Lemma all_chars_impl (p q : ascii -> bool) :
  (forall c, p c = true -> q c = true) ->
  forall s, all_chars p s = true -> all_chars q s = true.
Proof.
  intros Hpq. induction s as [| c s IH]; intros H; [reflexivity |].
  simpl in *. apply andb_true_iff in H. destruct H as [Hc Hs].
  rewrite (Hpq c Hc), (IH Hs). reflexivity.
Qed.

Lemma digit_not_dot (c : ascii) : is_digit c = true -> negb (Ascii.eqb c ".") = true.
Proof.
  intros H. destruct (Ascii.eqb_spec c "."%char) as [-> | _]; [| reflexivity].
  vm_compute in H. discriminate.
Qed.

Lemma decimal_digits_value :
  forall d acc, all_chars is_digit d = true -> 0 <= acc ->
    exists n, decimal_digits acc d = Some n /\ 0 <= n.
Proof.
  induction d as [| c d IH]; intros acc Hd Hacc.
  - exists acc. auto.
  - simpl in Hd. apply andb_true_iff in Hd. destruct Hd as [Hc Hd].
    cbn [decimal_digits]. rewrite Hc. apply IH; [exact Hd | lia].
Qed.

Lemma decimal_int_value (d : string) :
  all_chars is_digit d = true -> d <> EmptyString ->
  exists n, decimal_int d = Some n /\ 0 <= n.
Proof.
  intros Hd Hne. destruct d as [| c d]; [congruence |].
  unfold decimal_int. apply decimal_digits_value; [exact Hd | lia].
Qed.

(** The first component of a name that starts with digits and a dot. *)
Lemma first_component_digits (d rest : string) :
  all_chars is_digit d = true ->
  hd EmptyString (split_on "." (d ++ "." ++ rest)) = d.
Proof.
  intros Hd. change (d ++ "." ++ rest)%string with (d ++ String "." rest)%string.
  rewrite split_on_app_sep.
  rewrite (split_on_free "." d (all_chars_impl _ _ digit_not_dot d Hd)). reflexivity.
Qed.

(** The shape of the names that pass the pattern. *)
Lemma settings_file_shape (name : string) :
  settings_file_match name = true
  <-> exists digits rest,
       name = (digits ++ ".settings" ++ rest)%string
       /\ all_chars is_digit digits = true
       /\ (1 <= String.length digits <= 10)%nat.
Proof.
  unfold settings_file_match. rewrite existsb_exists. split.
  - intros (k & Hk & Hm). apply in_seq in Hk.
    destruct (match_classes (repeat is_digit k) name) as [rest0 |] eqn:E; [| discriminate].
    destruct (match_literal ".settings" rest0) as [rest |] eqn:El; [| discriminate].
    apply match_classes_iff in E. destruct E as (g & -> & Hg).
    apply match_digits_iff in Hg. destruct Hg as [Hlen Hdig].
    apply match_literal_iff in El. subst rest0.
    exists g, rest. split; [reflexivity |]. split; [exact Hdig | lia].
  - intros (digits & rest & -> & Hdig & Hlen).
    exists (String.length digits). split; [apply in_seq; lia |].
    assert (E : match_classes (repeat is_digit (String.length digits))
                              (digits ++ ".settings" ++ rest)
                = Some (".settings" ++ rest)%string).
    { apply match_classes_iff. exists digits. split; [reflexivity |].
      apply match_digits_iff. auto. }
    rewrite E. rewrite match_literal_app. reflexivity.
Qed.

(** The number read from a name that passes the pattern. *)
Lemma settings_file_number (py_int : string -> option Z) (name : string) :
  reads_decimals py_int ->
  settings_file_match name = true ->
  exists digits n,
    hd EmptyString (split_on "." name) = digits
    /\ startswith (digits ++ ".settings") name = true
    /\ decimal_int digits = Some n
    /\ py_int (hd EmptyString (split_on "." name)) = Some n
    /\ 0 <= n.
Proof.
  intros Hint Hm. apply settings_file_shape in Hm.
  destruct Hm as (digits & rest & -> & Hdig & Hlen).
  assert (Hne : digits <> EmptyString) by (intros ->; simpl in Hlen; lia).
  destruct (decimal_int_value digits Hdig Hne) as (n & Hn & Hpos).
  exists digits, n.
  assert (Hhd : hd EmptyString (split_on "." (digits ++ ".settings" ++ rest)) = digits).
  { exact (first_component_digits digits ("settings" ++ rest) Hdig). }
  split; [exact Hhd |]. split.
  - rewrite <- string_app_assoc. apply startswith_app.
  - split; [exact Hn |]. split; [rewrite Hhd; apply Hint; exact Hn | exact Hpos].
Qed.

(** X17. The names get_latest_seq_no takes for settings files, and the
    number it reads from them: a name passes the pattern exactly when
    it is one to ten decimal digits, then '.settings', then anything
    (the pattern is only anchored at the start, so '3.settings.bak'
    passes; eleven digits or no digit do not); for such a name the
    text before the first dot is the digits, and [int] of it is their
    decimal value, never negative: reading the number never raises. *)
Theorem settings_file_name_rule (py_int : string -> option Z) (name : string) :
  reads_decimals py_int ->
  (settings_file_match name = true
   <-> exists digits rest,
        name = (digits ++ ".settings" ++ rest)%string
        /\ all_chars is_digit digits = true
        /\ (1 <= String.length digits <= 10)%nat)
  /\ (settings_file_match name = true ->
      exists digits n,
        hd EmptyString (split_on "." name) = digits
        /\ startswith (digits ++ ".settings") name = true
        /\ decimal_int digits = Some n
        /\ py_int (hd EmptyString (split_on "." name)) = Some n
        /\ 0 <= n).
Proof.
  intros Hint. split.
  - apply settings_file_shape.
  - apply settings_file_number. exact Hint.
Qed.

Lemma settings_file_name_rule_witness :
  exists digits n,
    hd EmptyString (split_on "." "12.settings.bak") = digits
    /\ startswith (digits ++ ".settings") "12.settings.bak" = true
    /\ decimal_int digits = Some n
    /\ decimal_int (hd EmptyString (split_on "." "12.settings.bak")) = Some n
    /\ 0 <= n.
Proof.
  assert (Hint : reads_decimals decimal_int) by (intros s n H; exact H).
  apply (proj2 (settings_file_name_rule decimal_int "12.settings.bak" Hint)).
  reflexivity.
Defined.

Section LatestSeqNoProofs.

Variable py_int : string -> option Z.
Variable getmtime : string -> option Z.
Variable config_dir : string.
Hypothesis Hint : reads_decimals py_int.

Let mtime := mtime_of getmtime config_dir.
Let scan_files := scan_settings_files py_int getmtime config_dir.

Lemma seq_no_of_settings_file (file : string) :
  is_settings_file file = true ->
  exists n, seq_no_of py_int file = Some n /\ 0 <= n.
Proof.
  intros Hm. unfold is_settings_file in Hm.
  destruct (settings_file_number py_int (basename file) Hint Hm)
    as (digits & n & _ & _ & _ & Hn & Hpos).
  exists n. split; [exact Hn | exact Hpos].
Qed.

Lemma scan_settings_files_app :
  forall a b st,
    scan_files (a ++ b)%list st
    = match scan_files a st with
      | (st', true) => scan_files b st'
      | (st', false) => (st', false)
      end.
Proof.
  unfold scan_files.
  induction a as [| f a IH]; intros b st; [reflexivity |].
  cbn [app scan_settings_files].
  destruct (scan_settings_file py_int getmtime config_dir st f) as [st' |]; [apply IH | reflexivity].
Qed.

Lemma scan_settings_walk_flat :
  forall walk st,
    scan_settings_walk py_int getmtime config_dir walk st = scan_files (walk_files walk) st.
Proof.
  induction walk as [| [[dir_name sub_dirs] files] walk IH]; intros st; [reflexivity |].
  cbn [scan_settings_walk]. unfold walk_files. cbn [flat_map snd].
  rewrite scan_settings_files_app. fold scan_files.
  destruct (scan_files files st) as [st' [|]]; [apply IH | reflexivity].
Qed.

(** One more settings file whose time can be read. *)
Lemma scan_settings_file_inv (st : seq_scan) (seen : list string) (file : string) :
  scan_inv py_int mtime st seen ->
  is_settings_file file = true ->
  mtime file <> None ->
  exists st',
    scan_settings_file py_int getmtime config_dir st file = Some st'
    /\ scan_inv py_int mtime st' (seen ++ [file]).
Proof.
  intros Hinv Hm Ht.
  destruct (seq_no_of_settings_file file Hm) as (n & Hn & Hpos).
  destruct (mtime file) as [t |] eqn:Et; [| congruence]. clear Ht.
  unfold scan_settings_file. unfold is_settings_file in Hm. rewrite Hm. cbn [negb].
  unfold seq_no_of in Hn. rewrite Hn.
  unfold mtime, mtime_of in Et. rewrite Et.
  unfold scan_inv in Hinv.
  destruct (latest_time st) as [t0 |] eqn:E0.
  - destruct Hinv as (f0 & (pre & post & Hseen & Ht0 & Hpre & Hpost) & Hseq0 & Hpos0).
    destruct (Z.ltb_spec t0 t) as [Hlt | Hge].
    + eexists. split; [reflexivity |].
      unfold scan_inv. cbn [latest_time latest_seq_no].
      exists file. split; [| split; [exact Hn | exact Hpos]].
      exists seen, []. split; [reflexivity |]. split; [exact Et |].
      split; [| intros g tg []].
      intros g tg Hg Htg. rewrite Hseen in Hg. apply in_app_or in Hg.
      destruct Hg as [Hg | [<- | Hg]].
      * pose proof (Hpre g tg Hg Htg). lia.
      * assert (tg = t0) by congruence. lia.
      * pose proof (Hpost g tg Hg Htg). lia.
    + exists st. split; [reflexivity |].
      unfold scan_inv. rewrite E0.
      exists f0. split; [| split; [exact Hseq0 | exact Hpos0]].
      exists pre, (post ++ [file])%list.
      split; [rewrite Hseen, <- app_assoc; reflexivity |].
      split; [exact Ht0 |]. split; [exact Hpre |].
      intros g tg Hg Htg. apply in_app_or in Hg. destruct Hg as [Hg | [<- | []]].
      * exact (Hpost g tg Hg Htg).
      * assert (tg = t) by (unfold mtime, mtime_of in Htg; congruence). lia.
  - destruct Hinv as [-> Hseq].
    eexists. split; [reflexivity |].
    unfold scan_inv. cbn [latest_time latest_seq_no].
    exists file. split; [| split; [exact Hn | exact Hpos]].
    exists [], []. split; [reflexivity |]. split; [exact Et |].
    split; intros g tg [].
Qed.

Lemma scan_settings_files_inv :
  forall files st seen,
    scan_inv py_int mtime st seen ->
    (forall f, In f (filter is_settings_file files) -> mtime f <> None) ->
    exists st',
      scan_files files st = (st', true)
      /\ scan_inv py_int mtime st' (seen ++ filter is_settings_file files).
Proof.
  unfold scan_files.
  induction files as [| f files IH]; intros st seen Hinv Hread.
  - exists st. split; [reflexivity |]. cbn [filter]. rewrite app_nil_r. exact Hinv.
  - cbn [filter scan_settings_files] in *.
    destruct (is_settings_file f) eqn:Em.
    + destruct (scan_settings_file_inv st seen f Hinv Em (Hread f (or_introl eq_refl)))
        as (st1 & Hstep & Hinv1).
      rewrite Hstep.
      destruct (IH st1 (seen ++ [f])%list Hinv1 (fun g Hg => Hread g (or_intror Hg)))
        as (st' & Hrun & Hinv').
      exists st'. split; [exact Hrun |].
      rewrite <- app_assoc in Hinv'. exact Hinv'.
    + unfold scan_settings_file at 1. unfold is_settings_file in Em. rewrite Em. cbn [negb].
      apply IH; assumption.
Qed.

(** The scan up to a settings file whose time cannot be read. *)
Lemma scan_settings_files_stop (scanned unread : list string) (st : seq_scan) :
  scan_inv py_int mtime st [] ->
  (forall f, In f (filter is_settings_file scanned) -> mtime f <> None) ->
  (unread = []
   \/ exists f rest, unread = f :: rest /\ is_settings_file f = true /\ mtime f = None) ->
  exists st',
    fst (scan_files (scanned ++ unread)%list st) = st'
    /\ scan_inv py_int mtime st' (filter is_settings_file scanned).
Proof.
  intros Hinv Hread Hunread.
  destruct (scan_settings_files_inv scanned st [] Hinv Hread) as (st' & Hrun & Hinv').
  exists st'. split; [| exact Hinv'].
  rewrite scan_settings_files_app. rewrite Hrun.
  destruct Hunread as [-> | (f & rest & -> & Hm & Ht)]; [reflexivity |].
  unfold scan_files. cbn [scan_settings_files].
  destruct (seq_no_of_settings_file f Hm) as (n & Hn & _).
  unfold scan_settings_file. unfold is_settings_file in Hm. rewrite Hm. cbn [negb].
  unfold seq_no_of in Hn. rewrite Hn.
  unfold mtime, mtime_of in Ht. rewrite Ht. reflexivity.
Qed.

End LatestSeqNoProofs.

(** X18. get_latest_seq_no, first call (the global still None).  The
    scan stops at the first settings file whose time cannot be read
    (the path asked for is config_dir joined with the bare file name,
    also for a file found in a sub-directory); with the files scanned
    until then, or all of them when every time can be read: the result
    is 0 when no settings file was scanned; otherwise it is the number
    in the name of the settings file changed last, the first in the
    order of the walk among those of the greatest time, whether or not
    its number is the greatest.  The result is never negative, it is
    stored in the global, and a later call returns it again whatever
    the folder has become. *)
Theorem get_latest_seq_no_latest
        (py_int : string -> option Z) (getmtime : string -> option Z) (config_dir : string)
        (walk : list (string * list string * list string))
        (scanned unread : list string) :
  reads_decimals py_int ->
  walk_files walk = (scanned ++ unread)%list ->
  (forall f, In f (filter is_settings_file scanned) ->
             mtime_of getmtime config_dir f <> None) ->
  (unread = []
   \/ exists f rest, unread = f :: rest /\ is_settings_file f = true
                     /\ mtime_of getmtime config_dir f = None) ->
  let result := get_latest_seq_no py_int getmtime config_dir None walk in
  (filter is_settings_file scanned = [] -> fst result = 0)
  /\ (filter is_settings_file scanned <> [] ->
      exists file t,
        latest_of (mtime_of getmtime config_dir) (filter is_settings_file scanned) file t
        /\ seq_no_of py_int file = Some (fst result))
  /\ 0 <= fst result
  /\ snd result = Some (fst result)
  /\ (forall py_int' getmtime' config_dir' walk',
        get_latest_seq_no py_int' getmtime' config_dir' (snd result) walk'
        = (fst result, Some (fst result))).
Proof.
  intros Hint Hwalk Hread Hunread.
  assert (Hinit : scan_inv py_int (mtime_of getmtime config_dir)
                           {| latest_seq_no := -1; latest_time := None |} []).
  { unfold scan_inv. cbn [latest_time latest_seq_no]. auto. }
  destruct (scan_settings_files_stop py_int getmtime config_dir Hint scanned unread _
              Hinit Hread Hunread) as (st & Hst & Hinv).
  unfold get_latest_seq_no. cbv zeta. cbn [fst snd].
  rewrite scan_settings_walk_flat, Hwalk, Hst.
  unfold scan_inv in Hinv.
  destruct (latest_time st) as [t |] eqn:Et.
  - destruct Hinv as (file & Hlatest & Hseq & Hpos).
    destruct (Z.ltb_spec (latest_seq_no st) 0) as [Hneg | _]; [lia |].
    split; [| split; [| split; [exact Hpos | split; reflexivity]]].
    + intros Hnil. destruct Hlatest as (pre & post & Hc & _).
      rewrite Hnil in Hc. destruct pre; discriminate.
    + intros _. exists file, t. split; [exact Hlatest | exact Hseq].
  - destruct Hinv as [Hnil Hseq]. rewrite Hseq. cbn.
    split; [reflexivity |]. split; [congruence |].
    split; [lia | split; reflexivity].
Qed.

Lemma get_latest_seq_no_latest_witness :
  exists file t,
    latest_of (mtime_of sample_getmtime sample_config_dir)
              (filter is_settings_file ["7.settings"; "3.settings"; "HandlerState"]%string) file t
    /\ seq_no_of decimal_int file
       = Some (fst (get_latest_seq_no decimal_int sample_getmtime sample_config_dir
                      None sample_walk)).
Proof.
  assert (Hint : reads_decimals decimal_int) by (intros s n H; exact H).
  refine (proj1 (proj2 (get_latest_seq_no_latest decimal_int sample_getmtime sample_config_dir
                          sample_walk ["7.settings"; "3.settings"; "HandlerState"]%string []
                          Hint eq_refl _ (or_introl eq_refl))) _).
  - intros f Hf. cbn in Hf. destruct Hf as [<- | [<- | []]]; vm_compute; discriminate.
  - discriminate.
Defined.

(* ------------------------------------------------------------------ *)
(** ** Installing where nothing conflicts *)

Lemma install_cmd_not_apt (cwd : string) :
  install_cmd cwd <> "which apt-get" /\ install_cmd cwd <> "apt-get update".
Proof.
  unfold install_cmd, InstallCommandTemplate. generalize (bundle_path cwd). intros p.
  split; intros H; append_differs H.
Qed.

Lemma check_workspace_id_ok (workspace_id : string) (tr : history) :
  GUIDOnly_match workspace_id = true ->
  check_workspace_id workspace_id tr = (Ok tt, tr).
Proof. intros Hg. unfold check_workspace_id. rewrite Hg. reflexivity. Qed.

(** Nothing to probe: no onboarding script, no server configuration. *)
Lemma detect_scom_connection_nothing_installed (h : host) (tr : history) :
  path_exists h tr OMSAdminPath = false ->
  path_exists h tr OMIServerConfPath = false ->
  detect_scom_connection h tr = (Ok tt, (tr ++ [EvLog Hutil Info port_undetermined_msg])%list).
Proof.
  intros Hadmin Hconf.
  unfold detect_scom_connection, scom_port_open_probe, bind, ask, ret.
  rewrite Hadmin. cbn [is_None andb]. rewrite Hconf. rewrite andb_false_r.
  cbn [is_None andb]. rewrite Hconf. reflexivity.
Qed.

Lemma detect_multiple_connections_nothing_installed (h : host) (workspace_id : string)
      (tr : history) :
  path_exists h tr OMSAdminPath = false ->
  scan_walk workspace_id (os_walk h tr EtcOMSAgentPath) false = Scanned false ->
  path_exists h tr OMIServerConfPath = false ->
  detect_multiple_connections h workspace_id tr
  = (Ok tt, (tr ++ [EvLog Hutil Info port_undetermined_msg])%list).
Proof.
  intros Hadmin Hwalk Hconf.
  unfold detect_multiple_connections, bind at 1, ask at 1. rewrite Hadmin.
  unfold bind at 1. unfold bind at 1. unfold ask at 1, ret at 1. rewrite Hwalk.
  apply detect_scom_connection_nothing_installed; assumption.
Qed.

(** X19. install where nothing conflicts.  With a supported VM and a
    well-formed workspace id: unless stopOnMultipleConnections is true,
    install probes nothing at all (whatever is on the machine, a SCOM
    agent included) and goes straight to the bundle; with the flag, on a
    machine that has neither the onboarding script, nor a workspace or
    scom directory under the agent configuration root, nor the OMI
    server configuration, the detection runs no command, logs that the
    SCOM port could not be determined, and install goes on to the
    bundle.  There, when the mode of the bundle cannot be changed,
    OSError is raised before anything is logged or run; once it has
    been changed, the bundle command is run at least once and at most 16
    times. *)
Theorem install_without_conflict
        (h : host) (cwd : string) (tr : history)
        (public_settings : public_settings_t)
        (protected_settings : option protected_settings_t) (workspaceId : string) :
  fst (fst (vm_support h)) = true ->
  settings h = (Some public_settings, protected_settings) ->
  pub_workspaceId public_settings = Some workspaceId ->
  GUIDOnly_match workspaceId = true ->
  (pub_stopOnMultipleConnections public_settings <> Some true ->
   install h cwd tr = install_bundle h cwd tr)
  /\ (pub_stopOnMultipleConnections public_settings = Some true ->
      path_exists h tr OMSAdminPath = false ->
      scan_walk workspaceId (os_walk h tr EtcOMSAgentPath) false = Scanned false ->
      path_exists h tr OMIServerConfPath = false ->
      install h cwd tr
      = install_bundle h cwd (tr ++ [EvLog Hutil Info port_undetermined_msg])%list)
  /\ (forall tr0,
        os_chmod h tr0 (bundle_path cwd) 100 = false ->
        install_bundle h cwd tr0 = (Raise OSError, tr0))
  /\ (forall tr0,
        os_chmod h tr0 (bundle_path cwd) 100 = true ->
        (executions (install_cmd cwd) tr0 + 1
         <= executions (install_cmd cwd) (snd (install_bundle h cwd tr0))
         <= executions (install_cmd cwd) tr0 + 16)%nat).
Proof.
  intros Hvm Hset Hid Hg.
  assert (Hstart : forall k : M Z,
             (exit_if_vm_not_supported h "Install" ;; k)%py tr = k tr).
  { intros k. unfold exit_if_vm_not_supported.
    destruct (vm_support h) as [[supported dist] ver]. simpl in Hvm. subst supported.
    reflexivity. }
  split; [| split; [| split]].
  - intros Hflag. unfold install. rewrite Hset, Hid. rewrite Hstart.
    rewrite (bind_ok _ _ _ _ _ (check_workspace_id_ok workspaceId tr Hg)).
    destruct (pub_stopOnMultipleConnections public_settings) as [[|] |];
      [congruence | reflexivity | reflexivity].
  - intros Hflag Hadmin Hwalk Hconf. unfold install. rewrite Hset, Hid. rewrite Hstart.
    rewrite (bind_ok _ _ _ _ _ (check_workspace_id_ok workspaceId tr Hg)).
    rewrite Hflag.
    rewrite (bind_ok _ _ _ _ _
               (detect_multiple_connections_nothing_installed h workspaceId tr
                  Hadmin Hwalk Hconf)).
    reflexivity.
  - intros tr0 Hchmod. unfold install_bundle. unfold bind at 1. unfold chmod at 1.
    rewrite Hchmod. reflexivity.
  - intros tr0 Hchmod.
    set (tr1 := (tr0 ++ [EvLog Hutil Info
                           ("Running command " ++ dquote ++ install_cmd cwd ++ dquote)])%list).
    assert (Hbundle : install_bundle h cwd tr0
                      = run_command_with_retries h (install_cmd cwd) 15
                          (retry_if_dpkg_locked_or_curl_is_not_found h)
                          (Some (pure_policy final_check_if_dpkg_locked))
                          true true 30 1 tr1).
    { unfold install_bundle. unfold bind at 1. unfold chmod at 1. rewrite Hchmod.
      reflexivity. }
    rewrite Hbundle.
    destruct (install_cmd_not_apt cwd) as [Hn1 Hn2].
    pose proof (retry_if_dpkg_locked_does_not_run h (install_cmd cwd) Hn1 Hn2) as Hframe.
    assert (Htr1 : executions (install_cmd cwd) tr1 = executions (install_cmd cwd) tr0).
    { unfold tr1. rewrite executions_log. reflexivity. }
    unfold run_command_with_retries. rewrite bind_unfold.
    destruct (retry_loop_bounds h (install_cmd cwd)
                (retry_if_dpkg_locked_or_curl_is_not_found h) true true 1 Hframe
                (Z.to_nat (15 + 1)) 30 None tr1) as [Hle Hge].
    specialize (Hge ltac:(discriminate)).
    destruct (retry_loop h (install_cmd cwd) (retry_if_dpkg_locked_or_curl_is_not_found h)
                true true 1 (Z.to_nat (15 + 1)) 30 None tr1) as [[last | e | c] tr2];
      cbn [snd] in Hle, Hge |- *.
    + destruct last as [[code out] |]; cbn [snd]; unfold pure_policy, ret, raise; cbn [snd];
        change (Z.to_nat (15 + 1)) with 16%nat in Hle; lia.
    + change (Z.to_nat (15 + 1)) with 16%nat in Hle; lia.
    + change (Z.to_nat (15 + 1)) with 16%nat in Hle; lia.
Qed.

Lemma install_without_conflict_witness :
  install clean_host sample_cwd []
  = install_bundle clean_host sample_cwd ([] ++ [EvLog Hutil Info port_undetermined_msg])%list
  /\ fst (install clean_host sample_cwd []) = Ok 0
  /\ install (with_chmod_failure clean_host) sample_cwd []
     = (Raise OSError, [EvLog Hutil Info port_undetermined_msg]).
Proof.
  split; [| split].
  - apply (proj1 (proj2 (install_without_conflict clean_host sample_cwd []
                           {| pub_workspaceId := Some sample_workspace_id;
                              pub_stopOnMultipleConnections := Some true |}
                           (Some {| prot_workspaceKey := Some sample_workspace_key;
                                    prot_proxy := None;
                                    prot_vmResourceId := None |})
                           sample_workspace_id
                           eq_refl eq_refl eq_refl eq_refl)));
      reflexivity.
  - vm_compute. reflexivity.
  - destruct (install_without_conflict (with_chmod_failure clean_host) sample_cwd []
                {| pub_workspaceId := Some sample_workspace_id;
                   pub_stopOnMultipleConnections := Some true |}
                (Some {| prot_workspaceKey := Some sample_workspace_key;
                         prot_proxy := None;
                         prot_vmResourceId := None |})
                sample_workspace_id
                eq_refl eq_refl eq_refl eq_refl) as (_ & Hclean & Hfail & _).
    rewrite Hclean by reflexivity. apply Hfail. reflexivity.
Defined.
